(** * Template resolution of vscode-azurefunctions

    Shallow embedding of [src/src/funcCoreTools/validateFuncCoreToolsIsLatest.ts]
    (second half: the [TemplateData] container, [verifyTemplatesByRuntime],
    [getTemplateData] with its four-tier fallback, the cache and cli-feed
    readers and [tryGetTemplateVersionSetting]).

    Modelling choices:
    - JS strings are [String.string], code units 0-255; [toLowerCase] maps
      them as JS does (ASCII and Latin-1 capitals).
    - A JS object used as a dictionary is a stdpp [gmap string _]; an absent
      key and a key bound to [undefined] read the same ([undefined]), so the
      map only stores defined values.
    - A thrown exception is the [Err] case of [res]; code runs in a state
      monad [M] whose errors keep the state reached so far (JS has no
      rollback of mutations done before a throw).
    - Everything outside this repository (network, file system, .NET CLI,
      the template parsers, the VS Code UI) is an arbitrary [World]: every
      theorem is stated for all worlds. *)

From Stdlib Require Import String Ascii List Bool.
From stdpp Require Import base gmap strings list.
Import ListNotations.
Open Scope string_scope.
Set Warnings "-register-all".

(* ------------------------------------------------------------------ *)
(** ** Constants of [src/constants.ts] and [IFunctionTemplate.ts] *)

(** [enum ProjectRuntime { one = '~1', beta = 'beta' }]; [Object.keys]
    enumerates [one] then [beta]. *)
Inductive ProjectRuntime := one | beta.

Definition ProjectRuntime_value (r : ProjectRuntime) : string :=
  match r with one => "~1" | beta => "beta" end.

Definition ProjectRuntime_keys : list ProjectRuntime := [one; beta].

Definition ProjectLanguage_Java : string := "Java".
Definition ProjectLanguage_JavaScript : string := "JavaScript".

Definition TemplateFilter_All : string := "All".
Definition TemplateFilter_Core : string := "Core".
Definition TemplateFilter_Verified : string := "Verified".

Definition TemplateCategory_Core : string := "$temp_category_core".

(** The fields of [IFunctionTemplate] that the resolver reads. *)
Record IFunctionTemplate := mkTemplate {
  id : string;
  name : string;
  language : string;
  categories : list string
}.

(* ------------------------------------------------------------------ *)
(** ** Results and the state/error monad *)

(** A computation either returns a value or throws an error message. *)
Inductive res (A : Type) : Type :=
| Ok (a : A)
| Err (e : string).
Arguments Ok {A} a.
Arguments Err {A} e.

(* ------------------------------------------------------------------ *)
(** ** String helpers *)

(** The lower case of one code unit below 256: [A-Z] and the Latin-1
    capitals U+00C0 to U+00DE except the multiplication sign U+00D7. *)
Definition lower_ascii (c : ascii) : ascii :=
  let n := nat_of_ascii c in
  if ((65 <=? n)%nat && (n <=? 90)%nat) ||
     ((192 <=? n)%nat && (n <=? 222)%nat && negb (n =? 215)%nat)
  then ascii_of_nat (n + 32) else c.

(** A double quote, for the messages that contain one. *)
Definition dquote : string := String (ascii_of_nat 34) EmptyString.

(** [String.prototype.toLowerCase] on code units below 256. *)
Fixpoint toLowerCase (s : string) : string :=
  match s with
  | EmptyString => EmptyString
  | String c s' => String (lower_ascii c) (toLowerCase s')
  end.

(** [id.split('-')[0]]: the characters before the first ['-'], or the whole
    string when it has none. *)
Fixpoint split_dash_first (s : string) : string :=
  match s with
  | EmptyString => EmptyString
  | String c s' =>
      if Ascii.eqb c "-"%char then EmptyString else String c (split_dash_first s')
  end.

Definition removeLanguageFromId (id : string) : string := split_dash_first id.

(** [s.includes(sub)]. *)
Fixpoint includes (s sub : string) : bool :=
  String.prefix sub s ||
  match s with
  | EmptyString => false
  | String _ s' => includes s' sub
  end.

(** Strict equality [===] between [string | undefined] values. *)
Definition opt_str_eqb (a b : option string) : bool :=
  match a, b with
  | Some x, Some y => String.eqb x y
  | None, None => true
  | _, _ => false
  end.

(* ------------------------------------------------------------------ *)
(** ** Verified template lists *)

Definition verifiedV1Templates : list string := [
  "BlobTrigger-JavaScript";
  "GenericWebHook-JavaScript";
  "GitHubWebHook-JavaScript";
  "HttpTrigger-JavaScript";
  "HttpTriggerWithParameters-JavaScript";
  "ManualTrigger-JavaScript";
  "QueueTrigger-JavaScript";
  "TimerTrigger-JavaScript";
  "Azure.Function.CSharp.HttpTrigger.1.x";
  "Azure.Function.CSharp.BlobTrigger.1.x";
  "Azure.Function.CSharp.QueueTrigger.1.x";
  "Azure.Function.CSharp.TimerTrigger.1.x"].

Definition verifiedV2Templates : list string := [
  "BlobTrigger-JavaScript";
  "HttpTrigger-JavaScript";
  "QueueTrigger-JavaScript";
  "TimerTrigger-JavaScript";
  "Azure.Function.CSharp.HttpTrigger.2.x";
  "Azure.Function.CSharp.BlobTrigger.2.x";
  "Azure.Function.CSharp.QueueTrigger.2.x";
  "Azure.Function.CSharp.TimerTrigger.2.x"].

Definition verifiedJavaTemplates : list string := [
  "HttpTrigger"; "BlobTrigger"; "QueueTrigger"; "TimerTrigger"].

(** [arr.find((vt) => vt === x) !== undefined] on a list of strings. *)
Definition str_mem (x : string) (l : list string) : bool :=
  existsb (fun vt => String.eqb vt x) l.

(* ------------------------------------------------------------------ *)
(** ** [class TemplateData] *)

Record TemplateData := mkTemplateData {
  _templatesMap : gmap string (list IFunctionTemplate)
}.

Definition _noInternetErrMsg : string :=
  "There was an error in retrieving the templates.  Recheck your internet connection and try again.".

(** [TemplateData.getTemplates(language, runtime, templateFilter?)]; the
    optional [templateFilter] is [None] when omitted.  The method only reads
    [this._templatesMap], so it is a function of the container. *)
Definition getTemplates (td : TemplateData) (language_ : string) (runtime : string)
    (templateFilter : option string) : res (list IFunctionTemplate) :=
  match _templatesMap td !! runtime with
  | None => Err _noInternetErrMsg
  | Some templates =>
      if String.eqb language_ ProjectLanguage_Java then
        let javaTemplates :=
          List.filter (fun t => String.eqb (language t) ProjectLanguage_JavaScript) templates in
        Ok (List.filter (fun t => str_mem (removeLanguageFromId (id t)) verifiedJavaTemplates)
                   javaTemplates)
      else
        let filterTemplates :=
          List.filter (fun t => String.eqb (toLowerCase (language t)) (toLowerCase language_))
                 templates in
        if opt_str_eqb templateFilter (Some TemplateFilter_All) then
          Ok filterTemplates
        else if opt_str_eqb templateFilter (Some TemplateFilter_Core) then
          Ok (List.filter (fun t => str_mem TemplateCategory_Core (categories t)) filterTemplates)
        else
          (* case TemplateFilter.Verified: and default: *)
          let verifiedTemplates :=
            if String.eqb runtime (ProjectRuntime_value one)
            then verifiedV1Templates else verifiedV2Templates in
          Ok (List.filter (fun t => str_mem (id t) verifiedTemplates) filterTemplates)
  end.

(* ------------------------------------------------------------------ *)
(** ** JSON values, the Memento and the cli-feed *)

(** Raw JSON as read from disk, parsed from the .NET CLI or kept in the
    Memento. *)
Inductive json :=
| JNull
| JBool (b : bool)
| JNum (n : Z)
| JStr (s : string)
| JArr (l : list json)
| JObj (fields : list (string * json)).

(** JS truthiness of a [json | undefined] value. *)
Definition js_truthy (v : option json) : bool :=
  match v with
  | None | Some JNull => false
  | Some (JBool b) => b
  | Some (JNum n) => negb (Z.eqb n 0)
  | Some (JStr s) => negb (String.eqb s "")
  | Some (JArr _) | Some (JObj _) => true
  end.

(** JS truthiness of a [string | undefined] value. *)
Definition str_truthy (v : option string) : bool :=
  match v with None => false | Some s => negb (String.eqb s "") end.

(** [globalState.get(key) === templateVersion]. *)
Definition js_eq_json_str (v : option json) (s : option string) : bool :=
  match v, s with
  | None, None => true
  | Some (JStr a), Some b => String.eqb a b
  | _, _ => false
  end.

(** [vscode.Memento] as a key-value store. *)
Abbreviation Memento := (gmap string json).

(** [cliFeedJsonResponse]: [tags[feedRuntime].release] and
    [releases[version].{templateApiZip, itemTemplates, projectTemplates}]. *)
Record cliFeedRelease := mkRelease {
  templateApiZip : string;
  itemTemplates : string;
  projectTemplates : string
}.

Record cliFeedJsonResponse := mkFeed {
  tags : gmap string string;
  releases : gmap string cliFeedRelease
}.

(** Property access on a missing entry throws a [TypeError]. *)
Definition tag_release (f : cliFeedJsonResponse) (feedRuntime : string) : res string :=
  match tags f !! feedRuntime with
  | Some r => Ok r
  | None => Err "TypeError: Cannot read property 'release' of undefined"
  end.

Definition release_of (f : cliFeedJsonResponse) (v : string) : res cliFeedRelease :=
  match releases f !! v with
  | Some r => Ok r
  | None => Err "TypeError: Cannot read property of undefined"
  end.

(* ------------------------------------------------------------------ *)
(** ** The outside world *)

(** Answer to the "invalid template version" warning of
    [tryGetTemplateVersionSetting]: a release picked in the quick pick,
    "Use latest", or a dismissed prompt (which throws a cancellation). *)
Inductive VersionAnswer :=
| PickRelease (label : string)
| PickLatest
| CancelPrompt.

(** Outcomes of everything the resolver calls outside this repository. *)
Record World := mkWorld {
  (** [await tryGetCliFeedJson()] *)
  w_cliFeedJson : option cliFeedJsonResponse;
  (** [getFeedRuntime(runtime)] *)
  w_getFeedRuntime : ProjectRuntime -> string;
  w_versionAnswer : ProjectRuntime -> VersionAnswer;
  (** [downloadFile(url, filePath)] *)
  w_downloadFile : string -> string -> res unit;
  (** [extract(filePath, { dir: tempPath })] *)
  w_extract : string -> res unit;
  (** [dotnetUtils.validateDotnetInstalled()] *)
  w_validateDotnetInstalled : res unit;
  w_dotnetProjectTemplatePath : ProjectRuntime -> string;
  w_dotnetItemTemplatePath : ProjectRuntime -> string;
  (** [JSON.parse(await executeDotnetTemplateCommand(runtime, undefined, 'list'))] *)
  w_dotnetTemplateList : ProjectRuntime -> res json;
  (** [fse.readJSON(path)] after the archive of a release was extracted *)
  w_readJSON : string -> string -> res json;
  (** [parseScriptTemplates(rawResources, rawTemplates, rawConfig)] *)
  w_parseScriptTemplates : json -> json -> json -> res (list IFunctionTemplate);
  (** [parseDotnetTemplates(rawTemplates, runtime)] *)
  w_parseDotnetTemplates : json -> ProjectRuntime -> res (list IFunctionTemplate);
  (** [fse.pathExists(tempPath)] and [fse.remove(tempPath)] *)
  w_pathExists : res bool;
  w_remove : res unit;
  (** [os.tmpdir()] *)
  w_tmpdir : string
}.

(* ------------------------------------------------------------------ *)
(** ** The state monad with exceptions *)

(** The four tiers of [getTemplateData]. *)
Inductive Tier := MatchingCache | CliFeed | MismatchCache | BackupCliFeed.

(** Ghost record of one tier attempt: runtime, tier and what it returned. *)
Record Attempt := mkAttempt {
  at_runtime : ProjectRuntime;
  at_tier : Tier;
  at_result : option (list IFunctionTemplate)
}.

Record state := mkState {
  (** the [globalState] Memento, when one is supplied *)
  st_globalState : option Memento;
  (** the local [templatesMap] of [getTemplateData] *)
  st_templatesMap : gmap string (list IFunctionTemplate);
  (** the user setting [templateVersionSetting] *)
  st_templateVersionSetting : option string;
  (** ghost: tier attempts, newest last *)
  st_ghost : list Attempt
}.

Definition M (A : Type) : Type := state -> res A * state.

Global Instance M_ret : MRet M := fun A a s => (Ok a, s).
Global Instance M_bind : MBind M := fun A B f m s =>
  match m s with
  | (Ok a, s') => f a s'
  | (Err e, s') => (Err e, s')
  end.

Definition throw {A} (e : string) : M A := fun s => (Err e, s).

Definition lift {A} (r : res A) : M A := fun s => (r, s).

(** [try { m } catch (e) { h(e) }] *)
Definition tryCatch {A} (m : M A) (h : string -> M A) : M A := fun s =>
  match m s with
  | (Ok a, s') => (Ok a, s')
  | (Err e, s') => h e s'
  end.

(** [try { m } finally { f }]: an error of [f] replaces the outcome of [m]. *)
Definition tryFinally {A} (m : M A) (f : M unit) : M A := fun s =>
  match m s with
  | (r, s1) =>
      match f s1 with
      | (Ok _, s2) => (r, s2)
      | (Err e, s2) => (Err e, s2)
      end
  end.

Definition gets {A} (g : state -> A) : M A := fun s => (Ok (g s), s).
Definition modify (g : state -> state) : M unit := fun s => (Ok tt, g s).

Definition set_globalState (s : state) (m : option Memento) : state :=
  mkState m (st_templatesMap s) (st_templateVersionSetting s) (st_ghost s).
Definition set_templatesMap (s : state) (m : gmap string (list IFunctionTemplate)) : state :=
  mkState (st_globalState s) m (st_templateVersionSetting s) (st_ghost s).
Definition set_setting (s : state) (v : option string) : state :=
  mkState (st_globalState s) (st_templatesMap s) v (st_ghost s).
Definition set_ghost (s : state) (g : list Attempt) : state :=
  mkState (st_globalState s) (st_templatesMap s) (st_templateVersionSetting s) g.

(** [globalState.get(key)] *)
Definition is_Some_b {A} (o : option A) : bool :=
  match o with Some _ => true | None => false end.

Definition gs_get (key : string) : M (option json) :=
  gets (fun s => match st_globalState s with Some m => m !! key | None => None end).

(** [globalState.update(key, value)] *)
Definition gs_update (key : string) (v : json) : M unit :=
  modify (fun s => set_globalState s (option_map (insert key v) (st_globalState s))).

(** [updateGlobalSetting(templateVersionSetting, v)] *)
Definition updateTemplateVersionSetting (v : string) : M unit :=
  modify (fun s => set_setting s (Some v)).

(** [callWithTelemetryAndErrorHandling(...)] reports and swallows errors. *)
Definition callWithTelemetryAndErrorHandling (m : M unit) : M unit := fun s =>
  match m s with (_, s') => (Ok tt, s') end.

(* ------------------------------------------------------------------ *)
(** ** Keys and paths *)

Definition templatesKey : string := "FunctionTemplates".
Definition configKey : string := "FunctionTemplateConfig".
Definition resourcesKey : string := "FunctionTemplateResources".
Definition dotnetTemplatesKey : string := "DotnetTemplates".
Definition templateVersionKey : string := "templateVersion".

Definition path_join (a b : string) : string := a ++ "/" ++ b.

Definition tempPath (w : World) : string :=
  path_join (w_tmpdir w) "vscode-azurefunctions-templates".

(** [getRuntimeKey(baseKey, runtime)] *)
Definition getRuntimeKey (baseKey : string) (runtime : ProjectRuntime) : string :=
  match runtime with
  | one => baseKey
  | _ => baseKey ++ "." ++ ProjectRuntime_value runtime
  end.

(** [`${templateVersionKey}-${runtime}`] *)
Definition versionKey (runtime : ProjectRuntime) : string :=
  templateVersionKey ++ "-" ++ ProjectRuntime_value runtime.

(* ------------------------------------------------------------------ *)
(** ** [verifyTemplatesByRuntime] *)

(** The [for ... of] loop: throws on the first verified id with no template. *)
Fixpoint verifyEach (templates : list IFunctionTemplate) (ids : list string) : M unit :=
  match ids with
  | [] => mret tt
  | verifiedTemplateId :: rest =>
      if existsb (fun t => String.eqb (id t) verifiedTemplateId) templates
      then verifyEach templates rest
      else throw ("Failed to find verified template with id " ++ dquote ++ verifiedTemplateId ++
                  dquote ++ ".")
  end.

(** Which verified list a runtime uses ([runtime === ProjectRuntime.one]). *)
Definition verifiedTemplatesFor (runtime : ProjectRuntime) : list string :=
  match runtime with one => verifiedV1Templates | _ => verifiedV2Templates end.

Definition verifyTemplatesByRuntime (w : World) (templates : list IFunctionTemplate)
    (runtime : ProjectRuntime) : M unit :=
  let verifiedTemplates := verifiedTemplatesFor runtime in
  verifiedTemplates ← @tryCatch (list string)
    (lift (w_validateDotnetInstalled w);; mret verifiedTemplates)
    (* Don't verify dotnet templates if the .NET CLI isn't even installed *)
    (fun _ => mret (List.filter (fun id => negb (includes id "CSharp")) verifiedTemplates));
  verifyEach templates verifiedTemplates.

(* ------------------------------------------------------------------ *)
(** ** Downloads *)

Definition downloadAndExtractTemplates (w : World) (templateUrl release : string) : M unit :=
  let filePath := path_join (tempPath w) ("templates-" ++ release ++ ".zip") in
  lift (w_downloadFile w templateUrl filePath);;
  lift (w_extract w filePath).

Definition downloadAndExtractCSharpTemplates (w : World) (cliFeedJson : cliFeedJsonResponse)
    (templateVersion : string) (runtime : ProjectRuntime) : M json :=
  installed ← @tryCatch bool (lift (w_validateDotnetInstalled w);; mret true) (fun _ => mret false);
  if (installed : bool) then
    let projectFilePath := w_dotnetProjectTemplatePath w runtime in
    rel ← lift (release_of cliFeedJson templateVersion);
    lift (w_downloadFile w (projectTemplates rel) projectFilePath);;
    let itemFilePath := w_dotnetItemTemplatePath w runtime in
    rel' ← lift (release_of cliFeedJson templateVersion);
    lift (w_downloadFile w (itemTemplates rel') itemFilePath);;
    lift (w_dotnetTemplateList w runtime)
  else mret (JArr []).

(* ------------------------------------------------------------------ *)
(** ** [tryGetParsedTemplateDataFromCache] *)

(** The function parses whatever the cache holds into [templates] and then,
    as written, returns [undefined] in every case. *)
Definition tryGetParsedTemplateDataFromCache (w : World) (runtime : ProjectRuntime)
    : M (option (list IFunctionTemplate)) :=
  tryCatch
    (cachedResources ← gs_get (getRuntimeKey resourcesKey runtime);
     cachedTemplates ← gs_get (getRuntimeKey templatesKey runtime);
     cachedConfig ← gs_get (getRuntimeKey configKey runtime);
     templates ←
       match cachedResources, cachedTemplates, cachedConfig with
       | Some r, Some t, Some c =>
           if js_truthy cachedResources && js_truthy cachedTemplates && js_truthy cachedConfig
           then ts ← lift (w_parseScriptTemplates w r t c); mret (app [] ts)
           else mret []
       | _, _, _ => mret []
       end;
     cachedDotnetTemplates ← gs_get (getRuntimeKey dotnetTemplatesKey runtime);
     templates ←
       match cachedDotnetTemplates with
       | Some d =>
           if js_truthy cachedDotnetTemplates
           then ts ← lift (w_parseDotnetTemplates w d runtime); mret (app templates ts)
           else mret templates
       | None => mret templates
       end;
     mret tt)
    (fun _ => mret tt);;
  mret None.

(* ------------------------------------------------------------------ *)
(** ** [tryGetParsedTemplateDataFromCliFeed] *)

(** The [try] body, up to its [return templates]. *)
Definition cliFeedBody (w : World) (cliFeedJson : cliFeedJsonResponse) (templateVersion : string)
    (runtime : ProjectRuntime) : M (option (list IFunctionTemplate)) :=
  rel ← lift (release_of cliFeedJson templateVersion);
  downloadAndExtractTemplates w (templateApiZip rel) templateVersion;;
  rawCSharpTemplates ← downloadAndExtractCSharpTemplates w cliFeedJson templateVersion runtime;
  rawResources ← lift (w_readJSON w templateVersion
                          (path_join (path_join (tempPath w) "resources") "Resources.json"));
  rawTemplates ← lift (w_readJSON w templateVersion
                          (path_join (path_join (tempPath w) "templates") "templates.json"));
  rawConfig ← lift (w_readJSON w templateVersion
                       (path_join (path_join (tempPath w) "bindings") "bindings.json"));
  templates ← lift (w_parseScriptTemplates w rawResources rawTemplates rawConfig);
  dotnet ← lift (w_parseDotnetTemplates w rawCSharpTemplates runtime);
  let templates := app templates dotnet in
  verifyTemplatesByRuntime w templates runtime;;
  gs ← gets st_globalState;
  (if is_Some_b gs then
     gs_update (versionKey runtime) (JStr templateVersion);;
     gs_update (getRuntimeKey templatesKey runtime) rawTemplates;;
     gs_update (getRuntimeKey configKey runtime) rawConfig;;
     gs_update (getRuntimeKey resourcesKey runtime) rawResources;;
     gs_update (getRuntimeKey dotnetTemplatesKey runtime) rawCSharpTemplates
   else mret tt);;
  mret (Some templates).

(** The [finally] block: remove the extraction directory. *)
Definition cleanupTempPath (w : World) : M unit :=
  exists_ ← lift (w_pathExists w);
  if (exists_ : bool) then lift (w_remove w) else mret tt.

Definition tryGetParsedTemplateDataFromCliFeed (w : World) (cliFeedJson : cliFeedJsonResponse)
    (templateVersion : string) (runtime : ProjectRuntime) : M (option (list IFunctionTemplate)) :=
  tryFinally
    (tryCatch (cliFeedBody w cliFeedJson templateVersion runtime) (fun _ => mret None))
    (cleanupTempPath w).

(* ------------------------------------------------------------------ *)
(** ** [tryGetTemplateVersionSetting] *)

Definition tryGetTemplateVersionSetting (w : World) (cliFeedJson : option cliFeedJsonResponse)
    (runtime : ProjectRuntime) : M (option string) :=
  let feedRuntime := w_getFeedRuntime w runtime in
  userTemplateVersion ← gets st_templateVersionSetting;
  tryCatch
    (match cliFeedJson with
     | Some f =>
         templateVersion ←
           (match userTemplateVersion with
            | Some u => if str_truthy userTemplateVersion then mret u
                        else lift (tag_release f feedRuntime)
            | None => lift (tag_release f feedRuntime)
            end);
         if is_Some_b (releases f !! templateVersion) then mret (Some templateVersion)
         else
           match w_versionAnswer w runtime with
           | PickRelease label =>
               updateTemplateVersionSetting label;; mret (Some label)
           | PickLatest =>
               templateVersion ← lift (tag_release f feedRuntime);
               (* reset user setting so that it always gets latest *)
               updateTemplateVersionSetting "";;
               mret (Some templateVersion)
           | CancelPrompt => throw "Operation cancelled."
           end
     | None => mret None
     end)
    (* if cliJson does not have the template version being searched for,
       it will throw an error *)
    (fun _ => mret None).

(* ------------------------------------------------------------------ *)
(** ** [getTemplateData] *)

(** Ghost instrumentation: run a tier and record what it returned. *)
Definition attempt (runtime : ProjectRuntime) (tier : Tier)
    (m : M (option (list IFunctionTemplate))) : M (option (list IFunctionTemplate)) :=
  r ← m;
  modify (fun s => set_ghost s (app (st_ghost s) [mkAttempt runtime tier r]));;
  mret r.

(** [v1ReleaseVersion] and [betaReleaseVersion] of [src/constants.ts] (not
    in this snapshot); only their being fixed strings matters here. *)
Definition v1ReleaseVersion : string := "1.0.12".
Definition betaReleaseVersion : string := "2.0.1-beta.26".

(** The callback run for one runtime inside the [for] loop. *)
Definition getTemplateDataForRuntime (w : World) (cliFeedJson : option cliFeedJsonResponse)
    (runtime : ProjectRuntime) : M unit :=
  templateVersion ← tryGetTemplateVersionSetting w cliFeedJson runtime;
  globalState ← gets st_globalState;
  (* 1. Use the cached templates if they match templateVersion *)
  parsed ←
    (match globalState with
     | Some m =>
         if js_eq_json_str (m !! versionKey runtime) templateVersion
         then attempt runtime MatchingCache (tryGetParsedTemplateDataFromCache w runtime)
         else mret None
     | None => mret None
     end);
  (* 2. Download templates from the cli-feed if the cache doesn't match *)
  parsed ←
    (match parsed, cliFeedJson, templateVersion with
     | None, Some f, Some v =>
         if str_truthy templateVersion
         then attempt runtime CliFeed (tryGetParsedTemplateDataFromCliFeed w f v runtime)
         else mret parsed
     | _, _, _ => mret parsed
     end);
  (* 3. Use the cached templates, even if they don't match templateVersion *)
  parsed ←
    (match parsed, globalState with
     | None, Some _ => attempt runtime MismatchCache (tryGetParsedTemplateDataFromCache w runtime)
     | _, _ => mret parsed
     end);
  (* 4. Download templates from the cli-feed using the backupVersion *)
  parsed ←
    (match parsed, cliFeedJson with
     | None, Some f =>
         let backupVersion :=
           match runtime with one => v1ReleaseVersion | _ => betaReleaseVersion end in
         attempt runtime BackupCliFeed (tryGetParsedTemplateDataFromCliFeed w f backupVersion runtime)
     | _, _ => mret parsed
     end);
  match parsed with
  | Some l => modify (fun s => set_templatesMap s (<[ProjectRuntime_value runtime := l]> (st_templatesMap s)))
  | None => mret tt (* Failed to get templates for this runtime *)
  end.

(** Modelled from the spec: [tryGetCliFeedJson] (utils/getCliFeedJson.ts,
    not in this snapshot).  Per the spec, feed failures are caught and
    degrade, so it yields the feed or [undefined] and does not throw. *)
Definition tryGetCliFeedJson (w : World) : M (option cliFeedJsonResponse) :=
  mret (w_cliFeedJson w).

Fixpoint forEachRuntime (w : World) (cliFeedJson : option cliFeedJsonResponse)
    (keys : list ProjectRuntime) : M unit :=
  match keys with
  | [] => mret tt
  | key :: rest =>
      callWithTelemetryAndErrorHandling (getTemplateDataForRuntime w cliFeedJson key);;
      forEachRuntime w cliFeedJson rest
  end.

Definition getTemplateData (w : World) : M TemplateData :=
  modify (fun s => set_templatesMap s ∅);;
  cliFeedJson ← tryGetCliFeedJson w;
  forEachRuntime w cliFeedJson ProjectRuntime_keys;;
  templatesMap ← gets st_templatesMap;
  mret (mkTemplateData templatesMap).

(** Initial state: the optional Memento, the user setting, no attempts. *)
Definition initState (globalState : option Memento) (setting : option string) : state :=
  mkState globalState ∅ setting [].

(* ------------------------------------------------------------------ *)
(** ** A concrete world *)

Definition js_template (tid : string) : IFunctionTemplate :=
  mkTemplate tid tid ProjectLanguage_JavaScript [].

Definition sampleRelease : cliFeedJsonResponse :=
  mkFeed (<["v1" := "2.0.0"]> (<["v2" := "2.0.0"]> ∅))
         (<["2.0.0" := mkRelease "https://feed/templates.zip" "https://feed/item.nupkg"
                                  "https://feed/project.nupkg"]> ∅).

(** The feed is reachable, the .NET CLI is absent, and every archive holds
    the verified JavaScript templates of both generations. *)
Definition sampleWorld : World := {|
  w_cliFeedJson := Some sampleRelease;
  w_getFeedRuntime := fun r => match r with one => "v1" | beta => "v2" end;
  w_versionAnswer := fun _ => PickLatest;
  w_downloadFile := fun _ _ => Ok tt;
  w_extract := fun _ => Ok tt;
  w_validateDotnetInstalled := Err "dotnet not found";
  w_dotnetProjectTemplatePath := fun _ => "project.nupkg";
  w_dotnetItemTemplatePath := fun _ => "item.nupkg";
  w_dotnetTemplateList := fun _ => Ok (JArr []);
  w_readJSON := fun _ _ => Ok (JObj []);
  w_parseScriptTemplates := fun _ _ _ =>
    Ok (map js_template (List.filter (fun i => negb (includes i "CSharp")) verifiedV1Templates));
  w_parseDotnetTemplates := fun _ _ => Ok [];
  w_pathExists := Ok true;
  w_remove := Ok tt;
  w_tmpdir := "/tmp"
|}.

(** A Memento whose cache for runtime [one] is complete and matches the
    feed's template version. *)
Definition sampleMemento : Memento :=
  <[versionKey one := JStr "2.0.0"]>
  (<[templatesKey := JArr [JObj []]]>
  (<[configKey := JObj []]>
  (<[resourcesKey := JObj []]>
  (<[dotnetTemplatesKey := JArr []]> ∅)))).

(** A world where [tryGetCliFeedJson] yields [undefined]. *)
Definition noFeedWorld : World :=
  {| w_cliFeedJson := None;
     w_getFeedRuntime := w_getFeedRuntime sampleWorld;
     w_versionAnswer := w_versionAnswer sampleWorld;
     w_downloadFile := w_downloadFile sampleWorld;
     w_extract := w_extract sampleWorld;
     w_validateDotnetInstalled := w_validateDotnetInstalled sampleWorld;
     w_dotnetProjectTemplatePath := w_dotnetProjectTemplatePath sampleWorld;
     w_dotnetItemTemplatePath := w_dotnetItemTemplatePath sampleWorld;
     w_dotnetTemplateList := w_dotnetTemplateList sampleWorld;
     w_readJSON := w_readJSON sampleWorld;
     w_parseScriptTemplates := w_parseScriptTemplates sampleWorld;
     w_parseDotnetTemplates := w_parseDotnetTemplates sampleWorld;
     w_pathExists := w_pathExists sampleWorld;
     w_remove := w_remove sampleWorld;
     w_tmpdir := w_tmpdir sampleWorld |}.

(** The five Memento keys the feed reader writes for a runtime. *)
Definition cacheKeys (rt : ProjectRuntime) : list string :=
  [versionKey rt; getRuntimeKey templatesKey rt; getRuntimeKey configKey rt;
   getRuntimeKey resourcesKey rt; getRuntimeKey dotnetTemplatesKey rt].
(** [globalState.get(k)], or [None] when no Memento is supplied. *)
Definition gs_lookup (k : string) (s : state) : option (option json) :=
  option_map (lookup k) (st_globalState s).


(* ------------------------------------------------------------------ *)
(** ** Effects of the command and UI code *)

(** A JS exception: the [UserCancelledError] that [ext.ui] throws when a
    prompt is dismissed, or any other error (constructor name, message). *)
Inductive jsError :=
| UserCancelledError
| JsError (kind message : string).

(** [parseError(error).message] *)
Definition parseError_message (e : jsError) : string :=
  match e with UserCancelledError => "Operation cancelled." | JsError _ m => m end.

Inductive jres (A : Type) : Type :=
| JOk (a : A)
| JErr (e : jsError).
Arguments JOk {A} a.
Arguments JErr {A} e.

(** What the user does at a prompt: pick the [n]-th item of a message or
    quick pick, type a string into an input box, or dismiss the prompt. *)
Inductive UiAnswer :=
| Pick (n : nat)
| Input (s : string)
| Dismiss.

(** The state of the UI-driven code: the fields of its object ([H]), the
    log of its outside effects ([E]), newest last, and the user's answers
    still to come. *)
Record io_state (H E : Type) := mkIO {
  io_heap : H;
  io_log : list E;
  io_ui : list UiAnswer
}.
Arguments mkIO {H E} io_heap io_log io_ui.
Arguments io_heap {H E} _.
Arguments io_log {H E} _.
Arguments io_ui {H E} _.

Definition IO (H E A : Type) : Type := io_state H E -> jres A * io_state H E.

Global Instance IO_ret {H E} : MRet (IO H E) := fun A a s => (JOk a, s).
Global Instance IO_bind {H E} : MBind (IO H E) := fun A B f m s =>
  match m s with
  | (JOk a, s') => f a s'
  | (JErr e, s') => (JErr e, s')
  end.

Section IOOps.
Context {H E : Type}.

Definition io_throw {A} (e : jsError) : IO H E A := fun s => (JErr e, s).

Definition io_lift {A} (r : jres A) : IO H E A := fun s => (r, s).

(** Perform an outside effect: log it. *)
Definition emit (ev : E) : IO H E unit := fun s =>
  (JOk tt, mkIO (io_heap s) (app (io_log s) [ev]) (io_ui s)).

Definition io_get : IO H E H := fun s => (JOk (io_heap s), s).
Definition io_put (h : H) : IO H E unit := fun s => (JOk tt, mkIO h (io_log s) (io_ui s)).

Definition io_tryCatch {A} (m : IO H E A) (h : jsError -> IO H E A) : IO H E A := fun s =>
  match m s with
  | (JOk a, s') => (JOk a, s')
  | (JErr e, s') => h e s'
  end.

(** The user's next answer; when there is none left the prompt is
    dismissed. *)
Definition next_answer : IO H E UiAnswer := fun s =>
  match io_ui s with
  | [] => (JErr UserCancelledError, s)
  | a :: rest => (JOk a, mkIO (io_heap s) (io_log s) rest)
  end.

(** The item a pick answer selects; anything else cancels the prompt. *)
Definition pick_answer {A} (items : list A) (a : UiAnswer) : jres A :=
  match a with
  | Pick n => match nth_error items n with Some x => JOk x | None => JErr UserCancelledError end
  | _ => JErr UserCancelledError
  end.

(** A prompt of code outside this repository, answered by the next answer. *)
Definition io_prompt {A} (f : UiAnswer -> jres A) : IO H E A :=
  a ← next_answer; io_lift (f a).

(** Bound for a loop that consumes one answer per iteration: one more than
    the answers left. *)
Definition with_fuel {A} (k : nat -> IO H E A) : IO H E A := fun s =>
  k (S (length (io_ui s))) s.

(** [callWithTelemetryAndErrorHandling(...)] reports and swallows errors. *)
Definition io_callWithTelemetryAndErrorHandling (m : IO H E unit) : IO H E unit := fun s =>
  match m s with (_, s') => (JOk tt, s') end.

End IOOps.

(* ------------------------------------------------------------------ *)
(** ** [validateFuncCoreToolsIsLatest] and [getNewestFunctionRuntimeVersion] *)

Inductive PackageManager := npm | brew.

(** The items of the outdated warning: [update], [DialogResponses.learnMore]
    and [DialogResponses.dontWarnAgain]. *)
Inductive CoreToolsItem := CT_Update | CT_LearnMore | CT_DontWarnAgain.

(** The arguments of the outdated message: local and newest version, and
    whether the v2 note is appended. *)
Record OutdatedMessage := mkOutdatedMessage {
  om_localVersion : string;
  om_newestVersion : json;
  om_v2BreakingChanges : bool
}.

Inductive CoreToolsEvent :=
| CT_Telemetry (key value : string)
| CT_Request (uri : string)
| CT_ShowWarning (message : OutdatedMessage) (items : list CoreToolsItem)
| CT_Opn (url : string)
| CT_UpdateFuncCoreTools (packageManager : option PackageManager) (runtime : ProjectRuntime)
| CT_UpdateGlobalSetting (key : string) (value : json).

(** Outcomes of what the two functions call outside this file. *)
Record CoreToolsEnv := mkCoreToolsEnv {
  (** [getFuncExtensionSetting(key)] *)
  ce_getFuncExtensionSetting : string -> option json;
  (** [await getLocalFuncCoreToolsVersion()] ([null] is [None]) *)
  ce_getLocalFuncCoreToolsVersion : jres (option string);
  (** [getProjectRuntimeFromVersion(localVersion)] *)
  ce_getProjectRuntimeFromVersion : string -> option ProjectRuntime;
  (** [await getFuncPackageManager(true)] *)
  ce_getFuncPackageManager : jres (option PackageManager);
  (** [await request(uri)] *)
  ce_request : string -> jres string;
  (** [JSON.parse(text)] *)
  ce_jsonParse : string -> jres json;
  (** [semver.gt(newestVersion, localVersion)] *)
  ce_semverGt : json -> string -> jres bool;
  (** [await opn(url)], [await updateFuncCoreTools(pm, runtime)],
      [await updateGlobalSetting(key, value)] *)
  ce_opn : string -> jres unit;
  ce_updateFuncCoreTools : option PackageManager -> ProjectRuntime -> jres unit;
  ce_updateGlobalSetting : string -> json -> jres unit
}.

Abbreviation CT := (IO unit CoreToolsEvent).

(** Whitespace of [\s] on the code units 0-255. *)
Definition is_js_space (c : ascii) : bool :=
  let n := nat_of_ascii c in
  ((9 <=? n) && (n <=? 13))%nat || (n =? 32)%nat || (n =? 160)%nat.

Definition is_quote (c : ascii) : bool :=
  (nat_of_ascii c =? 34)%nat || (nat_of_ascii c =? 39)%nat.

(** Matches the lower-case literal [lit] case-insensitively at the start of
    [s] (the [i] flag); returns the rest of [s]. *)
Fixpoint prefix_ci (lit s : string) : option string :=
  match lit, s with
  | EmptyString, _ => Some s
  | String c lit', String d s' => if Ascii.eqb (lower_ascii d) c then prefix_ci lit' s' else None
  | String _ _, EmptyString => None
  end.

(** The longest prefix of [s] whose characters satisfy [p], and the rest. *)
Fixpoint span (p : ascii -> bool) (s : string) : string * string :=
  match s with
  | EmptyString => (EmptyString, EmptyString)
  | String c s' =>
      if p c then let (a, b) := span p s' in (String c a, b) else (EmptyString, s)
  end.

(** The regular expression [/version\s+Q([^Q]+)Q/i], where [Q] stands for
    the class of the double and the single quote, anchored at the start of
    [s]: its capture group.  Both quantifiers are greedy and stop at a character the
    next token cannot match, so no backtracking can change the outcome. *)
Definition brewMatchAt (s : string) : option string :=
  match prefix_ci "version" s with
  | None => None
  | Some rest1 =>
      let (sp, rest2) := span is_js_space rest1 in
      if String.eqb sp "" then None else
      match rest2 with
      | String q rest3 =>
          if is_quote q then
            let (v, rest4) := span (fun c => negb (is_quote c)) rest3 in
            if String.eqb v "" then None else
            match rest4 with
            | String q' _ => if is_quote q' then Some v else None
            | EmptyString => None
            end
          else None
      | EmptyString => None
      end
  end.

(** [brewInfo.match(...)[1]] for that expression: the leftmost match. *)
Fixpoint brewVersionMatch (s : string) : option string :=
  match brewMatchAt s with
  | Some v => Some v
  | None => match s with EmptyString => None | String _ s' => brewVersionMatch s' end
  end.

(** The last binding of [key] among the fields of a parsed object. *)
Fixpoint assoc_last (key : string) (fields : list (string * json)) : option json :=
  match fields with
  | [] => None
  | (k, v) :: rest =>
      match assoc_last key rest with
      | Some x => Some x
      | None => if String.eqb k key then Some v else None
      end
  end.

(** Property access [v.key] on a parsed JSON value: [null] throws, an object
    yields its (last) binding, anything else [undefined]. *)
Definition js_get (v : json) (key : string) : jres (option json) :=
  match v with
  | JNull => JErr (JsError "TypeError" ("Cannot read property '" ++ key ++ "' of null"))
  | JObj fields => JOk (assoc_last key fields)
  | _ => JOk None
  end.

Section CoreTools.
Context (env : CoreToolsEnv).

Definition ct_request (uri : string) : CT string :=
  emit (CT_Request uri);; io_lift (ce_request env uri).

Definition ct_opn (url : string) : CT unit :=
  emit (CT_Opn url);; io_lift (ce_opn env url).

Definition ct_updateFuncCoreTools (pm : option PackageManager) (rt : ProjectRuntime) : CT unit :=
  emit (CT_UpdateFuncCoreTools pm rt);; io_lift (ce_updateFuncCoreTools env pm rt).

Definition ct_updateGlobalSetting (key : string) (v : json) : CT unit :=
  emit (CT_UpdateGlobalSetting key v);; io_lift (ce_updateGlobalSetting env key v).

(** [ext.ui.showWarningMessage(message, ...items)] *)
Definition ct_showWarningMessage (message : OutdatedMessage) (items : list CoreToolsItem)
    : CT CoreToolsItem :=
  emit (CT_ShowWarning message items);;
  a ← next_answer;
  io_lift (pick_answer items a).

Definition getNewestFunctionRuntimeVersion (packageManager : option PackageManager)
    (projectRuntime : ProjectRuntime) : CT (option json) :=
  io_tryCatch
    (match packageManager with
     | Some brew =>
         let brewRegistryUri := "https://aka.ms/AA1t7go" in
         brewInfo ← ct_request brewRegistryUri;
         match brewVersionMatch brewInfo with
         | Some v => mret (Some (JStr v))
         | None => mret None
         end
     | _ =>
         let npmRegistryUri := "https://aka.ms/W2mvv3" in
         text ← ct_request npmRegistryUri;
         distTags ← io_lift (ce_jsonParse env text);
         match projectRuntime with
         | one => io_lift (js_get distTags "latest")
         | beta => io_lift (js_get distTags "core")
         end
     end)
    (fun error =>
       emit (CT_Telemetry "latestRuntimeError" (parseError_message error));;
       mret None).

(** The items offered: [update] only when a package manager was found. *)
Definition coreToolsItems (packageManager : option PackageManager) : list CoreToolsItem :=
  match packageManager with
  | Some _ => [CT_Update; CT_LearnMore; CT_DontWarnAgain]
  | None => [CT_LearnMore; CT_DontWarnAgain]
  end.

(** The [do { ... } while (result === DialogResponses.learnMore)] loop. *)
Fixpoint outdatedWarningLoop (fuel : nat) (message : OutdatedMessage)
    (packageManager : option PackageManager) (projectRuntime : ProjectRuntime) : CT unit :=
  match fuel with
  | O => io_throw UserCancelledError
  | S fuel' =>
      result ← ct_showWarningMessage message (coreToolsItems packageManager);
      (match result with
       | CT_LearnMore => ct_opn "https://aka.ms/azFuncOutdated"
       | CT_Update => ct_updateFuncCoreTools packageManager projectRuntime
       | CT_DontWarnAgain => ct_updateGlobalSetting "showCoreToolsWarning" (JBool false)
       end);;
      match result with
      | CT_LearnMore => outdatedWarningLoop fuel' message packageManager projectRuntime
      | _ => mret tt
      end
  end.

Definition validateFuncCoreToolsIsLatest : CT unit :=
  io_callWithTelemetryAndErrorHandling
    (let settingKey := "showCoreToolsWarning" in
     if js_truthy (ce_getFuncExtensionSetting env settingKey) then
       localVersion ← io_lift (ce_getLocalFuncCoreToolsVersion env);
       match localVersion with
       | None => mret tt
       | Some lv =>
           if String.eqb lv "" then mret tt else
           emit (CT_Telemetry "localVersion" lv);;
           match ce_getProjectRuntimeFromVersion env lv with
           | None => mret tt
           | Some projectRuntime =>
               packageManager ← io_lift (ce_getFuncPackageManager env);
               newestVersion ← getNewestFunctionRuntimeVersion packageManager projectRuntime;
               match newestVersion with
               | None => mret tt
               | Some nv =>
                   if negb (js_truthy newestVersion) then mret tt else
                   gt ← io_lift (ce_semverGt env nv lv);
                   if (gt : bool) then
                     let message := mkOutdatedMessage lv nv
                       (match projectRuntime with beta => true | one => false end) in
                     with_fuel (fun fuel =>
                       outdatedWarningLoop fuel message packageManager projectRuntime)
                   else mret tt
               end
           end
       end
     else mret tt).

End CoreTools.

(** An environment with core tools 2.0.1 (runtime [beta]) installed through
    brew, a brew formula announcing 2.0.3, a registry reporting every version
    as newer, and every other outside call succeeding. *)
Definition sampleCoreToolsEnv : CoreToolsEnv := {|
  ce_getFuncExtensionSetting := fun _ => Some (JBool true);
  ce_getLocalFuncCoreToolsVersion := JOk (Some "2.0.1");
  ce_getProjectRuntimeFromVersion := fun _ => Some beta;
  ce_getFuncPackageManager := JOk (Some brew);
  ce_request := fun uri =>
    if String.eqb uri "https://aka.ms/AA1t7go"
    then JOk "class AzureFunctionsCoreTools < Formula  Version '2.0.3'  url 'x'"
    else JErr (JsError "Error" "getaddrinfo ENOTFOUND");
  ce_jsonParse := fun _ => JErr (JsError "SyntaxError" "Unexpected end of JSON input");
  ce_semverGt := fun _ _ => JOk true;
  ce_opn := fun _ => JOk tt;
  ce_updateFuncCoreTools := fun _ _ => JOk tt;
  ce_updateGlobalSetting := fun _ _ => JOk tt
|}.

(** The message shown for that environment. *)
Definition sampleOutdatedMessage : OutdatedMessage :=
  mkOutdatedMessage "2.0.1" (JStr "2.0.3") true.

(* ------------------------------------------------------------------ *)
(** ** Vocabulary of the statements about the IO code *)

(** [io_spec P m Q]: every effect [m] performs satisfies [P], and the value
    it returns, if any, satisfies [Q]. *)
Definition io_spec {H E A} (P : E -> Prop) (m : IO H E A) (Q : A -> Prop) : Prop :=
  forall s, exists new, io_log (snd (m s)) = app (io_log s) new /\ Forall P new /\
    match fst (m s) with JOk a => Q a | JErr _ => True end.

Fixpoint str_forallb (p : ascii -> bool) (s : string) : bool :=
  match s with
  | EmptyString => true
  | String c s' => p c && str_forallb p s'
  end.

(** [b] is empty or starts with a character [p] refuses: where [span p] stops. *)
Definition stops_at (p : ascii -> bool) (b : string) : Prop :=
  match b with EmptyString => True | String c _ => p c = false end.

(** What a [CT_ShowWarning] event implies about the environment. *)
Definition warning_gate (env : CoreToolsEnv) (ev : CoreToolsEvent) : Prop :=
  match ev with
  | CT_ShowWarning msg items =>
      js_truthy (ce_getFuncExtensionSetting env "showCoreToolsWarning") = true /\
      ce_getLocalFuncCoreToolsVersion env = JOk (Some (om_localVersion msg)) /\
      om_localVersion msg <> "" /\
      (exists rt pm, ce_getProjectRuntimeFromVersion env (om_localVersion msg) = Some rt /\
         ce_getFuncPackageManager env = JOk pm /\ items = coreToolsItems pm /\
         om_v2BreakingChanges msg = match rt with beta => true | one => false end /\
         forall s, fst (getNewestFunctionRuntimeVersion env pm rt s) =
                   JOk (Some (om_newestVersion msg))) /\
      js_truthy (Some (om_newestVersion msg)) = true /\
      ce_semverGt env (om_newestVersion msg) (om_localVersion msg) = JOk true
  | _ => True
  end.

(** What each outside effect of [validateFuncCoreToolsIsLatest] implies. *)
Definition effect_gate (env : CoreToolsEnv) (ev : CoreToolsEvent) : Prop :=
  match ev with
  | CT_Request uri => uri = "https://aka.ms/AA1t7go" \/ uri = "https://aka.ms/W2mvv3"
  | CT_Opn url => url = "https://aka.ms/azFuncOutdated"
  | CT_UpdateFuncCoreTools pm rt =>
      exists p lv nv, pm = Some p /\ ce_getFuncPackageManager env = JOk (Some p) /\
        ce_getLocalFuncCoreToolsVersion env = JOk (Some lv) /\ lv <> "" /\
        ce_getProjectRuntimeFromVersion env lv = Some rt /\
        (forall s, fst (getNewestFunctionRuntimeVersion env (Some p) rt s) = JOk (Some nv)) /\
        js_truthy (Some nv) = true /\
        ce_semverGt env nv lv = JOk true
  | CT_UpdateGlobalSetting key v => key = "showCoreToolsWarning" /\ v = JBool false
  | _ => True
  end.


(* ------------------------------------------------------------------ *)
(** ** [installFuncCoreTools] *)

(** [funcPackageName] of [constants.ts]. *)
Definition funcPackageName : string := "azure-functions-core-tools".

(** [DialogResponses.learnMore.title] of [vscode-azureextensionui]. *)
Definition learnMoreTitle : string := "Learn more".

Inductive InstallEvent :=
| IC_ShowWarning (message : string) (items : list string)
| IC_Opn (url : string)
| IC_ShowOutput
| IC_ExecuteCommand (command : string) (args : list string).

(** Outcomes of what [installFuncCoreTools] calls outside this file. *)
Record InstallEnv := mkInstallEnv {
  (** [process.platform === Platform.Windows] *)
  ie_isWindows : bool;
  (** [await opn(url)] *)
  ie_opn : string -> jres unit;
  (** [await cpUtils.executeCommand(ext.outputChannel, undefined, command, ...args)] *)
  ie_executeCommand : string -> list string -> jres unit
}.

Abbreviation IC := (IO unit InstallEvent).

Section Install.
Context (env : InstallEnv).

Definition installV1 : string := "v1 (.NET Framework)".
Definition installV2 : string := "v2 Preview (.NET Standard)".
Definition installLearnMoreLink : string := "https://aka.ms/AA1tpij".
Definition windowsVersionMessage : string :=
  "Which version of the runtime do you want to install?".

Definition ic_opn (url : string) : IC unit :=
  emit (IC_Opn url);; io_lift (ie_opn env url).

Definition ic_executeCommand (command : string) (args : list string) : IC unit :=
  emit (IC_ExecuteCommand command args);; io_lift (ie_executeCommand env command args).

(** [(await ext.ui.showWarningMessage(message, ...items)).title] *)
Definition ic_showWarningMessage (message : string) (items : list string) : IC string :=
  emit (IC_ShowWarning message items);;
  a ← next_answer;
  io_lift (pick_answer items a).

(** The [do { ... } while (runtimeVersion === DialogResponses.learnMore.title)]
    loop. *)
Fixpoint runtimeVersionLoop (fuel : nat) : IC string :=
  match fuel with
  | O => io_throw UserCancelledError
  | S fuel' =>
      runtimeVersion ← ic_showWarningMessage windowsVersionMessage
                         [installV1; installV2; learnMoreTitle];
      (if String.eqb runtimeVersion learnMoreTitle then ic_opn installLearnMoreLink
       else mret tt);;
      if String.eqb runtimeVersion learnMoreTitle then runtimeVersionLoop fuel'
      else mret runtimeVersion
  end.

Definition installFuncCoreTools (packageManager : PackageManager)
    (runtimeVersion : option string) : IC unit :=
  runtimeVersion ←
    (if negb (ie_isWindows env) then mret installV2
     else match runtimeVersion with
          | Some v => if String.eqb v "" then with_fuel runtimeVersionLoop else mret v
          | None => with_fuel runtimeVersionLoop
          end);
  emit IC_ShowOutput;;
  match packageManager with
  | npm =>
      if String.eqb runtimeVersion installV1 then
        ic_executeCommand "npm" ["install"; "-g"; funcPackageName]
      else if String.eqb runtimeVersion installV2 then
        ic_executeCommand "npm" ["install"; "-g"; String.append funcPackageName "@core";
                                 "--unsafe-perm"; "true"]
      else
        io_throw (JsError "RangeError"
                    ("Invalid runtime " ++ dquote ++ runtimeVersion ++ dquote ++ "."))
  | brew =>
      ic_executeCommand "brew" ["tap"; "azure/functions"];;
      ic_executeCommand "brew" ["install"; funcPackageName]
  end.

End Install.

(** What each outside effect of [installFuncCoreTools] implies. *)
Definition install_gate (env : InstallEnv) (pm : PackageManager) (ev : InstallEvent) : Prop :=
  match ev with
  | IC_ShowWarning msg items =>
      ie_isWindows env = true /\ msg = windowsVersionMessage /\
      items = [installV1; installV2; learnMoreTitle]
  | IC_Opn url => ie_isWindows env = true /\ url = installLearnMoreLink
  | IC_ShowOutput => True
  | IC_ExecuteCommand cmd args =>
      match pm with
      | npm => cmd = "npm" /\
               ((ie_isWindows env = true /\ args = ["install"; "-g"; funcPackageName]) \/
                args = ["install"; "-g"; String.append funcPackageName "@core";
                        "--unsafe-perm"; "true"])
      | brew => cmd = "brew" /\
               (args = ["tap"; "azure/functions"] \/ args = ["install"; funcPackageName])
      end
  end.

(** A Windows machine where every outside call succeeds. *)
Definition windowsInstallEnv : InstallEnv := {|
  ie_isWindows := true;
  ie_opn := fun _ => JOk tt;
  ie_executeCommand := fun _ _ => JOk tt
|}.

(** A machine that is not Windows and where [brew tap] fails. *)
Definition macInstallEnv : InstallEnv := {|
  ie_isWindows := false;
  ie_opn := fun _ => JOk tt;
  ie_executeCommand := fun cmd args =>
    match args with
    | "tap" :: _ => JErr (JsError "Error" "Failed to tap azure/functions")
    | _ => JOk tt
    end
|}.


(* ------------------------------------------------------------------ *)
(** ** [createFunction] *)

(** [ValueType] and [IEnumValue] of [IFunctionSetting.ts]. *)
Inductive ValueType := VT_string | VT_boolean | VT_enum | VT_checkBoxList | VT_int.

Record IEnumValue := mkEnumValue {
  ev_value : string;
  ev_displayName : string
}.

(** The fields of [IFunctionSetting] that [createFunction] reads. *)
Record IFunctionSetting := mkFunctionSetting {
  fs_name : string;
  fs_label : string;
  fs_resourceType : option string;
  fs_valueType : ValueType;
  fs_enums : list IEnumValue;
  fs_defaultValue : option string
}.

(** [projectRuntimeSetting] and [projectLanguageSetting] of [constants.ts]. *)
Definition projectRuntimeSetting : string := "projectRuntime".
Definition projectLanguageSetting : string := "projectLanguage".

Inductive CreateFunctionEvent :=
| CF_ShowQuickPick (placeHolder : string) (labels : list string)
| CF_ShowInputBox (placeHolder : string) (value : option string)
| CF_PromptForAppSetting (resourceType : string)
| CF_PromptForProjectRuntime
| CF_PromptForProjectLanguage
| CF_SelectTemplateFilter (functionAppPath : string)
| CF_UpdateWorkspaceSetting (key value functionAppPath : string).

(** Outcomes of the prompts of other modules, as functions of the answer
    they consume, and of [updateWorkspaceSetting].  [selectTemplateFilter]
    is not in the snapshot: a call is one [CF_SelectTemplateFilter] event
    carrying its folder argument and giving the chosen filter; what it does
    inside (a setting it may write, for one) is not modelled. *)
Record CreateFunctionEnv := mkCreateFunctionEnv {
  cf_promptForAppSetting : string -> UiAnswer -> jres string;
  cf_promptForProjectRuntime : UiAnswer -> jres string;
  cf_promptForProjectLanguage : UiAnswer -> jres string;
  cf_selectTemplateFilter : string -> UiAnswer -> jres string;
  cf_updateWorkspaceSetting : string -> string -> string -> jres unit
}.

Abbreviation CF := (IO unit CreateFunctionEvent).

(** An awaited call that throws [new Error(message)] on [Err]. *)
Definition io_res {H E A} (r : res A) : IO H E A :=
  match r with
  | Ok a => io_lift (JOk a)
  | Err m => io_throw (JsError "Error" m)
  end.

(** The [functionSettings] of lines 79-82: every key of
    [caseSensitiveFunctionSettings], in [Object.keys] order, lower-cased. *)
Definition createFunction_functionSettings
    (caseSensitiveFunctionSettings : option (list (string * option string)))
    : gmap string (option string) :=
  match caseSensitiveFunctionSettings with
  | None => ∅
  | Some kvs => fold_left (fun m kv => <[toLowerCase (fst kv) := snd kv]> m) kvs ∅
  end.

(** [functionSettings[key]], [undefined] when absent. *)
Definition fs_get (functionSettings : gmap string (option string)) (key : string) : option string :=
  match functionSettings !! key with Some v => v | None => None end.

(** [templates.find((t) => t.id === templateId)] and the error of line 125. *)
Definition findTemplateById (templates : list IFunctionTemplate) (language_ runtime templateId : string)
    : res IFunctionTemplate :=
  match List.find (fun t => String.eqb (id t) templateId) templates with
  | Some t => Ok t
  | None => Err ("Could not find template with language " ++ dquote ++ language_ ++ dquote ++
                 ", runtime " ++ dquote ++ runtime ++ dquote ++ ", and id " ++ dquote ++
                 templateId ++ dquote ++ ".")
  end.

Section CreateFunction.
Context (env : CreateFunctionEnv) (templateData : TemplateData).

(** A prompt of another module: shown, then answered by the next answer. *)
Definition cf_prompt (ev : CreateFunctionEvent) (f : UiAnswer -> jres string) : CF string :=
  emit ev;; a ← next_answer; io_lift (f a).

Definition updateWorkspaceSetting (key value functionAppPath : string) : CF unit :=
  emit (CF_UpdateWorkspaceSetting key value functionAppPath);;
  io_lift (cf_updateWorkspaceSetting env key value functionAppPath).

Definition promptForEnumSetting (setting : IFunctionSetting) : CF string :=
  emit (CF_ShowQuickPick (fs_label setting) (map ev_displayName (fs_enums setting)));;
  a ← next_answer;
  io_lift (pick_answer (map ev_value (fs_enums setting)) a).

Definition promptForBooleanSetting (setting : IFunctionSetting) : CF string :=
  emit (CF_ShowQuickPick (fs_label setting) ["true"; "false"]);;
  a ← next_answer;
  io_lift (pick_answer ["true"; "false"] a).

(** [ext.ui.showInputBox]: an [Input] answer is the accepted value. *)
Definition promptForStringSetting (setting : IFunctionSetting) : CF string :=
  emit (CF_ShowInputBox (fs_label setting) (fs_defaultValue setting));;
  a ← next_answer;
  match a with
  | Input s => mret s
  | _ => io_throw UserCancelledError
  end.

Definition promptForSetting (setting : IFunctionSetting) : CF string :=
  match fs_resourceType setting with
  | Some resourceType =>
      cf_prompt (CF_PromptForAppSetting resourceType) (cf_promptForAppSetting env resourceType)
  | None =>
      match fs_valueType setting with
      | VT_boolean => promptForBooleanSetting setting
      | VT_enum => promptForEnumSetting setting
      | _ => promptForStringSetting setting
      end
  end.

(** The [for (const setting of template.userPromptedSettings)] loop of lines
    150-160, from the [userSettings] built so far. *)
Fixpoint userSettingsLoop (functionSettings : gmap string (option string))
    (settings : list IFunctionSetting) (userSettings : gmap string string)
    : CF (gmap string string) :=
  match settings with
  | [] => mret userSettings
  | setting :: rest =>
      settingValue ←
        (match fs_get functionSettings (toLowerCase (fs_name setting)) with
         | Some v => mret v
         | None => promptForSetting setting
         end);
      userSettingsLoop functionSettings rest
        (<[fs_name setting := if String.eqb settingValue "" then "" else settingValue]>
           userSettings)
  end.

Definition runtimePickId : string := "runtime".
Definition languagePickId : string := "language".
Definition filterPickId : string := "filter".

(** The [while (!template)] loop of [promptForTemplate]; the data of a pick
    is a template ([inl]) or a pick id ([inr]). *)
Fixpoint promptForTemplateLoop (fuel : nat) (functionAppPath language_ runtime templateFilter : string)
    : CF (IFunctionTemplate * string * string * string) :=
  match fuel with
  | O => io_throw UserCancelledError
  | S fuel' =>
      templates ← io_res (getTemplates templateData language_ runtime (Some templateFilter));
      let picks : list (IFunctionTemplate + string) :=
        app (map inl templates) [inr runtimePickId; inr languagePickId; inr filterPickId] in
      let labels :=
        app (map name templates)
          ["$(gear) Change project runtime"; "$(gear) Change project language";
           "$(gear) Change template filter"] in
      let placeHolder :=
        if Nat.ltb 0 (length templates) then "Select a function template"
        else "No templates found. Change your settings to view more templates" in
      emit (CF_ShowQuickPick placeHolder labels);;
      a ← next_answer;
      result ← io_lift (pick_answer picks a);
      match result with
      | inl template => mret (template, language_, runtime, templateFilter)
      | inr pickId =>
          if String.eqb pickId runtimePickId then
            runtime' ← cf_prompt CF_PromptForProjectRuntime (cf_promptForProjectRuntime env);
            updateWorkspaceSetting projectRuntimeSetting runtime' functionAppPath;;
            promptForTemplateLoop fuel' functionAppPath language_ runtime' templateFilter
          else if String.eqb pickId languagePickId then
            language' ← cf_prompt CF_PromptForProjectLanguage (cf_promptForProjectLanguage env);
            updateWorkspaceSetting projectLanguageSetting language' functionAppPath;;
            promptForTemplateLoop fuel' functionAppPath language' runtime templateFilter
          else
            templateFilter' ← cf_prompt (CF_SelectTemplateFilter functionAppPath)
                                        (cf_selectTemplateFilter env functionAppPath);
            promptForTemplateLoop fuel' functionAppPath language_ runtime templateFilter'
      end
  end.

Definition promptForTemplate (functionAppPath language_ runtime templateFilter : string)
    : CF (IFunctionTemplate * string * string * string) :=
  with_fuel (fun fuel => promptForTemplateLoop fuel functionAppPath language_ runtime templateFilter).

End CreateFunction.

(** What a prompted value of a setting is. *)
Definition prompted_value_ok (setting : IFunctionSetting) (v : string) : Prop :=
  match fs_resourceType setting with
  | Some _ => True
  | None =>
      match fs_valueType setting with
      | VT_boolean => v = "true" \/ v = "false"
      | VT_enum => In v (map ev_value (fs_enums setting))
      | _ => True
      end
  end.

(** The value [userSettings] holds for a setting: the caller's, matched on
    the lower-cased name, or else a prompted one. *)
Definition user_setting_ok (functionSettings : gmap string (option string))
    (setting : IFunctionSetting) (ov : option string) : Prop :=
  match fs_get functionSettings (toLowerCase (fs_name setting)) with
  | Some v => ov = Some v
  | None => exists v, ov = Some v /\ prompted_value_ok setting v
  end.

(** The event of the prompt for a setting. *)
Definition promptEvent (setting : IFunctionSetting) : CreateFunctionEvent :=
  match fs_resourceType setting with
  | Some resourceType => CF_PromptForAppSetting resourceType
  | None =>
      match fs_valueType setting with
      | VT_boolean => CF_ShowQuickPick (fs_label setting) ["true"; "false"]
      | VT_enum => CF_ShowQuickPick (fs_label setting) (map ev_displayName (fs_enums setting))
      | _ => CF_ShowInputBox (fs_label setting) (fs_defaultValue setting)
      end
  end.

(** Prompts of other modules that always answer the same, and a workspace
    that accepts every setting. *)
Definition sampleCreateFunctionEnv : CreateFunctionEnv := {|
  cf_promptForAppSetting := fun _ _ => JOk "AzureWebJobsStorage";
  cf_promptForProjectRuntime := fun _ => JOk "beta";
  cf_promptForProjectLanguage := fun _ => JOk "JavaScript";
  cf_selectTemplateFilter := fun _ _ => JOk "All";
  cf_updateWorkspaceSetting := fun _ _ _ => JOk tt
|}.

(** The settings of an HTTP trigger: an enum and a string setting. *)
Definition httpTriggerSettings : list IFunctionSetting :=
  [mkFunctionSetting "authLevel" "AuthorizationLevel" None VT_enum
     [mkEnumValue "function" "Function"; mkEnumValue "anonymous" "Anonymous";
      mkEnumValue "admin" "Admin"] (Some "function");
   mkFunctionSetting "route" "Route" None VT_string [] None].

(* ------------------------------------------------------------------ *)
(** ** [CSharpProjectCreator] *)

(** The buttons of [DialogResponses] that the class shows. *)
Inductive DialogResponse := DR_learnMore | DR_dontWarnAgain | DR_yes | DR_cancel.

(** Outside effects of the class.  Files are named relative to
    [this.functionAppPath] ([path.join(functionAppPath, name)]). *)
Inductive CSharpEvent :=
| CS_ReadDir
| CS_ReadFile (file : string)
| CS_WriteFile (file contents : string)
| CS_PathExists (file : string)
| CS_Telemetry (key value : string)
| CS_ShowWarning (message : string) (modal : bool) (items : list DialogResponse)
| CS_Opn (url : string)
| CS_UpdateGlobalSetting (key : string) (v : json)
| CS_PromptForProjectRuntime
| CS_ExecuteDotnetTemplateCommand (runtime : ProjectRuntime) (args : list string).

(** Outcomes of what the class calls outside this file. *)
Record CSharpEnv := mkCSharpEnv {
  (** [isWindows] of [constants.ts] *)
  cs_isWindows : bool;
  (** [path.basename(this.functionAppPath)] *)
  cs_projectName : string;
  (** [await fse.readdir(functionAppPath)] *)
  cs_readdir : jres (list string);
  (** [(await fse.readFile(path)).toString()] *)
  cs_readFile : string -> jres string;
  (** [await fse.writeFile(path, contents)] *)
  cs_writeFile : string -> string -> jres unit;
  (** [await fse.pathExists(path)] *)
  cs_pathExists : string -> jres bool;
  (** [new SemVer(v)]: its [raw] and [version.compare(minVersion)] *)
  cs_semver : string -> jres (string * comparison);
  (** [getFuncExtensionSetting(key)] *)
  cs_getFuncExtensionSetting : string -> option json;
  (** [await opn(url)] *)
  cs_opn : string -> jres unit;
  (** [await updateGlobalSetting(key, value)] *)
  cs_updateGlobalSetting : string -> json -> jres unit;
  (** [await tryGetLocalRuntimeVersion()] *)
  cs_tryGetLocalRuntimeVersion : jres (option ProjectRuntime);
  (** [await promptForProjectRuntime(this.ui)], given the user's answer *)
  cs_promptForProjectRuntime : UiAnswer -> jres ProjectRuntime;
  (** [await executeDotnetTemplateCommand(runtime, functionAppPath, ...args)] *)
  cs_executeDotnetTemplateCommand : ProjectRuntime -> list string -> jres unit
}.

(** The fields of a [CSharpProjectCreator] ([undefined] until assigned). *)
Record CSharpFields := mkCSharpFields {
  deploySubpath : option string;
  _debugSubpath : option string;
  _runtime : option ProjectRuntime
}.

Abbreviation CS := (IO CSharpFields CSharpEvent).

(** [s.endsWith(suffix)] *)
Definition endsWith (s suffix : string) : bool :=
  (String.length suffix <=? String.length s)%nat &&
  String.eqb (substring (String.length s - String.length suffix) (String.length suffix) s) suffix.

(** [s.startsWith(p)] with the rest of [s] when it does. *)
Fixpoint strip_prefix (p s : string) : option string :=
  match p, s with
  | EmptyString, _ => Some s
  | String c p', String d s' => if Ascii.eqb c d then strip_prefix p' s' else None
  | String _ _, EmptyString => None
  end.

(** The line terminators of the code units 0-255: [\n] and [\r]. *)
Definition is_line_terminator (c : ascii) : bool :=
  (nat_of_ascii c =? 10)%nat || (nat_of_ascii c =? 13)%nat.

(** [.] of a regular expression without the [s] flag. *)
Definition regex_dot (c : ascii) : bool := negb (is_line_terminator c).

(** The longest prefix [p] of [s] such that [tag] starts right after it:
    a greedy group of [.] followed by the literal [tag], backtracking from the
    longest candidate. *)
Fixpoint longest_before (tag s : string) : option string :=
  match s with
  | EmptyString => if String.prefix tag s then Some EmptyString else None
  | String c s' =>
      match longest_before tag s' with
      | Some p => Some (String c p)
      | None => if String.prefix tag s then Some EmptyString else None
      end
  end.

Definition targetFrameworkOpen : string := "<TargetFramework>".
Definition targetFrameworkClose : string := "</TargetFramework>".

(** The expression of line 49, [<TargetFramework>], a greedy capture
    group of [.], then [<\/TargetFramework>], anchored at the start of
    [s]: its capture group.  The greedy group runs over the rest of the line at most,
    and the closing tag holds no line terminator, so the candidates are the
    occurrences of the closing tag on that line, the last one first. *)
Definition targetFrameworkMatchAt (s : string) : option string :=
  match strip_prefix targetFrameworkOpen s with
  | None => None
  | Some rest => longest_before targetFrameworkClose (fst (span regex_dot rest))
  end.

(** [csprojContents.match(...)[1]] for that expression: the leftmost match. *)
Fixpoint targetFrameworkMatch (s : string) : option string :=
  match targetFrameworkMatchAt s with
  | Some v => Some v
  | None => match s with EmptyString => None | String _ s' => targetFrameworkMatch s' end
  end.

Definition funcSdkPackage : string := "Microsoft.NET.Sdk.Functions".

(** [/^.*Microsoft\.NET\.Sdk\.Functions.*$/gm.exec(s)[0]]: the first line
    containing the package name, lines being split at [\n] and [\r]; [cur]
    is the part of the current line read so far. *)
Fixpoint firstLineWith (pat cur s : string) : option string :=
  match s with
  | EmptyString => if includes cur pat then Some cur else None
  | String c s' =>
      if is_line_terminator c then
        if includes cur pat then Some cur else firstLineWith pat EmptyString s'
      else firstLineWith pat (cur ++ String c EmptyString) s'
  end.

Definition is_dquote (c : ascii) : bool := (nat_of_ascii c =? 34)%nat.
Definition is_squote (c : ascii) : bool := (nat_of_ascii c =? 39)%nat.

(** [/Version=(?:Q([^Q]+)Q|S([^S]+)S)/], where [Q] is the double quote
    and [S] the single quote, anchored at the start of [s]:
    [versionMatches[1] || versionMatches[2]], the capture of the alternative
    that matched. *)
Definition versionMatchAt (s : string) : option string :=
  match strip_prefix "Version=" s with
  | Some (String q rest) =>
      if is_dquote q then
        let (v, rest') := span (fun c => negb (is_dquote c)) rest in
        if String.eqb v "" then None else
        match rest' with EmptyString => None | String _ _ => Some v end
      else if is_squote q then
        let (v, rest') := span (fun c => negb (is_squote c)) rest in
        if String.eqb v "" then None else
        match rest' with EmptyString => None | String _ _ => Some v end
      else None
  | _ => None
  end.

(** The leftmost match of the version expression in [s]. *)
Fixpoint versionMatch (s : string) : option string :=
  match versionMatchAt s with
  | Some v => Some v
  | None => match s with EmptyString => None | String _ s' => versionMatch s' end
  end.

(** The first occurrence of [pat] in [s]: the text before and after it. *)
Fixpoint first_occurrence (pat s : string) : option (string * string) :=
  match strip_prefix pat s with
  | Some after => Some (EmptyString, after)
  | None =>
      match s with
      | EmptyString => None
      | String c s' =>
          match first_occurrence pat s' with
          | Some (before, after) => Some (String c before, after)
          | None => None
          end
      end
  end.

Definition is_dollar (c : ascii) : bool := (nat_of_ascii c =? 36)%nat.

(** GetSubstitution for a string search value (no capture groups): [$$],
    [$&], [$`] and [$'] are replaced, any other [$] is kept. *)
Fixpoint getSubstitution (matched before after replacement : string) : string :=
  match replacement with
  | EmptyString => EmptyString
  | String c r =>
      if is_dollar c then
        match r with
        | String d r' =>
            let n := nat_of_ascii d in
            if (n =? 36)%nat then String c (getSubstitution matched before after r')
            else if (n =? 38)%nat then matched ++ getSubstitution matched before after r'
            else if (n =? 96)%nat then before ++ getSubstitution matched before after r'
            else if (n =? 39)%nat then after ++ getSubstitution matched before after r'
            else String c (getSubstitution matched before after r)
        | EmptyString => String c EmptyString
        end
      else String c (getSubstitution matched before after r)
  end.

(** [s.replace(pat, replacement)] with a string [pat]: only the first
    occurrence is replaced. *)
Definition js_replace (s pat replacement : string) : string :=
  match first_occurrence pat s with
  | None => s
  | Some (before, after) => before ++ getSubstitution pat before after replacement ++ after
  end.

(** [tryGetCsprojFile] once the folder is listed: the only [.csproj] file. *)
Definition selectCsproj (files : list string) : option string :=
  match List.filter (fun f => endsWith f ".csproj") files with
  | [f] => Some f
  | _ => None
  end.

Definition sixtyFourBitMessage : string :=
  "In order to debug .NET Framework functions in VS Code, you must install a 64-bit version of the Azure Functions Core Tools.".
Definition sixtyFourBitLink : string := "https://aka.ms/azFunc64bit".
Definition minFuncSdkVersion : string := "1.0.8".

Definition csprojNotFoundMessage (folder : string) : string :=
  "Expected to find a single " ++ dquote ++ "csproj" ++ dquote ++ " file in folder " ++ dquote ++
  folder ++ dquote ++ ", but found zero or multiple instead.".

Definition unrecognizedTargetFrameworkMessage (csProjName : string) : string :=
  "Unrecognized target framework in project file " ++ dquote ++ csProjName ++ dquote ++ ".".

(** [getLaunchJson()]: a function of the fields only. *)
Definition getLaunchJson (h : CSharpFields) : json :=
  JObj [("version", JStr "0.2.0");
        ("configurations", JArr [JObj [
           ("name", JStr "Attach to C# Functions");
           ("type", JStr (match _runtime h with Some beta => "coreclr" | _ => "clr" end));
           ("request", JStr "attach");
           ("processId", JStr "${command:azureFunctions.pickProcess}")]])].

Section CSharpProjectCreator.
Context (env : CSharpEnv).
(** [funcHostTaskId] of [IProjectCreator.ts] and the file names of
    [constants.ts]. *)
Context (funcHostTaskId gitignoreFileName localSettingsFileName hostFileName : string).

(** [getTasksJson()]: a function of the fields only; an unassigned
    [_debugSubpath] prints as [undefined] in the template literal. *)
Definition getTasksJson (h : CSharpFields) : json :=
  let shellTask label command extra :=
    JObj ([("label", JStr label); ("command", JStr command); ("type", JStr "shell")] ++ extra ++
          [("presentation", JObj [("reveal", JStr "always")]); ("problemMatcher", JStr "$msCompile")]) in
  JObj [("version", JStr "2.0.0");
        ("tasks", JArr [
           shellTask "clean" "dotnet clean" [];
           shellTask "build" "dotnet build"
             [("dependsOn", JStr "clean"); ("group", JObj [("kind", JStr "build"); ("isDefault", JBool true)])];
           shellTask "clean release" "dotnet clean --configuration Release" [];
           shellTask "publish" "dotnet publish --configuration Release" [("dependsOn", JStr "clean release")];
           JObj [("label", JStr "Run Functions Host");
                 ("identifier", JStr funcHostTaskId);
                 ("type", JStr "shell");
                 ("dependsOn", JStr "build");
                 ("options", JObj [("cwd", JStr ("${workspaceFolder}/" ++
                    match _debugSubpath h with Some p => p | None => "undefined" end))]);
                 ("command", JStr "func host start");
                 ("isBackground", JBool true);
                 ("presentation", JObj [("reveal", JStr "always")]);
                 ("problemMatcher", JArr [])]])].

(** [await this.ui.showWarningMessage(message, ...items)]: dismissing the
    message or choosing Cancel throws a [UserCancelledError]. *)
Definition cs_showWarningMessage (message : string) (modal : bool) (items : list DialogResponse)
    : CS DialogResponse :=
  emit (CS_ShowWarning message modal items);;
  a ← next_answer;
  match pick_answer items a with
  | JOk DR_cancel => io_throw UserCancelledError
  | r => io_lift r
  end.

Definition cs_telemetry (key value : string) : CS unit := emit (CS_Telemetry key value).

Definition tryGetCsprojFile : CS (option string) :=
  emit CS_ReadDir;;
  files ← io_lift (cs_readdir env);
  mret (selectCsproj files).

Definition validateFuncSdkVersion (csprojPath csprojContents : string) : CS unit :=
  if negb (cs_isWindows env) then
    io_tryCatch
      (match firstLineWith funcSdkPackage EmptyString csprojContents with
       | None => mret tt
       | Some line =>
           match versionMatch line with
           | None => mret tt
           | Some v =>
               '(raw, cmp) ← io_lift (cs_semver env v);
               cs_telemetry "cSharpFuncSdkVersion" raw;;
               match cmp with
               | Lt =>
                   let newContents := js_replace csprojContents line
                                        (js_replace line raw minFuncSdkVersion) in
                   emit (CS_WriteFile csprojPath newContents);;
                   io_lift (cs_writeFile env csprojPath newContents)
               | _ => mret tt
               end
           end
       end)
      (fun err => cs_telemetry "cSharpFuncSdkError" (parseError_message err))
  else mret tt.

Definition set_runtime (rt : ProjectRuntime) : CS unit :=
  h ← io_get; io_put (mkCSharpFields (deploySubpath h) (_debugSubpath h) (Some rt)).

Definition set_subpaths (deploy debug : string) : CS unit :=
  h ← io_get; io_put (mkCSharpFields (Some deploy) (Some debug) (_runtime h)).

(** The [show64BitWarning] prompt of lines 59-75. *)
Definition show64BitWarning : CS unit :=
  let settingKey := "show64BitWarning" in
  if js_truthy (cs_getFuncExtensionSetting env settingKey) then
    io_tryCatch
      (result ← cs_showWarningMessage sixtyFourBitMessage false [DR_learnMore; DR_dontWarnAgain];
       match result with
       | DR_learnMore => emit (CS_Opn sixtyFourBitLink);; io_lift (cs_opn env sixtyFourBitLink)
       | DR_dontWarnAgain =>
           emit (CS_UpdateGlobalSetting settingKey (JBool false));;
           io_lift (cs_updateGlobalSetting env settingKey (JBool false))
       | _ => mret tt
       end)
      (fun err => match err with UserCancelledError => mret tt | _ => io_throw err end)
  else mret tt.

(** [getRuntime()]; its value is the field [_runtime] read back at the
    end, [undefined] if unassigned. *)
Definition getRuntime : CS (option ProjectRuntime) :=
  csProjName ← tryGetCsprojFile;
  match csProjName with
  | None => io_throw (JsError "Error" (csprojNotFoundMessage (cs_projectName env)))
  | Some name =>
      if String.eqb name "" then io_throw (JsError "Error" (csprojNotFoundMessage (cs_projectName env)))
      else
        emit (CS_ReadFile name);;
        csprojContents ← io_lift (cs_readFile env name);
        validateFuncSdkVersion name csprojContents;;
        match targetFrameworkMatch csprojContents with
        | None => io_throw (JsError "Error" (unrecognizedTargetFrameworkMessage name))
        | Some targetFramework =>
            cs_telemetry "cSharpTargetFramework" targetFramework;;
            (if String.prefix "netstandard" targetFramework then set_runtime beta
             else set_runtime one;; show64BitWarning);;
            set_subpaths ("bin/Release/" ++ targetFramework ++ "/publish")
                         ("bin/Debug/" ++ targetFramework);;
            h ← io_get;
            mret (_runtime h)
        end
  end.

(** The loop of lines 198-202. *)
Fixpoint existingFilesLoop (filesToCheck : list string) : CS (list string) :=
  match filesToCheck with
  | [] => mret []
  | fileName :: rest =>
      emit (CS_PathExists fileName);;
      pathExists ← io_lift (cs_pathExists env fileName);
      existingFiles ← existingFilesLoop rest;
      mret (if (pathExists : bool) then fileName :: existingFiles else existingFiles)
  end.

Definition overwriteMessage (existingFiles : list string) : string :=
  "Overwrite existing files?: " ++ String.concat ", " existingFiles.

Definition confirmOverwriteExisting (csProjName : string) : CS bool :=
  existingFiles ← existingFilesLoop [csProjName; gitignoreFileName; localSettingsFileName; hostFileName];
  if (0 <? List.length existingFiles)%nat then
    cs_showWarningMessage (overwriteMessage existingFiles) true [DR_yes; DR_cancel];;
    mret true
  else mret false.

(** [addNonVSCodeFiles()]; [this._runtime] is read right after it is
    assigned, with no [await] in between, so it is the value assigned. *)
Definition addNonVSCodeFiles : CS unit :=
  let projectName := cs_projectName env in
  let csProjName := projectName ++ ".csproj" in
  confirmOverwriteExisting csProjName;;
  localRuntime ← io_lift (cs_tryGetLocalRuntimeVersion env);
  runtime ← (match localRuntime with
             | Some rt => mret rt
             | None => emit CS_PromptForProjectRuntime;;
                       a ← next_answer; io_lift (cs_promptForProjectRuntime env a)
             end);
  set_runtime runtime;;
  let identity := match runtime with
                  | one => "Microsoft.AzureFunctions.ProjectTemplate.CSharp.1.x"
                  | beta => "Microsoft.AzureFunctions.ProjectTemplate.CSharp.2.x"
                  end in
  emit (CS_ExecuteDotnetTemplateCommand runtime
          ["create"; "--identity"; identity; "--arg:name"; projectName]);;
  io_lift (cs_executeDotnetTemplateCommand env runtime
             ["create"; "--identity"; identity; "--arg:name"; projectName]).

End CSharpProjectCreator.

Definition emptyCSharpFields : CSharpFields := mkCSharpFields None None None.

(** A project folder with one [.csproj] on a non-Windows machine. *)
Definition sampleCsproj : string :=
  "<Project Sdk=" ++ dquote ++ "Microsoft.NET.Sdk" ++ dquote ++ ">" ++ String (ascii_of_nat 10) EmptyString ++
  "<PropertyGroup><TargetFramework>net461</TargetFramework></PropertyGroup>" ++
  String (ascii_of_nat 10) EmptyString ++
  "<PackageReference Include=" ++ dquote ++ funcSdkPackage ++ dquote ++ " Version=" ++ dquote ++
  "1.0.6" ++ dquote ++ " />".

Definition sampleCSharpEnv : CSharpEnv := {|
  cs_isWindows := false;
  cs_projectName := "app";
  cs_readdir := JOk ["app.csproj"; "host.json"];
  cs_readFile := fun _ => JOk sampleCsproj;
  cs_writeFile := fun _ _ => JOk tt;
  cs_pathExists := fun f => JOk (String.eqb f "host.json");
  cs_semver := fun v => JOk (v, if String.eqb v "1.0.6" then Lt else Gt);
  cs_getFuncExtensionSetting := fun _ => Some (JBool true);
  cs_opn := fun _ => JOk tt;
  cs_updateGlobalSetting := fun _ _ => JOk tt;
  cs_tryGetLocalRuntimeVersion := JOk None;
  cs_promptForProjectRuntime := fun a => match a with Pick 0 => JOk one | _ => JOk beta end;
  cs_executeDotnetTemplateCommand := fun _ _ => JOk tt
|}.


(** [pat] starts at a position inside [before], in the text [before ++ rest]. *)
Fixpoint occurs_within (pat before rest : string) : bool :=
  match before with
  | EmptyString => false
  | String _ b => String.prefix pat (before ++ rest) || occurs_within pat b rest
  end.

(** What each outside effect of [validateFuncSdkVersion] implies. *)
Definition validate_gate (env : CSharpEnv) (csprojPath csprojContents : string)
    (ev : CSharpEvent) : Prop :=
  match ev with
  | CS_Telemetry key _ => key = "cSharpFuncSdkVersion" \/ key = "cSharpFuncSdkError"
  | CS_WriteFile path contents =>
      path = csprojPath /\ cs_isWindows env = false /\
      exists line v raw,
        firstLineWith funcSdkPackage EmptyString csprojContents = Some line /\
        versionMatch line = Some v /\ cs_semver env v = JOk (raw, Lt) /\
        contents = js_replace csprojContents line (js_replace line raw minFuncSdkVersion)
  | _ => False
  end.

(** What each outside effect of [getRuntime] implies. *)
Definition getRuntime_gate (env : CSharpEnv) (ev : CSharpEvent) : Prop :=
  match ev with
  | CS_ReadDir => True
  | CS_ReadFile f => exists files, cs_readdir env = JOk files /\ selectCsproj files = Some f
  | CS_WriteFile f _ =>
      cs_isWindows env = false /\
      exists files, cs_readdir env = JOk files /\ selectCsproj files = Some f
  | CS_Telemetry key _ =>
      key = "cSharpFuncSdkVersion" \/ key = "cSharpFuncSdkError" \/ key = "cSharpTargetFramework"
  | CS_ShowWarning message modal items =>
      message = sixtyFourBitMessage /\ modal = false /\ items = [DR_learnMore; DR_dontWarnAgain] /\
      js_truthy (cs_getFuncExtensionSetting env "show64BitWarning") = true /\
      exists files f contents tf,
        cs_readdir env = JOk files /\ selectCsproj files = Some f /\
        cs_readFile env f = JOk contents /\ targetFrameworkMatch contents = Some tf /\
        String.prefix "netstandard" tf = false
  | CS_Opn url => url = sixtyFourBitLink
  | CS_UpdateGlobalSetting key v => key = "show64BitWarning" /\ v = JBool false
  | CS_PathExists _ | CS_PromptForProjectRuntime | CS_ExecuteDotnetTemplateCommand _ _ => False
  end.

(** What each outside effect of [addNonVSCodeFiles] implies. *)
Definition addNonVSCodeFiles_gate (env : CSharpEnv)
    (gitignoreFileName localSettingsFileName hostFileName : string) (ev : CSharpEvent) : Prop :=
  match ev with
  | CS_PathExists f =>
      In f [cs_projectName env ++ ".csproj"; gitignoreFileName; localSettingsFileName; hostFileName]
  | CS_ShowWarning _ modal items => modal = true /\ items = [DR_yes; DR_cancel]
  | CS_PromptForProjectRuntime => cs_tryGetLocalRuntimeVersion env = JOk None
  | CS_ExecuteDotnetTemplateCommand rt args =>
      args = ["create"; "--identity";
              match rt with
              | one => "Microsoft.AzureFunctions.ProjectTemplate.CSharp.1.x"
              | beta => "Microsoft.AzureFunctions.ProjectTemplate.CSharp.2.x"
              end; "--arg:name"; cs_projectName env] /\
      (forall r, cs_tryGetLocalRuntimeVersion env = JOk (Some r) -> rt = r)
  | _ => False
  end.

(** From here on [++] is list concatenation. *)
Open Scope list_scope.

(* ================================================================== *)
(** * Properties of [TemplateData.getTemplates] *)

Lemma List_filter_sublist {A} (p : A -> bool) (l : list A) :
  sublist (List.filter p l) l.
Proof.
  induction l as [|x l IH]; simpl; [constructor|].
  destruct (p x); [by apply sublist_skip | by apply sublist_cons].
Qed.

Lemma List_filter_filter {A} (p q : A -> bool) (l : list A) :
  List.filter p (List.filter q l) = List.filter (fun x => q x && p x) l.
Proof.
  induction l as [|x l IH]; simpl; [done|].
  destruct (q x); simpl; [destruct (p x); simpl; by rewrite IH | done].
Qed.

Lemma getTemplates_undefined (td : TemplateData) lang rt f :
  _templatesMap td !! rt = None -> getTemplates td lang rt f = Err _noInternetErrMsg.
Proof. intros H. unfold getTemplates. by rewrite H. Qed.

(** Every successful result is obtained by filtering the stored list. *)
Lemma getTemplates_filtered (td : TemplateData) lang rt f l :
  getTemplates td lang rt f = Ok l ->
  exists ts p, _templatesMap td !! rt = Some ts /\ l = List.filter p ts.
Proof.
  unfold getTemplates. destruct (_templatesMap td !! rt) as [ts|] eqn:Hm; [|discriminate].
  intros H. exists ts.
  destruct (String.eqb lang ProjectLanguage_Java).
  - injection H as <-. eexists. split; [done|]. apply List_filter_filter.
  - destruct (opt_str_eqb f (Some TemplateFilter_All)).
    { injection H as <-. eauto. }
    destruct (opt_str_eqb f (Some TemplateFilter_Core));
      injection H as <-; eexists; (split; [done|]); apply List_filter_filter.
Qed.

(** The language filter of the non-Java branch. *)
Definition language_matches (lang : string) (t : IFunctionTemplate) : bool :=
  String.eqb (toLowerCase (language t)) (toLowerCase lang).

Lemma getTemplates_nonJava (td : TemplateData) lang rt f ts :
  String.eqb lang ProjectLanguage_Java = false ->
  _templatesMap td !! rt = Some ts ->
  exists p, getTemplates td lang rt f
            = Ok (List.filter (fun t => language_matches lang t && p t) ts).
Proof.
  intros HJ Hm. unfold getTemplates. rewrite Hm, HJ.
  destruct (opt_str_eqb f (Some TemplateFilter_All)).
  { exists (fun _ => true). f_equal. apply List.filter_ext.
    intros t. by rewrite andb_true_r. }
  destruct (opt_str_eqb f (Some TemplateFilter_Core));
    eexists; f_equal; apply List_filter_filter.
Qed.

Lemma In_List_filter {A} (p : A -> bool) (l : list A) x :
  In x (List.filter p l) -> p x = true.
Proof. rewrite filter_In. tauto. Qed.

(** A sample container whose only template has a lower-case language tag. *)
Definition lowerJsTemplate : IFunctionTemplate :=
  mkTemplate "HttpTrigger-JavaScript" "HTTP trigger" "javascript" [].

Definition lowerJsData : TemplateData :=
  mkTemplateData (<[ProjectRuntime_value one := [lowerJsTemplate]]> ∅).

(** ** Claim C5 *)

(** C5 (counterexample): a non-Java request does not only return templates
    whose language string equals the requested one: the comparison is made
    after [toLowerCase], so a template tagged "javascript" is returned for
    the request "JavaScript". *)
Lemma C5_case_insensitive_counterexample :
  ~ (forall (td : TemplateData) (lang rt : string) (f : option string)
            (l : list IFunctionTemplate) (t : IFunctionTemplate),
        String.eqb lang ProjectLanguage_Java = false ->
        getTemplates td lang rt f = Ok l -> In t l -> language t = lang).
Proof.
  intros H.
  assert (Hr : getTemplates lowerJsData "JavaScript" "~1" (Some TemplateFilter_All)
               = Ok [lowerJsTemplate]) by reflexivity.
  specialize (H _ _ _ _ _ lowerJsTemplate (eq_refl : String.eqb "JavaScript" ProjectLanguage_Java = false) Hr (or_introl eq_refl)).
  discriminate H.
Qed.

(** C5 (amended): for every non-Java language, runtime and filter, every
    template returned by [getTemplates] has a language tag equal to the
    requested language up to case ([toLowerCase] on both sides); with the
    [All] filter the result is exactly the stored templates of the runtime
    whose lower-cased language equals the lower-cased request, in order. *)
Theorem C5_language_filter_case_insensitive :
  forall (td : TemplateData) (lang rt : string) (f : option string),
    String.eqb lang ProjectLanguage_Java = false ->
    (forall l t, getTemplates td lang rt f = Ok l -> In t l ->
                 toLowerCase (language t) = toLowerCase lang) /\
    (forall ts, _templatesMap td !! rt = Some ts ->
       getTemplates td lang rt (Some TemplateFilter_All)
       = Ok (List.filter (fun t => String.eqb (toLowerCase (language t)) (toLowerCase lang)) ts)).
Proof.
  intros td lang rt f HJ. split.
  - intros l t H Hin.
    destruct (_templatesMap td !! rt) as [ts|] eqn:Hm.
    + destruct (getTemplates_nonJava td lang rt f ts HJ Hm) as [p Hp].
      rewrite Hp in H. injection H as <-.
      apply In_List_filter in Hin. apply andb_prop in Hin as [Hl _].
      by apply String.eqb_eq.
    + rewrite getTemplates_undefined in H; [discriminate|done].
  - intros ts Hm. unfold getTemplates. by rewrite Hm, HJ.
Qed.

Lemma C5_witness :
  String.eqb "JavaScript" ProjectLanguage_Java = false /\
  toLowerCase (language lowerJsTemplate) = toLowerCase "JavaScript".
Proof.
  split; [reflexivity|].
  apply (proj1 (C5_language_filter_case_insensitive lowerJsData "JavaScript" "~1"
                  (Some TemplateFilter_All) eq_refl) [lowerJsTemplate]).
  - reflexivity.
  - simpl. left. reflexivity.
Defined.

(** ** Claim C6 *)

(** The verified ids that [verifyTemplatesByRuntime] checks, given the
    outcome of [validateDotnetInstalled]. *)
Definition dotnetFiltered (w : World) (ids : list string) : list string :=
  match w_validateDotnetInstalled w with
  | Ok _ => ids
  | Err _ => List.filter (fun i => negb (includes i "CSharp")) ids
  end.

Lemma verifyEach_spec (ts : list IFunctionTemplate) (ids : list string) (s : state) :
  (exists e, verifyEach ts ids s = (Err e, s)) \/ verifyEach ts ids s = (Ok tt, s).
Proof.
  induction ids as [|i ids IH]; simpl; [by right|].
  destruct (existsb _ ts); [done|]. left. eexists. reflexivity.
Qed.

Lemma verifyEach_ok (ts : list IFunctionTemplate) (ids : list string) (s : state) :
  fst (verifyEach ts ids s) = Ok tt <->
  Forall (fun vid => exists t, In t ts /\ id t = vid) ids.
Proof.
  induction ids as [|i ids IH]; simpl.
  - split; [constructor|done].
  - rewrite Forall_cons. destruct (existsb _ ts) eqn:E.
    + rewrite IH. apply existsb_exists in E as [t [Ht Hi]].
      apply String.eqb_eq in Hi. split; [|tauto]. intros H. split; [|done]. eauto.
    + simpl. split; [discriminate|]. intros [[t [Ht Hi]] _].
      assert (existsb (fun t => String.eqb (id t) i) ts = true) as E'.
      { apply existsb_exists. exists t. split; [done|]. by apply String.eqb_eq. }
      congruence.
Qed.

Lemma verifyTemplatesByRuntime_unfold (w : World) ts rt s :
  verifyTemplatesByRuntime w ts rt s
  = verifyEach ts (dotnetFiltered w (verifiedTemplatesFor rt)) s.
Proof.
  unfold verifyTemplatesByRuntime, dotnetFiltered, tryCatch, lift.
  cbn [mbind M_bind]. destruct (w_validateDotnetInstalled w); reflexivity.
Qed.

(** C6: verified-template selection distinguishes exactly two runtime
    generations.  In the [Verified] (and default) filter branch of
    [getTemplates] the V1 list is used when the runtime string is the value
    of [ProjectRuntime.one] and the V2 list for every other runtime string;
    [verifyTemplatesByRuntime] checks the V1 list for [one] and the V2 list
    for every other runtime (less the C# ids when .NET is missing). *)
Theorem C6_verified_list_by_runtime :
  (forall (td : TemplateData) (lang rt : string) (f : option string) ts,
     String.eqb lang ProjectLanguage_Java = false ->
     _templatesMap td !! rt = Some ts ->
     opt_str_eqb f (Some TemplateFilter_All) = false ->
     opt_str_eqb f (Some TemplateFilter_Core) = false ->
     getTemplates td lang rt f
     = Ok (List.filter
             (fun t => str_mem (id t)
                         (if String.eqb rt (ProjectRuntime_value one)
                          then verifiedV1Templates else verifiedV2Templates))
             (List.filter (language_matches lang) ts))) /\
  (forall (w : World) templates (runtime : ProjectRuntime) s,
     fst (verifyTemplatesByRuntime w templates runtime s) = Ok tt <->
     Forall (fun vid => exists t, In t templates /\ id t = vid)
            (dotnetFiltered w (match runtime with
                               | one => verifiedV1Templates
                               | _ => verifiedV2Templates end))).
Proof.
  split.
  - intros td lang rt f ts HJ Hm HA HC. unfold getTemplates.
    by rewrite Hm, HJ, HA, HC.
  - intros w templates runtime s. rewrite verifyTemplatesByRuntime_unfold.
    rewrite verifyEach_ok. by destruct runtime.
Qed.

Lemma C6_witness :
  getTemplates lowerJsData "javascript" "~1" (Some TemplateFilter_Verified)
  = Ok [lowerJsTemplate].
Proof.
  rewrite (proj1 C6_verified_list_by_runtime lowerJsData "javascript" "~1"
             (Some TemplateFilter_Verified) [lowerJsTemplate]); reflexivity.
Defined.

(** ** Claim C7 *)

(** C7: [getTemplates] is read-only over the parsed model.  It is a function
    of the container (which it does not change: it returns no new
    container), so repeated calls with the same arguments agree, and every
    list it returns is a subsequence of the list stored for the requested
    runtime. *)
Theorem C7_getTemplates_read_only :
  forall (td : TemplateData) (lang rt : string) (f : option string) l,
    getTemplates td lang rt f = Ok l ->
    (exists ts, _templatesMap td !! rt = Some ts /\ l `sublist_of` ts) /\
    getTemplates td lang rt f = getTemplates td lang rt f.
Proof.
  intros td lang rt f l H. split; [|done].
  destruct (getTemplates_filtered td lang rt f l H) as [ts [p [Hm ->]]].
  exists ts. split; [done|]. apply List_filter_sublist.
Qed.

Lemma C7_witness :
  exists ts, _templatesMap lowerJsData !! "~1" = Some ts /\ [lowerJsTemplate] `sublist_of` ts.
Proof.
  apply (proj1 (C7_getTemplates_read_only lowerJsData "javascript" "~1" None
                  [lowerJsTemplate] eq_refl)).
Defined.

(** ** Claim C8 *)

(** C8: [getTemplates] throws, and then with the recheck-internet message,
    exactly when the container has no (defined) entry for the runtime;
    whenever an entry exists, even an empty list, it returns a list. *)
Theorem C8_throws_iff_no_entry :
  forall (td : TemplateData) (lang rt : string) (f : option string),
    (forall e, getTemplates td lang rt f = Err e <->
               _templatesMap td !! rt = None /\ e = _noInternetErrMsg) /\
    (forall ts, _templatesMap td !! rt = Some ts ->
                exists l, getTemplates td lang rt f = Ok l).
Proof.
  intros td lang rt f. unfold getTemplates. split.
  - intros e. destruct (_templatesMap td !! rt) as [ts|].
    + split; [|intros [? _]; discriminate].
      destruct (String.eqb lang ProjectLanguage_Java); [discriminate|].
      destruct (opt_str_eqb f _); [discriminate|].
      destruct (opt_str_eqb f _); discriminate.
    + split; [intros H; injection H as <-; done | intros [_ ->]; done].
  - intros ts ->.
    destruct (String.eqb lang ProjectLanguage_Java); [eauto|].
    destruct (opt_str_eqb f _); [eauto|].
    destruct (opt_str_eqb f _); eauto.
Qed.

Lemma C8_witness :
  exists l, getTemplates (mkTemplateData (<["beta" := []]> ∅)) "C#" "beta" None = Ok l.
Proof.
  apply (proj2 (C8_throws_iff_no_entry (mkTemplateData (<["beta" := []]> ∅)) "C#" "beta" None) []).
  reflexivity.
Defined.

(** ** Claim C9 *)

Lemma removeLanguageFromId_prefix (a b : string) :
  (forall c, In c (list_ascii_of_string a) -> c <> "-"%char) ->
  removeLanguageFromId (a ++ String "-" b) = a /\ removeLanguageFromId a = a.
Proof.
  unfold removeLanguageFromId.
  induction a as [|c a IH]; simpl; intros H; [done|].
  assert (Hc : Ascii.eqb c "-" = false).
  { apply Ascii.eqb_neq. apply H. by left. }
  rewrite Hc. destruct IH as [-> ->]; [|done].
  intros c' Hin. apply H. by right.
Qed.

(** C9: for Java, [getTemplates] ignores the filter and returns exactly the
    stored templates (in order) whose language tag is the string
    "JavaScript" and whose id prefix [removeLanguageFromId id] is one of
    HttpTrigger, BlobTrigger, QueueTrigger, TimerTrigger; that prefix is the
    part of the id before its first '-' (the whole id when it has none). *)
Theorem C9_java_templates :
  (forall (td : TemplateData) (rt : string) (f : option string) ts,
     _templatesMap td !! rt = Some ts ->
     getTemplates td ProjectLanguage_Java rt f
     = Ok (List.filter
             (fun t => String.eqb (language t) ProjectLanguage_JavaScript &&
                       str_mem (removeLanguageFromId (id t))
                         ["HttpTrigger"; "BlobTrigger"; "QueueTrigger"; "TimerTrigger"])
             ts)) /\
  (forall a b, (forall c, In c (list_ascii_of_string a) -> c <> "-"%char) ->
     removeLanguageFromId (a ++ String "-" b) = a /\ removeLanguageFromId a = a).
Proof.
  split; [|exact removeLanguageFromId_prefix].
  intros td rt f ts Hm. unfold getTemplates. rewrite Hm. simpl.
  f_equal. apply List_filter_filter.
Qed.

Lemma C9_witness :
  getTemplates (mkTemplateData (<["beta" := [js_template "HttpTrigger-JavaScript";
                                             js_template "GenericWebHook-JavaScript"]]> ∅))
               ProjectLanguage_Java "beta" (Some TemplateFilter_All)
  = Ok [js_template "HttpTrigger-JavaScript"].
Proof.
  rewrite (proj1 C9_java_templates _ "beta" (Some TemplateFilter_All)
             [js_template "HttpTrigger-JavaScript"; js_template "GenericWebHook-JavaScript"]);
    reflexivity.
Defined.

(* ================================================================== *)
(** * Frame lemmas for the resolver *)

(** [m] leaves the projection [proj] of the state unchanged. *)
Definition preserves {A B} (proj : state -> B) (m : M A) : Prop :=
  forall s, proj (snd (m s)) = proj s.

Section Frames.
Context {B : Type} (proj : state -> B).

Lemma pres_ret {A} (a : A) : preserves proj (mret a : M A).
Proof. done. Qed.

Lemma pres_lift {A} (r : res A) : preserves proj (lift r).
Proof. done. Qed.

Lemma pres_gets {A} (g : state -> A) : preserves proj (gets g).
Proof. done. Qed.

Lemma pres_throw {A} (e : string) : preserves proj (throw e : M A).
Proof. done. Qed.

Lemma pres_bind {A C} (m : M A) (f : A -> M C) :
  preserves proj m -> (forall a, preserves proj (f a)) -> preserves proj (m ≫= f).
Proof.
  intros Hm Hf s. unfold mbind, M_bind.
  specialize (Hm s). destruct (m s) as [[a|e] s']; simpl in *; [|done].
  rewrite <- Hm. apply Hf.
Qed.

Lemma pres_tryCatch {A} (m : M A) (h : string -> M A) :
  preserves proj m -> (forall e, preserves proj (h e)) -> preserves proj (tryCatch m h).
Proof.
  intros Hm Hh s. unfold tryCatch.
  specialize (Hm s). destruct (m s) as [[a|e] s']; simpl in *; [done|by rewrite Hh].
Qed.

Lemma pres_tryFinally {A} (m : M A) (f : M unit) :
  preserves proj m -> preserves proj f -> preserves proj (tryFinally m f).
Proof.
  intros Hm Hf s. unfold tryFinally.
  specialize (Hm s). destruct (m s) as [r s1]. specialize (Hf s1).
  destruct (f s1) as [[[]|e] s2] eqn:E; simpl in *; congruence.
Qed.

Lemma pres_verifyEach ts ids : preserves proj (verifyEach ts ids).
Proof.
  induction ids as [|i ids IH]; simpl; [apply pres_ret|].
  destruct (existsb _ ts); [done|apply pres_throw].
Qed.

Lemma pres_verifyTemplatesByRuntime w ts rt : preserves proj (verifyTemplatesByRuntime w ts rt).
Proof. intros s. rewrite verifyTemplatesByRuntime_unfold. apply pres_verifyEach. Qed.

End Frames.

(** Generic frame tactic: walks the monadic structure of a program. *)
Ltac pres_step :=
  match goal with
  | |- preserves _ (mbind _ _) => apply pres_bind; [|intros]
  | |- preserves _ (tryCatch _ _) => apply pres_tryCatch; [|intros]
  | |- preserves _ (tryFinally _ _) => apply pres_tryFinally
  | |- preserves _ (mret _) => apply pres_ret
  | |- preserves _ (lift _) => apply pres_lift
  | |- preserves _ (gets _) => apply pres_gets
  | |- preserves _ (throw _) => apply pres_throw
  | |- preserves _ (verifyEach _ _) => apply pres_verifyEach
  | |- preserves _ (verifyTemplatesByRuntime _ _ _) => apply pres_verifyTemplatesByRuntime
  | |- preserves _ (match ?x with _ => _ end) => destruct x
  | |- preserves _ (let _ := _ in _) => cbv zeta
  end.

Ltac pres_auto := repeat (pres_step || eassumption).

Lemma gs_update_pres_ghost k v : preserves st_ghost (gs_update k v).
Proof. done. Qed.
Lemma gs_update_pres_tmap k v : preserves st_templatesMap (gs_update k v).
Proof. done. Qed.
Lemma setting_pres_ghost v : preserves st_ghost (updateTemplateVersionSetting v).
Proof. done. Qed.
Lemma setting_pres_tmap v : preserves st_templatesMap (updateTemplateVersionSetting v).
Proof. done. Qed.
Lemma setting_pres_gs v : preserves st_globalState (updateTemplateVersionSetting v).
Proof. done. Qed.

(** The cache reader only reads the state. *)
Lemma cache_pres_state w rt : preserves (fun s => s) (tryGetParsedTemplateDataFromCache w rt).
Proof. unfold tryGetParsedTemplateDataFromCache, gs_get. pres_auto. Qed.

(** As written, [tryGetParsedTemplateDataFromCache] returns [undefined]
    whatever the Memento holds. *)
Lemma swallow_then_undefined {A} (m : M unit) s :
  (tryCatch m (fun _ => mret tt);; (mret None : M (option A))) s = (Ok None, snd (m s)).
Proof.
  unfold tryCatch, mbind, M_bind. by destruct (m s) as [[[]|e] s'].
Qed.

Lemma cache_returns_undefined w rt s :
  tryGetParsedTemplateDataFromCache w rt s = (Ok None, s).
Proof.
  pose proof (cache_pres_state w rt s) as Hs. unfold preserves in Hs.
  unfold tryGetParsedTemplateDataFromCache in *.
  rewrite swallow_then_undefined in *. cbn [snd] in Hs. by rewrite Hs.
Qed.

Section FeedFrames.
Context (w : World) (f : cliFeedJsonResponse) (v : string) (rt : ProjectRuntime).

Lemma feed_pres_ghost : preserves st_ghost (tryGetParsedTemplateDataFromCliFeed w f v rt).
Proof.
  unfold tryGetParsedTemplateDataFromCliFeed, cliFeedBody, cleanupTempPath,
    downloadAndExtractTemplates, downloadAndExtractCSharpTemplates.
  pres_auto; apply gs_update_pres_ghost.
Qed.

Lemma feed_pres_tmap : preserves st_templatesMap (tryGetParsedTemplateDataFromCliFeed w f v rt).
Proof.
  unfold tryGetParsedTemplateDataFromCliFeed, cliFeedBody, cleanupTempPath,
    downloadAndExtractTemplates, downloadAndExtractCSharpTemplates.
  pres_auto; apply gs_update_pres_tmap.
Qed.

End FeedFrames.

Lemma version_pres_ghost w feed rt : preserves st_ghost (tryGetTemplateVersionSetting w feed rt).
Proof. unfold tryGetTemplateVersionSetting. pres_auto; apply setting_pres_ghost. Qed.

Lemma version_pres_tmap w feed rt : preserves st_templatesMap (tryGetTemplateVersionSetting w feed rt).
Proof. unfold tryGetTemplateVersionSetting. pres_auto; apply setting_pres_tmap. Qed.

(* ================================================================== *)
(** * The four-tier fallback of [getTemplateData] *)

(** [runs P m Q E]: from a state satisfying [P], [m] either returns [a] in a
    state satisfying [Q a], or throws in a state satisfying [E]. *)
Definition runs {A} (P : state -> Prop) (m : M A) (Q : A -> state -> Prop)
    (E : state -> Prop) : Prop :=
  forall s, P s -> match m s with (Ok a, s') => Q a s' | (Err _, s') => E s' end.

Lemma runs_bind {A C} P (m : M A) (f : A -> M C) Q R E :
  runs P m Q E -> (forall a, runs (Q a) (f a) R E) -> runs P (m ≫= f) R E.
Proof.
  intros Hm Hf s Hs. unfold mbind, M_bind. specialize (Hm s Hs).
  destruct (m s) as [[a|e] s']; [by apply Hf|done].
Qed.

Lemma runs_ret {A} P (a : A) Q E :
  (forall s, P s -> Q a s) -> runs P (mret a) Q E.
Proof. intros H s Hs. by apply H. Qed.

Lemma runs_modify P g Q E :
  (forall s, P s -> Q tt (g s)) -> runs P (modify g) Q E.
Proof. intros H s Hs. by apply H. Qed.

Definition tiers_order : list Tier := [MatchingCache; CliFeed; MismatchCache; BackupCliFeed].

(** What the last recorded attempt returned ([undefined] if none). *)
Fixpoint last_result (log : list Attempt) : option (list IFunctionTemplate) :=
  match log with
  | [] => None
  | [a] => at_result a
  | _ :: l => last_result l
  end.

Lemma last_result_snoc log a : last_result (log ++ [a]) = at_result a.
Proof.
  induction log as [|b log IH]; [done|]. simpl.
  destruct (log ++ [a]) eqn:E; [destruct log; discriminate|].
  change (last_result (a0 :: l) = at_result a). exact IH.
Qed.

Lemma Forall_removelast_last (P : Attempt -> Prop) log :
  Forall P (removelast log) -> (forall a, last_result log = at_result a -> P a) ->
  Forall P log.
Proof.
  induction log as [|a log IH]; [constructor|].
  destruct log as [|b log].
  - intros _ H. constructor; [by apply H|constructor].
  - intros H1 H2. simpl in H1. inversion H1; subst. constructor; [done|]. by apply IH.
Qed.

(** A recorded result is [undefined] or a non-empty list. *)
Definition result_nonempty (a : Attempt) : Prop :=
  forall l, at_result a = Some l -> l <> [].

(** [l] has a template for every id [verifyTemplatesByRuntime] requires. *)
Definition verified_for (w : World) (rt : ProjectRuntime) (l : list IFunctionTemplate) : Prop :=
  Forall (fun vid => exists t, In t l /\ id t = vid) (dotnetFiltered w (verifiedTemplatesFor rt)).

(** A recorded result is [undefined] or a non-empty list that passed
    verification for the attempt's runtime. *)
Definition result_ok (w : World) (a : Attempt) : Prop :=
  forall l, at_result a = Some l -> l <> [] /\ verified_for w (at_runtime a) l.

(** Tier attempts for [rt] since [s0] follow the order [pre], every attempt
    but the last returned [undefined], and [p] is the last result. *)
Definition Inv (w : World) (rt : ProjectRuntime) (pre : list Tier) (s0 : state)
    (p : option (list IFunctionTemplate)) (s : state) : Prop :=
  exists log,
    st_ghost s = st_ghost s0 ++ log /\
    Forall (fun a => at_runtime a = rt) log /\
    map at_tier log `sublist_of` pre /\
    Forall (fun a => at_result a = None) (removelast log) /\
    Forall (result_ok w) log /\
    p = last_result log /\
    st_templatesMap s = st_templatesMap s0.

(** The outcome of one runtime's callback. *)
Definition Final (w : World) (rt : ProjectRuntime) (s0 s : state) : Prop :=
  exists log,
    st_ghost s = st_ghost s0 ++ log /\
    Forall (fun a => at_runtime a = rt) log /\
    map at_tier log `sublist_of` tiers_order /\
    Forall (fun a => at_result a = None) (removelast log) /\
    Forall (result_ok w) log /\
    st_templatesMap s = match last_result log with
                        | Some l => <[ProjectRuntime_value rt := l]> (st_templatesMap s0)
                        | None => st_templatesMap s0
                        end.

Lemma Inv_Final w rt pre s0 s :
  pre `sublist_of` tiers_order -> Inv w rt pre s0 None s -> Final w rt s0 s.
Proof.
  intros Hpre (log & Hg & Hr & Ht & Hn & Hne & Hp & Hm).
  exists log. repeat split; try done.
  - by transitivity pre.
  - by rewrite <- Hp.
Qed.

(** A step that touches neither the ghost record nor the templates map. *)
Lemma runs_frame {A} w rt pre s0 p (m : M A) :
  pre `sublist_of` tiers_order -> p = None ->
  preserves st_ghost m -> preserves st_templatesMap m ->
  runs (Inv w rt pre s0 p) m (fun _ => Inv w rt pre s0 p) (Final w rt s0).
Proof.
  intros Hpre -> Hg Htm s Hs. specialize (Hg s). specialize (Htm s).
  assert (Hs' : Inv w rt pre s0 None (snd (m s))).
  { destruct Hs as (log & H1 & H2 & H3 & H4 & H5 & H6 & H7).
    exists log. rewrite Hg, Htm. done. }
  destruct (m s) as [[a|e] s']; [done|]. by eapply Inv_Final.
Qed.

(** A tier that is skipped keeps the invariant, with a longer order. *)
Lemma runs_skip w rt pre t s0 p :
  runs (Inv w rt pre s0 p) (mret p) (Inv w rt (pre ++ [t]) s0) (Final w rt s0).
Proof.
  apply runs_ret. intros s (log & H1 & H2 & H3 & H4 & H5 & H6 & H7).
  exists log. repeat split; try done. by apply sublist_inserts_r.
Qed.

(** A tier [m] that returns [undefined] or a non-empty verified list. *)
Definition returns_nonempty (w : World) (rt : ProjectRuntime)
    (m : M (option (list IFunctionTemplate))) : Prop :=
  forall s l s', m s = (Ok (Some l), s') -> l <> [] /\ verified_for w rt l.

Lemma runs_attempt w rt pre t s0 m :
  (pre ++ [t]) `sublist_of` tiers_order ->
  preserves st_ghost m -> preserves st_templatesMap m -> returns_nonempty w rt m ->
  runs (Inv w rt pre s0 None) (attempt rt t m) (Inv w rt (pre ++ [t]) s0) (Final w rt s0).
Proof.
  intros Hpre Hg Htm Hne s (log & H1 & H2 & H3 & H4 & H5 & H6 & H7).
  specialize (Hg s). specialize (Htm s). specialize (Hne s).
  unfold attempt, modify, mbind, M_bind.
  destruct (m s) as [[r|e] s'] eqn:E; simpl in *.
  - exists (log ++ [mkAttempt rt t r]). cbn [st_ghost st_templatesMap set_ghost].
    rewrite Hg, H1, app_assoc. repeat split; try done.
    + apply Forall_app. split; [done|]. by constructor.
    + rewrite map_app. by apply sublist_app.
    + rewrite removelast_last. apply Forall_removelast_last; [done|].
      intros a Ha. rewrite <- H6 in Ha. done.
    + apply Forall_app. split; [done|]. constructor; [|constructor].
      intros l Hl. cbn [at_result at_runtime] in Hl |- *. subst r. by eapply Hne.
    + by rewrite last_result_snoc.
    + by rewrite Htm.
  - apply (Inv_Final w rt (pre ++ [t])); [done|].
    exists log. rewrite Hg, Htm. repeat split; try done.
    by apply sublist_inserts_r.
Qed.

Lemma bind_ok {A C} (m : M A) (f : A -> M C) s c s' :
  (m ≫= f) s = (Ok c, s') -> exists a s1, m s = (Ok a, s1) /\ f a s1 = (Ok c, s').
Proof.
  unfold mbind, M_bind. destruct (m s) as [[a|e] s1]; [eauto|discriminate].
Qed.

Ltac peel H := repeat (cbv zeta in H; apply bind_ok in H; destruct H as (? & ? & ? & H)).

Lemma verified_nonempty w rt : dotnetFiltered w (verifiedTemplatesFor rt) <> [].
Proof.
  unfold dotnetFiltered. destruct (w_validateDotnetInstalled w), rt;
    intros H; vm_compute in H; discriminate.
Qed.

(** Verification succeeds only on a non-empty template list that has every
    required id. *)
Lemma verify_ok_nonempty w ts rt s (u : unit) s' :
  verifyTemplatesByRuntime w ts rt s = (Ok u, s') -> ts <> [] /\ verified_for w rt ts.
Proof.
  destruct u. intros H.
  assert (Hf : fst (verifyTemplatesByRuntime w ts rt s) = Ok tt) by (rewrite H; done).
  rewrite verifyTemplatesByRuntime_unfold, verifyEach_ok in Hf.
  split; [|exact Hf]. intros Hts. subst ts.
  pose proof (verified_nonempty w rt) as Hne.
  destruct (dotnetFiltered w (verifiedTemplatesFor rt)) as [|i ids]; [done|].
  inversion Hf as [|? ? [t [[] _]]].
Qed.

Lemma cliFeedBody_nonempty w f v rt s l s' :
  cliFeedBody w f v rt s = (Ok (Some l), s') -> l <> [] /\ verified_for w rt l.
Proof.
  unfold cliFeedBody. intros H. peel H.
  match goal with Hv : verifyTemplatesByRuntime _ _ _ _ = (Ok _, _) |- _ =>
    apply verify_ok_nonempty in Hv end.
  injection H as <-. done.
Qed.

Lemma feed_nonempty w f v rt : returns_nonempty w rt (tryGetParsedTemplateDataFromCliFeed w f v rt).
Proof.
  intros s l s' H. unfold tryGetParsedTemplateDataFromCliFeed, tryFinally, tryCatch in H.
  destruct (cliFeedBody w f v rt s) as [[r|e] s1] eqn:E; simpl in H;
    destruct (cleanupTempPath w s1) as [[[]|e'] s2]; simpl in H; try discriminate H.
  injection H as -> _. by eapply cliFeedBody_nonempty.
Qed.

Lemma cache_nonempty w rt : returns_nonempty w rt (tryGetParsedTemplateDataFromCache w rt).
Proof. intros s l s'. rewrite cache_returns_undefined. discriminate. Qed.

Ltac tier_step pre t :=
  first
    [ apply (runs_skip _ _ pre t)
    | apply (runs_attempt _ _ pre t);
        [ repeat constructor
        | first [apply feed_pres_ghost | intros ?; rewrite cache_returns_undefined; done]
        | first [apply feed_pres_tmap | intros ?; rewrite cache_returns_undefined; done]
        | first [apply feed_nonempty | apply cache_nonempty] ] ].

(** One runtime's callback: the tiers it attempts, their results, and the
    entry it stores. *)
Lemma getTemplateDataForRuntime_spec w feed rt s0 :
  Final w rt s0 (snd (getTemplateDataForRuntime w feed rt s0)).
Proof.
  assert (Hinit : Inv w rt [] s0 None s0).
  { exists []. rewrite app_nil_r. repeat split; constructor. }
  enough (H : runs (Inv w rt [] s0 None) (getTemplateDataForRuntime w feed rt)
                   (fun _ => Final w rt s0) (Final w rt s0)).
  { specialize (H s0 Hinit). destruct (getTemplateDataForRuntime w feed rt s0) as [[?|?] ?]; exact H. }
  unfold getTemplateDataForRuntime.
  apply runs_bind with (Q := fun _ => Inv w rt [] s0 None).
  { apply runs_frame; [repeat constructor|done|apply version_pres_ghost|apply version_pres_tmap]. }
  intros tv. apply runs_bind with (Q := fun _ => Inv w rt [] s0 None).
  { apply runs_frame; [repeat constructor|done|apply pres_gets|apply pres_gets]. }
  intros gs. apply runs_bind with (Q := Inv w rt [MatchingCache] s0).
  { destruct gs as [m|]; [destruct (js_eq_json_str _ _)|]; tier_step (@nil Tier) MatchingCache. }
  intros p1. apply runs_bind with (Q := Inv w rt [MatchingCache; CliFeed] s0).
  { destruct p1, feed, tv; try tier_step [MatchingCache] CliFeed.
    destruct (str_truthy _); tier_step [MatchingCache] CliFeed. }
  intros p2. apply runs_bind with (Q := Inv w rt [MatchingCache; CliFeed; MismatchCache] s0).
  { destruct p2, gs; tier_step [MatchingCache; CliFeed] MismatchCache. }
  intros p3. apply runs_bind with (Q := Inv w rt tiers_order s0).
  { destruct p3, feed; tier_step [MatchingCache; CliFeed; MismatchCache] BackupCliFeed. }
  intros p4. destruct p4 as [l|].
  - apply runs_modify. intros s (log & H1 & H2 & H3 & H4 & H5 & H6 & H7).
    exists log. cbn [st_ghost st_templatesMap set_templatesMap].
    repeat split; try done. by rewrite <- H6, H7.
  - apply runs_ret. intros s Hs. by eapply Inv_Final.
Qed.

(** [getTemplateData] runs the callback for [one], then for [beta], on a
    fresh templates map, swallowing their errors. *)
Lemma getTemplateData_run w s :
  let s1 := snd (getTemplateDataForRuntime w (w_cliFeedJson w) one (set_templatesMap s ∅)) in
  let s2 := snd (getTemplateDataForRuntime w (w_cliFeedJson w) beta s1) in
  getTemplateData w s = (Ok (mkTemplateData (st_templatesMap s2)), s2).
Proof.
  unfold getTemplateData, forEachRuntime, ProjectRuntime_keys,
    callWithTelemetryAndErrorHandling, tryGetCliFeedJson, modify, gets.
  unfold mbind, M_bind, mret, M_ret. cbn beta iota.
  destruct (getTemplateDataForRuntime w (w_cliFeedJson w) one (set_templatesMap s ∅)) as [r1 s1].
  cbn [snd]. destruct (getTemplateDataForRuntime w (w_cliFeedJson w) beta s1) as [r2 s2].
  done.
Qed.

(** The tier attempts recorded for one runtime follow the fallback order,
    and every attempt but the last returned [undefined]. *)
Definition fallback_log (rt : ProjectRuntime) (log : list Attempt) : Prop :=
  Forall (fun a => at_runtime a = rt) log /\
  map at_tier log `sublist_of` [MatchingCache; CliFeed; MismatchCache; BackupCliFeed] /\
  Forall (fun a => at_result a = None) (removelast log).

Lemma Final_fallback {w} rt s0 s : Final w rt s0 s ->
  exists log, st_ghost s = st_ghost s0 ++ log /\ fallback_log rt log /\
              Forall result_nonempty log /\
              st_templatesMap s = match last_result log with
                                  | Some l => <[ProjectRuntime_value rt := l]> (st_templatesMap s0)
                                  | None => st_templatesMap s0
                                  end.
Proof.
  intros (log & H1 & H2 & H3 & H4 & H5 & H6). exists log.
  repeat split; try done. eapply Forall_impl; [exact H5|].
  intros a Ha l Hl. by apply Ha.
Qed.

(** ** Claim C2 *)

(** C2: for each runtime, in the order [one] then [beta], [getTemplateData]
    attempts the template sources in the order matching cache, feed at the
    requested version, stale cache, feed at the backup version (each tier
    at most once, some skipped when their guard fails), and a tier is
    attempted only after every earlier attempted tier returned [undefined]. *)
Theorem C2_fallback_order :
  forall (w : World) (s : state),
    exists log1 log2,
      st_ghost (snd (getTemplateData w s)) = st_ghost s ++ log1 ++ log2 /\
      fallback_log one log1 /\ fallback_log beta log2.
Proof.
  intros w s. rewrite getTemplateData_run. cbn [snd].
  destruct (Final_fallback _ _ _ (getTemplateDataForRuntime_spec w (w_cliFeedJson w) one
                                   (set_templatesMap s ∅))) as (log1 & G1 & F1 & _ & _).
  destruct (Final_fallback _ _ _ (getTemplateDataForRuntime_spec w (w_cliFeedJson w) beta
             (snd (getTemplateDataForRuntime w (w_cliFeedJson w) one (set_templatesMap s ∅)))))
    as (log2 & G2 & F2 & _ & _).
  exists log1, log2. split; [|done].
  rewrite G2, G1. cbn [st_ghost set_templatesMap]. by rewrite app_assoc.
Qed.

(** ** Claim C3 *)

(** C3: for each runtime, the entry [getTemplateData] stores is the result
    of the last tier it attempted, every earlier attempt returned
    [undefined], and no tier ever returned an empty list; so the stored
    list is the first non-empty result, and no runtime gets an entry when
    every attempted tier returned [undefined]. *)
Theorem C3_first_nonempty_result :
  forall (w : World) (s : state),
    exists td log1 log2,
      fst (getTemplateData w s) = Ok td /\
      st_ghost (snd (getTemplateData w s)) = st_ghost s ++ log1 ++ log2 /\
      Forall (fun a => forall l, at_result a = Some l -> l <> []) (log1 ++ log2) /\
      Forall (fun a => at_result a = None) (removelast log1) /\
      Forall (fun a => at_result a = None) (removelast log2) /\
      _templatesMap td !! ProjectRuntime_value one = last_result log1 /\
      _templatesMap td !! ProjectRuntime_value beta = last_result log2.
Proof.
  intros w s. rewrite getTemplateData_run. cbn [fst snd].
  destruct (Final_fallback _ _ _ (getTemplateDataForRuntime_spec w (w_cliFeedJson w) one
                                   (set_templatesMap s ∅))) as (log1 & G1 & F1 & N1 & M1).
  destruct (Final_fallback _ _ _ (getTemplateDataForRuntime_spec w (w_cliFeedJson w) beta
             (snd (getTemplateDataForRuntime w (w_cliFeedJson w) one (set_templatesMap s ∅)))))
    as (log2 & G2 & F2 & N2 & M2).
  eexists _, log1, log2. split; [reflexivity|]. split.
  { rewrite G2, G1. cbn [st_ghost set_templatesMap]. by rewrite app_assoc. }
  split; [by apply Forall_app|]. split; [apply F1|]. split; [apply F2|].
  cbn [_templatesMap]. rewrite M2, M1. cbn [st_templatesMap set_templatesMap].
  destruct (last_result log1) as [l1|], (last_result log2) as [l2|]; simpl;
    rewrite ?lookup_insert_eq, ?lookup_insert_ne, ?lookup_insert_eq, ?lookup_empty by done;
    done.
Qed.

(* ================================================================== *)
(** * Error handling of [tryGetParsedTemplateDataFromCliFeed] *)

Lemma cleanup_state w s : snd (cleanupTempPath w s) = s.
Proof.
  unfold cleanupTempPath, lift, mbind, M_bind.
  destruct (w_pathExists w) as [[]|]; reflexivity.
Qed.

Lemma cleanup_result w s s' : fst (cleanupTempPath w s) = fst (cleanupTempPath w s').
Proof.
  unfold cleanupTempPath, lift, mbind, M_bind.
  destruct (w_pathExists w) as [[]|]; reflexivity.
Qed.

(** How the [catch] and [finally] of the reader combine with its body. *)
Lemma tryGetParsedTemplateDataFromCliFeed_unfold w f v rt s :
  tryGetParsedTemplateDataFromCliFeed w f v rt s =
  match cliFeedBody w f v rt s with
  | (r, s1) =>
      match fst (cleanupTempPath w s) with
      | Ok _ => (match r with Ok x => Ok x | Err _ => Ok None end, s1)
      | Err e => (Err e, s1)
      end
  end.
Proof.
  unfold tryGetParsedTemplateDataFromCliFeed, tryFinally, tryCatch.
  destruct (cliFeedBody w f v rt s) as [[x|e] s1]; cbn [mret M_ret];
    rewrite (cleanup_result w s s1);
    pose proof (cleanup_state w s1) as Hs;
    destruct (cleanupTempPath w s1) as [[[]|e'] s2]; simpl in *; subst; reflexivity.
Qed.

Lemma runs_pres_gs {A} g0 (m : M A) :
  preserves st_globalState m ->
  runs (fun s => st_globalState s = g0) m (fun _ s => st_globalState s = g0)
       (fun s => st_globalState s = g0).
Proof.
  intros Hp s Hs. specialize (Hp s). destruct (m s) as [[a|e] s']; simpl in *; congruence.
Qed.

Lemma runs_update_noerr P k v E : runs P (gs_update k v) (fun _ _ => True) E.
Proof. done. Qed.

(** The body writes the Memento only in its last, infallible, block: if any
    step throws, the Memento is as it was. *)
Lemma cliFeedBody_err_keeps_memento w f v rt s e s1 :
  cliFeedBody w f v rt s = (Err e, s1) -> st_globalState s1 = st_globalState s.
Proof.
  intros H.
  enough (Hr : runs (fun s' => st_globalState s' = st_globalState s) (cliFeedBody w f v rt)
                    (fun _ _ => True) (fun s' => st_globalState s' = st_globalState s)).
  { specialize (Hr s eq_refl). by rewrite H in Hr. }
  unfold cliFeedBody.
  repeat (cbv zeta; apply runs_bind with (Q := fun _ s' => st_globalState s' = st_globalState s);
          [solve [apply runs_pres_gs;
                  unfold downloadAndExtractTemplates, downloadAndExtractCSharpTemplates; pres_auto]
          | intros]).
  apply runs_bind with (Q := fun _ _ => True); [|intros; by apply runs_ret].
  destruct (is_Some_b _); [|by apply runs_ret].
  repeat (apply runs_bind with (Q := fun _ _ => True); [apply runs_update_noerr|intros]).
  apply runs_update_noerr.
Qed.

Lemma cliFeedBody_ok_some w f v rt s r s1 :
  cliFeedBody w f v rt s = (Ok r, s1) -> exists l, r = Some l.
Proof. unfold cliFeedBody. intros H. peel H. injection H as <- _. eauto. Qed.

(** A world whose network is down: every download fails. *)
Definition offlineWorld : World :=
  {| w_cliFeedJson := Some sampleRelease;
     w_getFeedRuntime := w_getFeedRuntime sampleWorld;
     w_versionAnswer := w_versionAnswer sampleWorld;
     w_downloadFile := fun _ _ => Err "getaddrinfo ENOTFOUND";
     w_extract := w_extract sampleWorld;
     w_validateDotnetInstalled := w_validateDotnetInstalled sampleWorld;
     w_dotnetProjectTemplatePath := w_dotnetProjectTemplatePath sampleWorld;
     w_dotnetItemTemplatePath := w_dotnetItemTemplatePath sampleWorld;
     w_dotnetTemplateList := w_dotnetTemplateList sampleWorld;
     w_readJSON := w_readJSON sampleWorld;
     w_parseScriptTemplates := w_parseScriptTemplates sampleWorld;
     w_parseDotnetTemplates := w_parseDotnetTemplates sampleWorld;
     w_pathExists := w_pathExists sampleWorld;
     w_remove := w_remove sampleWorld;
     w_tmpdir := w_tmpdir sampleWorld |}.

(** The same world, where [fse.remove] of the temporary directory also
    rejects. *)
Definition removeFailsWorld : World :=
  {| w_cliFeedJson := w_cliFeedJson offlineWorld;
     w_getFeedRuntime := w_getFeedRuntime offlineWorld;
     w_versionAnswer := w_versionAnswer offlineWorld;
     w_downloadFile := w_downloadFile offlineWorld;
     w_extract := w_extract offlineWorld;
     w_validateDotnetInstalled := w_validateDotnetInstalled offlineWorld;
     w_dotnetProjectTemplatePath := w_dotnetProjectTemplatePath offlineWorld;
     w_dotnetItemTemplatePath := w_dotnetItemTemplatePath offlineWorld;
     w_dotnetTemplateList := w_dotnetTemplateList offlineWorld;
     w_readJSON := w_readJSON offlineWorld;
     w_parseScriptTemplates := w_parseScriptTemplates offlineWorld;
     w_parseDotnetTemplates := w_parseDotnetTemplates offlineWorld;
     w_pathExists := Ok true;
     w_remove := Err "EBUSY: resource busy or locked";
     w_tmpdir := w_tmpdir offlineWorld |}.

(** The version lookup catches its own errors. *)
Lemma version_never_throws w feed rt s :
  exists tv, fst (tryGetTemplateVersionSetting w feed rt s) = Ok tv.
Proof.
  unfold tryGetTemplateVersionSetting, tryCatch, mbind, M_bind, gets. cbn beta iota.
  repeat case_match; cbn; eauto.
Qed.

Lemma feed_cleanup_fails w f v rt s e :
  fst (cleanupTempPath w s) = Err e ->
  fst (tryGetParsedTemplateDataFromCliFeed w f v rt s) = Err e.
Proof.
  intros He. rewrite tryGetParsedTemplateDataFromCliFeed_unfold, He.
  by destruct (cliFeedBody w f v rt s).
Qed.

Lemma callback_cleanup_fails w f rt s e :
  (forall s', fst (cleanupTempPath w s') = Err e) ->
  fst (getTemplateDataForRuntime w (Some f) rt s) = Err e /\
  st_templatesMap (snd (getTemplateDataForRuntime w (Some f) rt s)) = st_templatesMap s.
Proof.
  intros Hc.
  pose proof (version_pres_tmap w (Some f) rt s) as Hvm.
  destruct (version_never_throws w (Some f) rt s) as [tv Hv].
  unfold getTemplateDataForRuntime, attempt, gets, modify.
  unfold mbind, M_bind, mret, M_ret. cbn beta iota.
  destruct (tryGetTemplateVersionSetting w (Some f) rt s) as [r1 s1]. cbn in Hv, Hvm. subst r1.
  cbn beta iota.
  repeat first
    [ rewrite cache_returns_undefined
    | match goal with
      | |- context [tryGetParsedTemplateDataFromCliFeed w f ?v ?r ?st] =>
          pose proof (feed_cleanup_fails w f v r st e (Hc st)) as Hf1;
          pose proof (feed_pres_tmap w f v r st) as Hf2;
          destruct (tryGetParsedTemplateDataFromCliFeed w f v r st) as [r3 s3];
          cbn in Hf1, Hf2; subst r3
      end
    | progress cbn beta iota
    | match goal with
      | |- context [match st_globalState ?x with _ => _ end] => destruct (st_globalState x)
      | |- context [if ?b then _ else _] => destruct b
      | |- context [match tv with _ => _ end] => destruct tv
      end ].
  all: cbn; split; try reflexivity; congruence.
Qed.

Lemma getTemplateData_cleanup_fails w f s e :
  w_cliFeedJson w = Some f -> (forall s', fst (cleanupTempPath w s') = Err e) ->
  exists td, fst (getTemplateData w s) = Ok td /\ _templatesMap td = ∅.
Proof.
  intros Hf Hc. rewrite getTemplateData_run, Hf. eexists. split; [reflexivity|].
  cbn [_templatesMap].
  rewrite (proj2 (callback_cleanup_fails w f beta _ e Hc)),
          (proj2 (callback_cleanup_fails w f one _ e Hc)).
  reflexivity.
Qed.

Lemma cleanupTempPath_err w s e :
  fst (cleanupTempPath w s) = Err e <->
  w_pathExists w = Err e \/ (w_pathExists w = Ok true /\ w_remove w = Err e).
Proof.
  unfold cleanupTempPath, lift, mbind, M_bind, mret, M_ret.
  destruct (w_pathExists w) as [[]|e']; cbn;
    [destruct (w_remove w); cbn|..]; intuition congruence.
Qed.

(** ** Claim C4 *)

(** C4: a failure inside the reader's [try] block is caught and gives
    [undefined] when the [finally] clean-up succeeds; when the clean-up
    fails, its error propagates instead, and with a feed available the
    per-runtime handler of [getTemplateData] swallows it for both runtimes,
    so no runtime gets templates; [getTemplateData] itself never throws. *)
Theorem C4_feed_failures_degrade :
  forall (w : World) (f : cliFeedJsonResponse) (v : string) (rt : ProjectRuntime) (s : state),
    (forall e s1, cliFeedBody w f v rt s = (Err e, s1) ->
       fst (cleanupTempPath w s) = Ok tt ->
       fst (tryGetParsedTemplateDataFromCliFeed w f v rt s) = Ok None) /\
    (forall e, fst (tryGetParsedTemplateDataFromCliFeed w f v rt s) = Err e <->
       w_pathExists w = Err e \/ (w_pathExists w = Ok true /\ w_remove w = Err e)) /\
    (forall e, w_cliFeedJson w = Some f ->
       (w_pathExists w = Err e \/ (w_pathExists w = Ok true /\ w_remove w = Err e)) ->
       exists td, fst (getTemplateData w s) = Ok td /\ _templatesMap td = ∅) /\
    (exists td, fst (getTemplateData w s) = Ok td).
Proof.
  intros w f v rt s. split; [|split; [|split]].
  - intros e s1 Hb Hc. rewrite tryGetParsedTemplateDataFromCliFeed_unfold, Hb, Hc. done.
  - intros e. rewrite <- (cleanupTempPath_err w s). split.
    + rewrite tryGetParsedTemplateDataFromCliFeed_unfold.
      destruct (cliFeedBody w f v rt s) as [r s1].
      destruct (fst (cleanupTempPath w s)) as [[]|e']; cbn; [by destruct r|congruence].
    + apply feed_cleanup_fails.
  - intros e Hf Hc. apply (getTemplateData_cleanup_fails w f s e Hf).
    intros s'. by apply cleanupTempPath_err.
  - rewrite getTemplateData_run. eexists. reflexivity.
Qed.

Lemma C4_witness :
  fst (tryGetParsedTemplateDataFromCliFeed offlineWorld sampleRelease "2.0.0" one
         (initState (Some sampleMemento) None)) = Ok None.
Proof.
  apply (proj1 (C4_feed_failures_degrade offlineWorld sampleRelease "2.0.0" one
                  (initState (Some sampleMemento) None))
               "getaddrinfo ENOTFOUND" (initState (Some sampleMemento) None)).
  - vm_compute. reflexivity.
  - vm_compute. reflexivity.
Defined.

(** C4 (counterexample): a failed download is not always turned into
    [undefined]: when [fse.remove] of the [finally] block rejects, the reader
    throws the removal error. *)
Lemma C4_cleanup_failure_counterexample :
  ~ (forall (w : World) (f : cliFeedJsonResponse) (v : string) (rt : ProjectRuntime)
            (s : state) (e : string) (s1 : state),
        cliFeedBody w f v rt s = (Err e, s1) ->
        fst (tryGetParsedTemplateDataFromCliFeed w f v rt s) = Ok None).
Proof.
  intros H.
  specialize (H removeFailsWorld sampleRelease "2.0.0" one (initState (Some sampleMemento) None)
                "getaddrinfo ENOTFOUND" (initState (Some sampleMemento) None)).
  assert (Hb : cliFeedBody removeFailsWorld sampleRelease "2.0.0" one
                 (initState (Some sampleMemento) None) =
               (Err "getaddrinfo ENOTFOUND", initState (Some sampleMemento) None))
    by (vm_compute; reflexivity).
  specialize (H Hb). vm_compute in H. discriminate H.
Qed.

(** ** Claim C10 *)

(** C10: the reader updates the Memento only after download, parsing and
    verification have all succeeded.  If any step of its [try] block throws,
    the Memento is unchanged; [undefined] is returned when the [finally]
    clean-up succeeds and the clean-up's error is thrown when it fails;
    whenever the Memento did change, the whole body succeeded with a list of
    templates. *)
Theorem C10_cache_update_atomic :
  forall (w : World) (f : cliFeedJsonResponse) (v : string) (rt : ProjectRuntime) (s : state),
    (forall e s1, cliFeedBody w f v rt s = (Err e, s1) ->
       st_globalState (snd (tryGetParsedTemplateDataFromCliFeed w f v rt s)) = st_globalState s /\
       (fst (cleanupTempPath w s) = Ok tt ->
        fst (tryGetParsedTemplateDataFromCliFeed w f v rt s) = Ok None) /\
       (forall e', fst (cleanupTempPath w s) = Err e' ->
        fst (tryGetParsedTemplateDataFromCliFeed w f v rt s) = Err e')) /\
    (st_globalState (snd (tryGetParsedTemplateDataFromCliFeed w f v rt s)) <> st_globalState s ->
       exists l s1, cliFeedBody w f v rt s = (Ok (Some l), s1)).
Proof.
  intros w f v rt s. split.
  - intros e s1 He. split; [|split]; [|rewrite tryGetParsedTemplateDataFromCliFeed_unfold, He;
                                       intros ->; done|apply feed_cleanup_fails].
    pose proof (cliFeedBody_err_keeps_memento w f v rt s e s1 He) as Hg.
    rewrite tryGetParsedTemplateDataFromCliFeed_unfold, He.
    destruct (fst (cleanupTempPath w s)); done.
  - rewrite tryGetParsedTemplateDataFromCliFeed_unfold.
    destruct (cliFeedBody w f v rt s) as [[r|e] s1] eqn:E.
    + intros _. destruct (cliFeedBody_ok_some w f v rt s r s1 E) as [l ->]. eauto.
    + pose proof (cliFeedBody_err_keeps_memento w f v rt s e s1 E) as Hg.
      destruct (fst (cleanupTempPath w s)); simpl; congruence.
Qed.

Lemma C10_witness :
  st_globalState (snd (tryGetParsedTemplateDataFromCliFeed offlineWorld sampleRelease "2.0.0" one
                         (initState (Some sampleMemento) None)))
  = Some sampleMemento.
Proof.
  apply (proj1 (C10_cache_update_atomic offlineWorld sampleRelease "2.0.0" one
                  (initState (Some sampleMemento) None))
               "getaddrinfo ENOTFOUND" (initState (Some sampleMemento) None)).
  vm_compute. reflexivity.
Defined.

(** C10 (counterexample): after a failed download the Memento is unchanged,
    but [undefined] is not returned when [fse.remove] of the [finally] block
    rejects: the reader throws the removal error. *)
Lemma C10_cleanup_failure_counterexample :
  ~ (forall (w : World) (f : cliFeedJsonResponse) (v : string) (rt : ProjectRuntime)
            (s : state) (e : string) (s1 : state),
        cliFeedBody w f v rt s = (Err e, s1) ->
        st_globalState (snd (tryGetParsedTemplateDataFromCliFeed w f v rt s)) = st_globalState s /\
        fst (tryGetParsedTemplateDataFromCliFeed w f v rt s) = Ok None).
Proof.
  intros H.
  specialize (H removeFailsWorld sampleRelease "2.0.0" one (initState (Some sampleMemento) None)
                "getaddrinfo ENOTFOUND" (initState (Some sampleMemento) None)).
  assert (Hb : cliFeedBody removeFailsWorld sampleRelease "2.0.0" one
                 (initState (Some sampleMemento) None) =
               (Err "getaddrinfo ENOTFOUND", initState (Some sampleMemento) None))
    by (vm_compute; reflexivity).
  destruct (H Hb) as [_ H2]. vm_compute in H2. discriminate H2.
Qed.

(** ** Claim C1 *)

(** C1 (the matching cache is never used): with a Memento whose stored
    template version for [one] equals the version resolved from the feed
    and whose cache entries are all present, the matching-cache tier is
    attempted but yields [undefined] (the reader builds the list and then
    returns [undefined]), and [getTemplateData] falls through to downloading
    from the feed.  In every world and state the cache reader returns
    [undefined]. *)
Theorem C1_matching_cache_falls_through :
  (forall (w : World) (rt : ProjectRuntime) (s : state),
     tryGetParsedTemplateDataFromCache w rt s = (Ok None, s)) /\
  fst (tryGetTemplateVersionSetting sampleWorld (Some sampleRelease) one
         (initState (Some sampleMemento) None)) = Ok (Some "2.0.0") /\
  js_eq_json_str (sampleMemento !! versionKey one) (Some "2.0.0") = true /\
  take 2 (map (fun a => (at_runtime a, at_tier a, is_Some_b (at_result a)))
              (st_ghost (snd (getTemplateData sampleWorld (initState (Some sampleMemento) None)))))
  = [(one, MatchingCache, false); (one, CliFeed, true)].
Proof.
  split; [exact cache_returns_undefined|].
  split; [|split]; vm_compute; reflexivity.
Qed.

(* ================================================================== *)
(** * Further properties of the resolver *)

Lemma last_result_In log l :
  last_result log = Some l -> exists a, In a log /\ at_result a = Some l.
Proof.
  induction log as [|a log IH]; [discriminate|]. destruct log as [|b log].
  - intros H. exists a. split; [by left|done].
  - intros H. destruct (IH H) as [x [Hx Hr]]. exists x. split; [by right|done].
Qed.

(** What one runtime's callback does to the templates map. *)
Lemma Final_stored w rt s0 s : Final w rt s0 s ->
  st_templatesMap s = st_templatesMap s0 \/
  exists l, st_templatesMap s = <[ProjectRuntime_value rt := l]> (st_templatesMap s0) /\
            l <> [] /\ verified_for w rt l.
Proof.
  intros (log & _ & Hrt & _ & _ & Hok & Hm). rewrite Hm.
  destruct (last_result log) as [l|] eqn:E; [right|by left].
  destruct (last_result_In log l E) as [a [Ha Hr]].
  rewrite List.Forall_forall in Hok, Hrt. destruct (Hok a Ha l Hr) as [Hne Hv].
  rewrite (Hrt a Ha) in Hv. eauto.
Qed.

(** ** Entries of the container *)

(** Whatever the world does, the container built by [getTemplateData] only
    has entries under the runtime values "~1" and "beta", and each entry is
    a non-empty list holding a template for every id that
    [verifyTemplatesByRuntime] requires for that runtime. *)
Theorem getTemplateData_entries_verified :
  forall (w : World) (s : state),
    exists td, fst (getTemplateData w s) = Ok td /\
      map_Forall (fun k l => exists rt, k = ProjectRuntime_value rt /\
                                        l <> [] /\ verified_for w rt l)
                 (_templatesMap td).
Proof.
  intros w s. rewrite getTemplateData_run. eexists. split; [reflexivity|]. cbn [_templatesMap].
  pose proof (getTemplateDataForRuntime_spec w (w_cliFeedJson w) one (set_templatesMap s ∅)) as F1.
  pose proof (getTemplateDataForRuntime_spec w (w_cliFeedJson w) beta
                (snd (getTemplateDataForRuntime w (w_cliFeedJson w) one (set_templatesMap s ∅)))) as F2.
  apply Final_stored in F1, F2.
  assert (H1 : map_Forall (fun k l => exists rt, k = ProjectRuntime_value rt /\
                                                 l <> [] /\ verified_for w rt l)
             (st_templatesMap (snd (getTemplateDataForRuntime w (w_cliFeedJson w) one
                                      (set_templatesMap s ∅))))).
  { destruct F1 as [-> | (l & -> & Hne & Hv)]; cbn [st_templatesMap set_templatesMap].
    - apply map_Forall_empty.
    - apply map_Forall_insert_2; [eauto|apply map_Forall_empty]. }
  destruct F2 as [-> | (l & -> & Hne & Hv)]; [done|].
  apply map_Forall_insert_2; eauto.
Qed.

(** ** No feed, no templates *)

(** Without a feed, only the two cache tiers can run, and they return
    [undefined]: the callback leaves the templates map as it was. *)
Lemma offline_callback_keeps_map w rt s :
  st_templatesMap (snd (getTemplateDataForRuntime w None rt s)) = st_templatesMap s.
Proof.
  unfold getTemplateDataForRuntime, tryGetTemplateVersionSetting, attempt.
  unfold mbind, M_bind, gets, tryCatch, mret, M_ret, modify. cbn beta iota.
  destruct (st_globalState s) as [m|]; cbn beta iota;
    [destruct (js_eq_json_str _ _)|]; rewrite ?cache_returns_undefined; cbn;
    rewrite ?cache_returns_undefined; cbn; reflexivity.
Qed.
(** Without the cli-feed ([tryGetCliFeedJson] yields [undefined]),
    [getTemplateData] returns an empty container whatever the Memento holds
    (even a complete cache matching the user's version), so [getTemplates]
    then throws the recheck-internet error for every language, runtime and
    filter. *)
Theorem getTemplateData_offline_empty :
  forall (w : World) (s : state), w_cliFeedJson w = None ->
    exists td, fst (getTemplateData w s) = Ok td /\ _templatesMap td = ∅ /\
      forall lang rt f, getTemplates td lang rt f = Err _noInternetErrMsg.
Proof.
  intros w s Hw. rewrite getTemplateData_run, Hw. eexists. split; [reflexivity|].
  cbn [_templatesMap]. rewrite !offline_callback_keeps_map. cbn [st_templatesMap set_templatesMap].
  split; [done|]. intros lang rt f. apply getTemplates_undefined. apply lookup_empty.
Qed.

Lemma getTemplateData_offline_empty_witness :
  exists td, fst (getTemplateData noFeedWorld (initState (Some sampleMemento) None)) = Ok td /\
    _templatesMap td = ∅ /\
    forall lang rt f, getTemplates td lang rt f = Err _noInternetErrMsg.
Proof. apply getTemplateData_offline_empty. reflexivity. Defined.

(** ** Which Memento keys the resolver writes *)


Lemma str_mem_In x l : str_mem x l = true <-> In x l.
Proof.
  unfold str_mem. rewrite existsb_exists. split.
  - intros [y [Hy Heq]]. apply String.eqb_eq in Heq. by subst.
  - intros Hx. exists x. split; [done|]. apply String.eqb_refl.
Qed.

Lemma gs_update_pres_lookup k key v : key <> k -> preserves (gs_lookup k) (gs_update key v).
Proof.
  intros Hk s. unfold gs_lookup, gs_update, modify. cbn.
  destruct (st_globalState s) as [m|]; cbn; [|done]. by rewrite lookup_insert_ne.
Qed.

Lemma feed_pres_lookup w f v rt k : str_mem k (cacheKeys rt) = false ->
  preserves (gs_lookup k) (tryGetParsedTemplateDataFromCliFeed w f v rt).
Proof.
  intros Hk.
  unfold tryGetParsedTemplateDataFromCliFeed, cliFeedBody, cleanupTempPath,
    downloadAndExtractTemplates, downloadAndExtractCSharpTemplates.
  pres_auto; apply gs_update_pres_lookup; intros Heq;
    rewrite (proj2 (str_mem_In _ _)) in Hk; try discriminate Hk; rewrite <- Heq; simpl; tauto.
Qed.

Lemma callback_pres_lookup w feed rt k : str_mem k (cacheKeys rt) = false ->
  preserves (gs_lookup k) (getTemplateDataForRuntime w feed rt).
Proof.
  intros Hk. unfold getTemplateDataForRuntime, attempt, tryGetTemplateVersionSetting.
  pres_auto; try done; try apply feed_pres_lookup; try done;
    intros s; by rewrite cache_returns_undefined.
Qed.

(** The callback for runtime [rt] writes the Memento only under [rt]'s five
    cache keys (its template version and its templates, config, resources
    and .NET templates keys); the two runtimes' key sets are disjoint, so
    the run for [beta] never overwrites the cache of [one]; and
    [getTemplateData] leaves every other key of the Memento as it was. *)
Theorem getTemplateData_cache_keys :
  forall (w : World),
    (forall feed rt k, str_mem k (cacheKeys rt) = false ->
       preserves (gs_lookup k) (getTemplateDataForRuntime w feed rt)) /\
    (forall k, str_mem k (cacheKeys one) = true -> str_mem k (cacheKeys beta) = false) /\
    (forall s k, str_mem k (cacheKeys one) = false -> str_mem k (cacheKeys beta) = false ->
       gs_lookup k (snd (getTemplateData w s)) = gs_lookup k s).
Proof.
  intros w. split; [|split].
  - apply callback_pres_lookup.
  - intros k Hk. apply str_mem_In in Hk.
    repeat (destruct Hk as [<-|Hk]; [reflexivity|]). destruct Hk.
  - intros s k H1 H2. rewrite getTemplateData_run. cbn [snd].
    rewrite (callback_pres_lookup w _ beta k H2), (callback_pres_lookup w _ one k H1).
    done.
Qed.

Lemma getTemplateData_cache_keys_witness :
  gs_lookup "azureFunctions.projectLanguage"
    (snd (getTemplateData sampleWorld (initState (Some sampleMemento) None)))
  = Some None.
Proof.
  apply (proj2 (proj2 (getTemplateData_cache_keys sampleWorld))); reflexivity.
Defined.

(** ** The template version of a runtime *)


Lemma tryGetTemplateVersionSetting_feed w f rt s :
  tryGetTemplateVersionSetting w (Some f) rt s =
  let fr := w_getFeedRuntime w rt in
  let tv := match st_templateVersionSetting s with
            | Some u => if str_truthy (Some u) then Ok u else tag_release f fr
            | None => tag_release f fr
            end in
  match tv with
  | Err _ => (Ok None, s)
  | Ok v =>
      if is_Some_b (releases f !! v) then (Ok (Some v), s)
      else match w_versionAnswer w rt with
           | PickRelease l => (Ok (Some l), set_setting s (Some l))
           | PickLatest =>
               match tag_release f fr with
               | Ok a => (Ok (Some a), set_setting s (Some ""))
               | Err _ => (Ok None, s)
               end
           | CancelPrompt => (Ok None, s)
           end
  end.
Proof.
  unfold tryGetTemplateVersionSetting, gets, tryCatch, mbind, M_bind, mret, M_ret, lift,
    throw, updateTemplateVersionSetting, modify.
  cbn beta iota zeta.
  destruct (st_templateVersionSetting s) as [u|]; [destruct (str_truthy (Some u))|];
    try destruct (tag_release f (w_getFeedRuntime w rt)); cbn beta iota;
    try destruct (is_Some_b _); try destruct (w_versionAnswer w rt); cbn beta iota;
    try destruct (tag_release f (w_getFeedRuntime w rt)); reflexivity.
Qed.

(** [tryGetTemplateVersionSetting] never throws.  Without a feed it returns
    [undefined] and changes nothing.  A version it returns is a release of
    the feed (the user's setting or the runtime's tag, the setting left
    alone), or the release the user picked after the invalid-version
    warning (then stored in the setting), or, after "Use latest", the
    feed's tag for the runtime, returned without checking that the feed
    has that release, with the setting reset to the empty string.  The
    setting changes only through those two answers. *)
Theorem tryGetTemplateVersionSetting_outcomes :
  forall (w : World) (feed : option cliFeedJsonResponse) (rt : ProjectRuntime) (s : state),
    let r := fst (tryGetTemplateVersionSetting w feed rt s) in
    let s' := snd (tryGetTemplateVersionSetting w feed rt s) in
    (exists o, r = Ok o) /\
    (feed = None -> r = Ok None /\ s' = s) /\
    (forall v, r = Ok (Some v) ->
       exists f, feed = Some f /\
         ((is_Some (releases f !! v) /\ s' = s) \/
          (w_versionAnswer w rt = PickRelease v /\ s' = set_setting s (Some v)) \/
          (w_versionAnswer w rt = PickLatest /\ tags f !! w_getFeedRuntime w rt = Some v /\
           s' = set_setting s (Some "")))) /\
    (s' = s \/
     (exists v, w_versionAnswer w rt = PickRelease v /\ s' = set_setting s (Some v)) \/
     (w_versionAnswer w rt = PickLatest /\ s' = set_setting s (Some ""))).
Proof.
  intros w feed rt s r s'. subst r s'.
  destruct feed as [f|].
  2: { cbn. split; [eauto|split; [done|split; [intros v H; discriminate|by left]]]. }
  rewrite tryGetTemplateVersionSetting_feed. cbn zeta.
  assert (Htag : forall a, tag_release f (w_getFeedRuntime w rt) = Ok a ->
                           tags f !! w_getFeedRuntime w rt = Some a).
  { unfold tag_release. intros a. destruct (tags f !! _); [congruence|discriminate]. }
  destruct (match st_templateVersionSetting s with
            | Some u => if str_truthy (Some u) then Ok u else tag_release f (w_getFeedRuntime w rt)
            | None => tag_release f (w_getFeedRuntime w rt)
            end) as [tv|e]; cbn [fst snd].
  2: { split; [eauto|split; [discriminate|split; [intros v H; discriminate|by left]]]. }
  destruct (releases f !! tv) as [rel|] eqn:Hrel; cbn [is_Some_b fst snd].
  { split; [eauto|split; [discriminate|split; [|by left]]].
    intros v H. injection H as <-. exists f. split; [done|left]. rewrite Hrel. eauto. }
  destruct (w_versionAnswer w rt) as [l| |] eqn:Ha;
    [|destruct (tag_release f (w_getFeedRuntime w rt)) as [a|e] eqn:Ht|]; cbn [fst snd];
    (split; [eauto|split; [discriminate|split]]).
  - intros v H. injection H as <-. exists f. split; [done|]. right. by left.
  - right. left. eauto.
  - intros v H. injection H as <-. exists f. split; [done|]. right. right. auto.
  - right. by right.
  - intros v H. discriminate.
  - by left.
  - intros v H. discriminate.
  - by left.
Qed.


Lemma tryGetTemplateVersionSetting_outcomes_witness :
  fst (tryGetTemplateVersionSetting sampleWorld None one (initState None (Some "2.0.0"))) = Ok None /\
  snd (tryGetTemplateVersionSetting sampleWorld None one (initState None (Some "2.0.0")))
  = initState None (Some "2.0.0").
Proof.
  apply (proj1 (proj2 (tryGetTemplateVersionSetting_outcomes sampleWorld None one
                         (initState None (Some "2.0.0"))))).
  reflexivity.
Defined.

(** ** The filters of [getTemplates] *)

(** For a non-Java language, the result under any filter is a subsequence
    of the result under [All], and under [Core] every returned template
    carries the core category. *)
Theorem getTemplates_filter_refines :
  forall (td : TemplateData) (lang rt : string) (f : option string) (l all : list IFunctionTemplate),
    String.eqb lang ProjectLanguage_Java = false ->
    getTemplates td lang rt (Some TemplateFilter_All) = Ok all ->
    getTemplates td lang rt f = Ok l ->
    l `sublist_of` all /\
    (opt_str_eqb f (Some TemplateFilter_Core) = true ->
     Forall (fun t => In TemplateCategory_Core (categories t)) l).
Proof.
  intros td lang rt f l all HJ HA Hl. unfold getTemplates in HA, Hl.
  destruct (_templatesMap td !! rt) as [ts|]; [|discriminate]. rewrite HJ in HA, Hl.
  cbn in HA. injection HA as <-.
  destruct (opt_str_eqb f (Some TemplateFilter_All)) eqn:EA.
  { injection Hl as <-. split; [done|]. intros HC. destruct f as [x|]; [|discriminate].
    cbn in EA, HC. apply String.eqb_eq in EA. subst x. vm_compute in HC. discriminate HC. }
  destruct (opt_str_eqb f (Some TemplateFilter_Core)) eqn:EC; injection Hl as <-;
    (split; [apply List_filter_sublist|]); [|discriminate].
  intros _. apply List.Forall_forall. intros t Ht. apply In_List_filter in Ht.
  unfold str_mem in Ht. apply existsb_exists in Ht as [c [Hc Heq]].
  apply String.eqb_eq in Heq. by subst c.
Qed.

Lemma getTemplates_filter_refines_witness :
  [] `sublist_of` [lowerJsTemplate] /\
  (opt_str_eqb (Some TemplateFilter_Core) (Some TemplateFilter_Core) = true ->
   Forall (fun t => In TemplateCategory_Core (categories t)) []).
Proof.
  apply (getTemplates_filter_refines lowerJsData "JavaScript" "~1" (Some TemplateFilter_Core));
    reflexivity.
Defined.

(* ================================================================== *)
(** * The core tools check *)

Section IOSpec.
Context {H E : Type} (P : E -> Prop).

Lemma io_spec_ret {A} (a : A) (Q : A -> Prop) : Q a -> io_spec P (mret a : IO H E A) Q.
Proof. intros Hq s. exists []. rewrite app_nil_r. done. Qed.

Lemma io_spec_lift {A} (r : jres A) (Q : A -> Prop) :
  (forall a, r = JOk a -> Q a) -> io_spec P (io_lift r : IO H E A) Q.
Proof. intros Hq s. exists []. rewrite app_nil_r. destruct r; cbn; auto. Qed.

Lemma io_spec_throw {A} (e : jsError) (Q : A -> Prop) : io_spec P (io_throw e : IO H E A) Q.
Proof. intros s. exists []. rewrite app_nil_r. done. Qed.

Lemma io_spec_emit (ev : E) : P ev -> io_spec P (emit ev : IO H E unit) (fun _ => True).
Proof. intros Hp s. exists [ev]. cbn. repeat constructor. done. Qed.

Lemma io_spec_next_answer : io_spec P (next_answer : IO H E UiAnswer) (fun _ => True).
Proof. intros s. exists []. rewrite app_nil_r. unfold next_answer. by destruct (io_ui s). Qed.

Lemma io_spec_bind {A B} (m : IO H E A) (f : A -> IO H E B) Q R :
  io_spec P m Q -> (forall a, Q a -> io_spec P (f a) R) -> io_spec P (m ≫= f) R.
Proof.
  intros Hm Hf s. destruct (Hm s) as (n1 & H1 & F1 & Q1).
  unfold mbind, IO_bind. destruct (m s) as [[a|e] s1]; cbn in *.
  - destruct (Hf a Q1 s1) as (n2 & H2 & F2 & Q2). exists (n1 ++ n2).
    rewrite H2, H1, app_assoc. split; [done|]. split; [by apply Forall_app|done].
  - exists n1. done.
Qed.

Lemma io_spec_tryCatch {A} (m : IO H E A) (h : jsError -> IO H E A) Q :
  io_spec P m Q -> (forall e, io_spec P (h e) Q) -> io_spec P (io_tryCatch m h) Q.
Proof.
  intros Hm Hh s. destruct (Hm s) as (n1 & H1 & F1 & Q1).
  unfold io_tryCatch. destruct (m s) as [[a|e] s1]; cbn in *; [by exists n1|].
  destruct (Hh e s1) as (n2 & H2 & F2 & Q2). exists (n1 ++ n2).
  rewrite H2, H1, app_assoc. split; [done|]. split; [by apply Forall_app|done].
Qed.

Lemma io_spec_weaken {A} (m : IO H E A) (Q Q' : A -> Prop) :
  io_spec P m Q -> (forall a, Q a -> Q' a) -> io_spec P m Q'.
Proof.
  intros Hm HQ s. destruct (Hm s) as (n & H1 & F & Q1). exists n.
  repeat split; try done. destruct (fst (m s)); auto.
Qed.

Lemma io_spec_callWithTelemetryAndErrorHandling (m : IO H E unit) Q :
  io_spec P m Q -> io_spec P (io_callWithTelemetryAndErrorHandling m) (fun _ => True).
Proof.
  intros Hm s. destruct (Hm s) as (n & H1 & F & _). exists n.
  unfold io_callWithTelemetryAndErrorHandling. destruct (m s) as [r s1]. done.
Qed.

Lemma io_spec_with_fuel {A} (k : nat -> IO H E A) Q :
  (forall n, io_spec P (k n) Q) -> io_spec P (with_fuel k) Q.
Proof. intros Hk s. apply Hk. Qed.

Lemma io_spec_pick {A} (items : list A) (a : UiAnswer) :
  io_spec P (io_lift (pick_answer items a) : IO H E A) (fun x => In x items).
Proof.
  apply io_spec_lift. intros x. destruct a as [n| |]; cbn; try discriminate.
  destruct (nth_error items n) eqn:E'; [|discriminate].
  intros [= <-]. by eapply nth_error_In.
Qed.

End IOSpec.

Lemma io_spec_log {H E A} P (m : IO H E A) Q h ui ev :
  io_spec P m Q -> In ev (io_log (snd (m (mkIO h [] ui)))) -> P ev.
Proof.
  intros Hm Hin. destruct (Hm (mkIO h [] ui)) as (n & H1 & F & _).
  rewrite H1 in Hin. cbn in Hin. rewrite List.Forall_forall in F. by apply F.
Qed.

Lemma io_spec_lift_eq {H E A} P (r : jres A) :
  io_spec P (io_lift r : IO H E A) (fun a => r = JOk a).
Proof. by apply io_spec_lift. Qed.

Ltac io_step :=
  match goal with
  | |- io_spec _ (mbind _ (io_lift ?r)) _ =>
      eapply (io_spec_bind _ _ _ (fun a => r = JOk a)); [apply io_spec_lift_eq|intros ? ?]
  | |- io_spec _ (mbind _ _) _ =>
      eapply (io_spec_bind _ _ _ (fun _ => True)); [|intros ? _]
  | |- io_spec _ (io_tryCatch _ _) _ => apply io_spec_tryCatch; [|intros ?]
  | |- io_spec _ (io_callWithTelemetryAndErrorHandling _) _ =>
      apply (io_spec_callWithTelemetryAndErrorHandling _ _ (fun _ => True))
  | |- io_spec _ (with_fuel _) _ => apply io_spec_with_fuel; intros ?
  | |- io_spec _ (mret _) _ => apply io_spec_ret
  | |- io_spec _ (io_throw _) _ => apply io_spec_throw
  | |- io_spec _ (io_lift (pick_answer _ _)) _ => apply io_spec_pick
  | |- io_spec _ (io_lift _) _ => apply io_spec_lift
  | |- io_spec _ next_answer _ => apply io_spec_next_answer
  | |- io_spec _ (emit _) _ => apply io_spec_emit
  | |- io_spec _ (match ?x with _ => _ end) _ => destruct x eqn:?
  | |- io_spec _ (if ?x then _ else _) _ => destruct x eqn:?
  | |- io_spec _ (let _ := _ in _) _ => cbv zeta
  end.

Lemma outdatedWarningLoop_spec env (P : CoreToolsEvent -> Prop) fuel msg pm rt :
  P (CT_ShowWarning msg (coreToolsItems pm)) ->
  P (CT_Opn "https://aka.ms/azFuncOutdated") ->
  (forall p, pm = Some p -> P (CT_UpdateFuncCoreTools pm rt)) ->
  P (CT_UpdateGlobalSetting "showCoreToolsWarning" (JBool false)) ->
  io_spec P (outdatedWarningLoop env fuel msg pm rt) (fun _ => True).
Proof.
  intros H1 H2 H3 H4. induction fuel as [|fuel IH]; cbn [outdatedWarningLoop];
    [apply io_spec_throw|].
  eapply (io_spec_bind _ _ _ (fun x => In x (coreToolsItems pm))).
  { unfold ct_showWarningMessage.
    eapply (io_spec_bind _ _ _ (fun _ => True)); [by apply io_spec_emit|intros _ _].
    eapply (io_spec_bind _ _ _ (fun _ => True)); [apply io_spec_next_answer|intros a _].
    apply io_spec_pick. }
  intros result Hin. eapply (io_spec_bind _ _ _ (fun _ => True)).
  { destruct result; unfold ct_opn, ct_updateFuncCoreTools, ct_updateGlobalSetting;
      (eapply (io_spec_bind _ _ _ (fun _ => True));
       [apply io_spec_emit|intros _ _; by apply io_spec_lift]); try done.
    destruct pm as [p|]; [by eapply H3|]. cbn in Hin. intuition discriminate. }
  intros _ _. destruct result; [by apply io_spec_ret|exact IH|by apply io_spec_ret].
Qed.

Lemma getNewest_spec_uri env P pm rt :
  (forall e, P (CT_Telemetry "latestRuntimeError" e)) ->
  P (CT_Request "https://aka.ms/AA1t7go") -> P (CT_Request "https://aka.ms/W2mvv3") ->
  io_spec P (getNewestFunctionRuntimeVersion env pm rt) (fun _ => True).
Proof.
  intros HT HR1 HR2. unfold getNewestFunctionRuntimeVersion, ct_request.
  repeat io_step; auto.
Qed.

(** The result of [getNewestFunctionRuntimeVersion] depends on the
    environment only, not on the log, heap or UI answers. *)
Lemma getNewest_result_indep env pm rt s s' :
  fst (getNewestFunctionRuntimeVersion env pm rt s) =
  fst (getNewestFunctionRuntimeVersion env pm rt s').
Proof.
  destruct s as [h l u], s' as [h' l' u'].
  unfold getNewestFunctionRuntimeVersion, ct_request.
  cbv [mbind IO_bind mret IO_ret io_tryCatch emit io_lift js_get]; cbn.
  repeat case_match; simplify_eq; reflexivity.
Qed.

Lemma io_spec_result_indep {H E A} (P : E -> Prop) (m : IO H E A) Q :
  (forall s s', fst (m s) = fst (m s')) -> io_spec P m Q ->
  io_spec P m (fun a => Q a /\ forall s0, fst (m s0) = JOk a).
Proof.
  intros Hi Hm s. destruct (Hm s) as (n & H1 & F & Q1). exists n.
  split; [done|]. split; [done|].
  destruct (fst (m s)) as [a|e] eqn:Ea; [|done]. split; [done|].
  intros s0. by rewrite (Hi s0 s).
Qed.

(** The binding of [getNewestFunctionRuntimeVersion] in
    [validateFuncCoreToolsIsLatest]: its bound value is its result. *)
Ltac getNewest_bind env :=
  match goal with
  | |- io_spec _ (mbind _ (getNewestFunctionRuntimeVersion _ ?pm ?rt)) _ =>
      eapply (io_spec_bind _ _ _
        (fun v => True /\ forall s0,
           fst (getNewestFunctionRuntimeVersion env pm rt s0) = JOk v));
      [apply io_spec_result_indep; [apply getNewest_result_indep|];
       apply getNewest_spec_uri; cbn; auto|intros ? [_ ?]]
  end.

(** ** When the outdated warning is shown *)

(** The outdated warning of [validateFuncCoreToolsIsLatest] is shown only
    when the [showCoreToolsWarning] setting is truthy, a non-empty local
    version was found and maps to a runtime, the newest version (the result
    of [getNewestFunctionRuntimeVersion] for the detected package manager and
    that runtime) is truthy and semver-greater than the local one; its items are those of the detected
    package manager and the v2 note is added exactly for runtime [beta]. *)
Theorem validateFuncCoreToolsIsLatest_warning_gate :
  forall (env : CoreToolsEnv) (ui : list UiAnswer) (msg : OutdatedMessage) items,
    In (CT_ShowWarning msg items)
       (io_log (snd (validateFuncCoreToolsIsLatest env (mkIO tt [] ui)))) ->
    js_truthy (ce_getFuncExtensionSetting env "showCoreToolsWarning") = true /\
    ce_getLocalFuncCoreToolsVersion env = JOk (Some (om_localVersion msg)) /\
    om_localVersion msg <> "" /\
    (exists rt pm, ce_getProjectRuntimeFromVersion env (om_localVersion msg) = Some rt /\
       ce_getFuncPackageManager env = JOk pm /\ items = coreToolsItems pm /\
       om_v2BreakingChanges msg = match rt with beta => true | one => false end /\
       forall s, fst (getNewestFunctionRuntimeVersion env pm rt s) =
                 JOk (Some (om_newestVersion msg))) /\
    js_truthy (Some (om_newestVersion msg)) = true /\
    ce_semverGt env (om_newestVersion msg) (om_localVersion msg) = JOk true.
Proof.
  intros env ui msg items Hin.
  change (warning_gate env (CT_ShowWarning msg items)).
  eapply io_spec_log; [|exact Hin].
  unfold validateFuncCoreToolsIsLatest.
  repeat (getNewest_bind env || io_step); try done.
  all: apply outdatedWarningLoop_spec; try done.
  all: cbn; subst; repeat split; try done.
  - by apply String.eqb_neq.
  - eexists _, _. repeat split; eassumption.
  - by apply negb_false_iff.
Qed.

Lemma validateFuncCoreToolsIsLatest_warning_gate_witness :
  In (CT_ShowWarning sampleOutdatedMessage (coreToolsItems (Some brew)))
     (io_log (snd (validateFuncCoreToolsIsLatest sampleCoreToolsEnv (mkIO tt [] [Pick 2])))) /\
  ce_semverGt sampleCoreToolsEnv (JStr "2.0.3") "2.0.1" = JOk true.
Proof.
  assert (Hin : In (CT_ShowWarning sampleOutdatedMessage (coreToolsItems (Some brew)))
     (io_log (snd (validateFuncCoreToolsIsLatest sampleCoreToolsEnv (mkIO tt [] [Pick 2]))))).
  { vm_compute. right. right. left. reflexivity. }
  split; [exact Hin|].
  exact (proj2 (proj2 (proj2 (proj2 (proj2
    (validateFuncCoreToolsIsLatest_warning_gate _ _ _ _ Hin)))))).
Defined.

(** ** What the check does to the outside world *)

(** [validateFuncCoreToolsIsLatest] requests only the brew or the npm
    registry, opens only the outdated-tools link, updates the core tools only
    with the detected package manager (never [undefined]) for the runtime of
    the non-empty local version after semver reported the newest version
    fetched for that runtime (a truthy one) greater than it, and writes only
    [showCoreToolsWarning := false]. *)
Theorem validateFuncCoreToolsIsLatest_effects :
  forall (env : CoreToolsEnv) (ui : list UiAnswer),
    let log := io_log (snd (validateFuncCoreToolsIsLatest env (mkIO tt [] ui))) in
    (forall uri, In (CT_Request uri) log ->
       uri = "https://aka.ms/AA1t7go" \/ uri = "https://aka.ms/W2mvv3") /\
    (forall url, In (CT_Opn url) log -> url = "https://aka.ms/azFuncOutdated") /\
    (forall pm rt, In (CT_UpdateFuncCoreTools pm rt) log ->
       exists p lv nv, pm = Some p /\ ce_getFuncPackageManager env = JOk (Some p) /\
         ce_getLocalFuncCoreToolsVersion env = JOk (Some lv) /\ lv <> "" /\
         ce_getProjectRuntimeFromVersion env lv = Some rt /\
         (forall s, fst (getNewestFunctionRuntimeVersion env (Some p) rt s) = JOk (Some nv)) /\
         js_truthy (Some nv) = true /\
         ce_semverGt env nv lv = JOk true) /\
    (forall key v, In (CT_UpdateGlobalSetting key v) log ->
       key = "showCoreToolsWarning" /\ v = JBool false).
Proof.
  intros env ui log.
  assert (Hg : forall ev, In ev log -> effect_gate env ev).
  { intros ev Hin. eapply io_spec_log; [|exact Hin].
    unfold validateFuncCoreToolsIsLatest.
    repeat (getNewest_bind env || io_step); try done.
    all: apply outdatedWarningLoop_spec; try done.
    all: intros ? ->; cbn. all: do 3 eexists; split; [reflexivity|].
    all: repeat split; try eassumption.
    all: try by apply String.eqb_neq.
    all: try by apply negb_false_iff. }
  split; [|split; [|split]].
  - intros ? Hin. exact (Hg _ Hin).
  - intros ? Hin. exact (Hg _ Hin).
  - intros ? ? Hin. exact (Hg _ Hin).
  - intros ? ? Hin. exact (Hg _ Hin).
Qed.

Lemma outdatedWarningLoop_learnMore_step env n msg pm rt i h log ui :
  nth_error (coreToolsItems pm) i = Some CT_LearnMore ->
  ce_opn env "https://aka.ms/azFuncOutdated" = JOk tt ->
  outdatedWarningLoop env (S n) msg pm rt (mkIO h log (Pick i :: ui)) =
  outdatedWarningLoop env n msg pm rt
    (mkIO h (app log [CT_ShowWarning msg (coreToolsItems pm);
                      CT_Opn "https://aka.ms/azFuncOutdated"]) ui).
Proof.
  intros Hi Ho. cbn [outdatedWarningLoop].
  cbv [mbind IO_bind mret IO_ret ct_showWarningMessage ct_opn emit next_answer io_lift
       pick_answer].
  cbn.
  rewrite Hi, Ho. cbn. rewrite <- app_assoc. reflexivity.
Qed.

Lemma outdatedWarningLoop_learnMore_repeat env k n msg pm rt i h log ui :
  k < n ->
  nth_error (coreToolsItems pm) i = Some CT_LearnMore ->
  ce_opn env "https://aka.ms/azFuncOutdated" = JOk tt ->
  outdatedWarningLoop env n msg pm rt (mkIO h log (app (repeat (Pick i) k) ui)) =
  outdatedWarningLoop env (n - k) msg pm rt
    (mkIO h (app log (concat (repeat [CT_ShowWarning msg (coreToolsItems pm);
                                      CT_Opn "https://aka.ms/azFuncOutdated"] k))) ui).
Proof.
  intros Hk Hi Ho. revert n log Hk. induction k as [|k IH]; intros n log Hk.
  - cbn. rewrite app_nil_r, Nat.sub_0_r. reflexivity.
  - destruct n as [|n]; [lia|].
    cbn [repeat app]. rewrite outdatedWarningLoop_learnMore_step by done.
    rewrite IH by lia. cbn [repeat concat]. rewrite app_assoc. reflexivity.
Qed.

(** ** The warning loop *)

(** With [k] answers [Learn more] followed by [Don't warn again], the
    warning loop (with more fuel than [k]) shows the warning [k+1] times,
    opens the link after each of the first [k], then writes the setting and
    returns its outcome; with a dismissal instead it throws
    [UserCancelledError] after the last warning. *)
Theorem outdatedWarningLoop_learnMore_trace :
  forall env msg pm rt i j k n rest h log,
    k < n ->
    nth_error (coreToolsItems pm) i = Some CT_LearnMore ->
    nth_error (coreToolsItems pm) j = Some CT_DontWarnAgain ->
    ce_opn env "https://aka.ms/azFuncOutdated" = JOk tt ->
    let warn := CT_ShowWarning msg (coreToolsItems pm) in
    let visits := concat (repeat [warn; CT_Opn "https://aka.ms/azFuncOutdated"] k) in
    outdatedWarningLoop env n msg pm rt
      (mkIO h log (app (repeat (Pick i) k) (Pick j :: rest))) =
    (ce_updateGlobalSetting env "showCoreToolsWarning" (JBool false),
     mkIO h (app log (app visits
               [warn; CT_UpdateGlobalSetting "showCoreToolsWarning" (JBool false)])) rest) /\
    outdatedWarningLoop env n msg pm rt
      (mkIO h log (app (repeat (Pick i) k) (Dismiss :: rest))) =
    (JErr UserCancelledError, mkIO h (app log (app visits [warn])) rest).
Proof.
  intros env msg pm rt i j k n rest h log Hn Hi Hj Ho warn visits.
  split; rewrite outdatedWarningLoop_learnMore_repeat by (auto; lia);
    replace (n - k) with (S (n - S k)) by lia; cbn [outdatedWarningLoop];
    cbv [mbind IO_bind mret IO_ret ct_showWarningMessage ct_updateGlobalSetting emit
      next_answer io_lift pick_answer]; cbn.
  - rewrite Hj. cbn.
    destruct (ce_updateGlobalSetting env "showCoreToolsWarning" (JBool false)) as [[]|e];
      cbn; rewrite <- !app_assoc; reflexivity.
  - rewrite <- app_assoc. reflexivity.
Qed.

Lemma outdatedWarningLoop_learnMore_trace_witness :
  outdatedWarningLoop sampleCoreToolsEnv 3 sampleOutdatedMessage (Some brew) beta
    (mkIO tt [] [Pick 1; Pick 1; Pick 2]) =
  (JOk tt, mkIO tt
     [CT_ShowWarning sampleOutdatedMessage (coreToolsItems (Some brew));
      CT_Opn "https://aka.ms/azFuncOutdated";
      CT_ShowWarning sampleOutdatedMessage (coreToolsItems (Some brew));
      CT_Opn "https://aka.ms/azFuncOutdated";
      CT_ShowWarning sampleOutdatedMessage (coreToolsItems (Some brew));
      CT_UpdateGlobalSetting "showCoreToolsWarning" (JBool false)] []).
Proof.
  exact (proj1 (outdatedWarningLoop_learnMore_trace sampleCoreToolsEnv sampleOutdatedMessage
    (Some brew) beta 1 2 2 3 [] tt [] ltac:(lia) eq_refl eq_refl eq_refl)).
Defined.

(** ** The newest version *)

Lemma getNewest_outcomes_base :
  forall env pm rt (s : io_state unit CoreToolsEvent),
    exists v new,
      getNewestFunctionRuntimeVersion env pm rt s =
        (JOk v, mkIO (io_heap s) (app (io_log s) new) (io_ui s)) /\
      hd_error new = Some (CT_Request (match pm with
                                       | Some brew => "https://aka.ms/AA1t7go"
                                       | _ => "https://aka.ms/W2mvv3"
                                       end)) /\
      (forall e, In (CT_Telemetry "latestRuntimeError" e) new -> v = None) /\
      (forall x, v = Some x ->
         match pm with
         | Some brew => exists info m, ce_request env "https://aka.ms/AA1t7go" = JOk info /\
                          brewVersionMatch info = Some m /\ x = JStr m
         | _ => exists text fields, ce_request env "https://aka.ms/W2mvv3" = JOk text /\
                  ce_jsonParse env text = JOk (JObj fields) /\
                  assoc_last (match rt with one => "latest" | beta => "core" end) fields = Some x
         end).
Proof.
  intros env pm rt [h l u].
  unfold getNewestFunctionRuntimeVersion, ct_request.
  cbv [mbind IO_bind mret IO_ret io_tryCatch emit io_lift js_get]; cbn.
  repeat case_match; simplify_eq; cbn; rewrite <- ?app_assoc;
    (eexists _, _; split; [reflexivity|]); cbn;
    (split; [reflexivity|]);
    (split; [intros ? Hin; repeat destruct Hin as [Hin|Hin]; done|]);
    intros ? ?; simplify_eq; eauto 10.
Qed.

Lemma getNewest_failure env pm rt (s : io_state unit CoreToolsEvent) e :
  let uri := match pm with Some brew => "https://aka.ms/AA1t7go" | _ => "https://aka.ms/W2mvv3" end in
  let key := match rt with one => "latest" | beta => "core" end in
  (ce_request env uri = JErr e \/
   (pm <> Some brew /\ exists text, ce_request env uri = JOk text /\
      (ce_jsonParse env text = JErr e \/
       exists d, ce_jsonParse env text = JOk d /\ js_get d key = JErr e))) ->
  getNewestFunctionRuntimeVersion env pm rt s =
    (JOk None, mkIO (io_heap s) (app (io_log s)
       [CT_Request uri; CT_Telemetry "latestRuntimeError" (parseError_message e)]) (io_ui s)).
Proof.
  intros uri key Hf. subst uri key. destruct s as [h l u].
  unfold getNewestFunctionRuntimeVersion, ct_request.
  destruct Hf as [Hf|[Hpm [t [Ht [Hf|[d [Hd Hf]]]]]]].
  - destruct pm as [[]|]; cbn in Hf |- *; rewrite Hf;
      cbv [mbind IO_bind mret IO_ret io_tryCatch emit io_lift js_get]; cbn;
      rewrite <- ?app_assoc; reflexivity.
  - destruct pm as [[]|]; [|done|]; cbn in Ht, Hf |- *; rewrite Ht;
      cbv [mbind IO_bind mret IO_ret io_tryCatch emit io_lift js_get]; cbn; rewrite Hf; cbn;
      rewrite <- ?app_assoc; reflexivity.
  - destruct pm as [[]|]; [|done|]; cbn in Ht, Hd |- *; rewrite Ht;
      cbv [mbind IO_bind mret IO_ret io_tryCatch emit io_lift js_get]; cbn; rewrite Hd; cbn;
      destruct rt, d; cbn in Hf; try discriminate; injection Hf as <-; cbn;
      rewrite <- ?app_assoc; reflexivity.
Qed.

(** [getNewestFunctionRuntimeVersion] never throws and never touches the UI:
    it first requests the registry of the package manager; every failure (of
    the request, of [JSON.parse] or of reading the dist-tag) is recorded as
    [latestRuntimeError] telemetry with the error message and gives
    [undefined]; a version it returns is, for brew, the capture of the
    version regex on the response and, otherwise, the [latest] (runtime
    [one]) or [core] (runtime [beta]) entry of the parsed JSON object. *)
Theorem getNewestFunctionRuntimeVersion_outcomes :
  forall env pm rt (s : io_state unit CoreToolsEvent),
    let uri := match pm with Some brew => "https://aka.ms/AA1t7go" | _ => "https://aka.ms/W2mvv3" end in
    let key := match rt with one => "latest" | beta => "core" end in
    exists v new,
      getNewestFunctionRuntimeVersion env pm rt s =
        (JOk v, mkIO (io_heap s) (app (io_log s) new) (io_ui s)) /\
      hd_error new = Some (CT_Request uri) /\
      (forall e, In (CT_Telemetry "latestRuntimeError" e) new -> v = None) /\
      (forall e,
         (ce_request env uri = JErr e \/
          (pm <> Some brew /\ exists text, ce_request env uri = JOk text /\
             (ce_jsonParse env text = JErr e \/
              exists d, ce_jsonParse env text = JOk d /\ js_get d key = JErr e))) ->
         v = None /\ new = [CT_Request uri; CT_Telemetry "latestRuntimeError" (parseError_message e)]) /\
      (forall x, v = Some x ->
         match pm with
         | Some brew => exists info m, ce_request env "https://aka.ms/AA1t7go" = JOk info /\
                          brewVersionMatch info = Some m /\ x = JStr m
         | _ => exists text fields, ce_request env "https://aka.ms/W2mvv3" = JOk text /\
                  ce_jsonParse env text = JOk (JObj fields) /\
                  assoc_last key fields = Some x
         end).
Proof.
  intros env pm rt s uri key.
  destruct (getNewest_outcomes_base env pm rt s) as (v & new & Heq & Hhd & Htel & Hok).
  exists v, new. split; [exact Heq|]. split; [exact Hhd|]. split; [exact Htel|].
  split; [|exact Hok].
  intros e Hf. pose proof (getNewest_failure env pm rt s e Hf) as Hf'.
  rewrite Heq in Hf'. injection Hf' as -> Hl. split; [done|].
  by apply app_inv_head in Hl.
Qed.

(** ** The brew version regex *)

Lemma prefix_ci_sound lit s r :
  prefix_ci lit s = Some r -> exists w, s = String.append w r /\ toLowerCase w = lit.
Proof.
  revert s. induction lit as [|c lit IH]; intros [|d s]; cbn; intros H.
  - injection H as <-. exists EmptyString. done.
  - injection H as <-. exists EmptyString. done.
  - discriminate.
  - destruct (Ascii.eqb (lower_ascii d) c) eqn:E; [|discriminate].
    apply IH in H as [w [-> <-]]. apply Ascii.eqb_eq in E.
    exists (String d w). cbn. rewrite E. done.
Qed.

Lemma prefix_ci_complete w r : prefix_ci (toLowerCase w) (String.append w r) = Some r.
Proof.
  induction w as [|d w IH]; cbn; [destruct r; done|].
  change (String.append (String d w) r) with (String d (String.append w r)).
  cbv iota beta. rewrite Ascii.eqb_refl. exact IH.
Qed.

Lemma span_sound p s a b :
  span p s = (a, b) -> s = String.append a b /\ str_forallb p a = true /\ stops_at p b.
Proof.
  revert a b. induction s as [|c s IH]; intros a b; cbn.
  - intros [= <- <-]. done.
  - destruct (p c) eqn:E.
    + destruct (span p s) as [a' b'] eqn:Es. intros [= <- <-].
      destruct (IH a' b' eq_refl) as (-> & Ha & Hb). cbn. rewrite E. done.
    + intros [= <- <-]. cbn. done.
Qed.

Lemma span_complete p a b :
  str_forallb p a = true -> stops_at p b -> span p (String.append a b) = (a, b).
Proof.
  induction a as [|c a IH]; cbn.
  - destruct b as [|c b]; [done|]. intros _ Hb. cbn in Hb.
    change (String.append EmptyString (String c b)) with (String c b).
    cbv iota beta delta [span]. rewrite Hb. done.
  - intros [Hc Ha]%andb_true_iff Hb.
    change (String.append (String c a) b) with (String c (String.append a b)).
    cbv iota beta delta [span]. fold span. rewrite Hc, IH by done. done.
Qed.

Lemma brewMatchAt_sound s v :
  brewMatchAt s = Some v ->
  v <> EmptyString /\ str_forallb (fun c => negb (is_quote c)) v = true /\
  exists w sp q1 q2 post,
    s = String.append w (String.append sp (String q1 (String.append v (String q2 post)))) /\
    toLowerCase w = "version" /\ sp <> EmptyString /\ str_forallb is_js_space sp = true /\
    is_quote q1 = true /\ is_quote q2 = true.
Proof.
  unfold brewMatchAt.
  destruct (prefix_ci "version" s) as [rest1|] eqn:E1; [|discriminate].
  apply prefix_ci_sound in E1 as (w & -> & Hw).
  destruct (span is_js_space rest1) as [sp rest2] eqn:E2.
  apply span_sound in E2 as (-> & Hsp & _).
  destruct (String.eqb sp "") eqn:E3; [discriminate|].
  apply String.eqb_neq in E3.
  destruct rest2 as [|q rest3]; [discriminate|].
  destruct (is_quote q) eqn:Eq; [|discriminate].
  destruct (span (fun c => negb (is_quote c)) rest3) as [v' rest4] eqn:E4.
  apply span_sound in E4 as (-> & Hv & _).
  destruct (String.eqb v' "") eqn:E5; [discriminate|].
  apply String.eqb_neq in E5.
  destruct rest4 as [|q' post]; [discriminate|].
  destruct (is_quote q') eqn:Eq'; [|discriminate].
  intros [= <-]. split; [done|split; [done|]].
  exists w, sp, q, q', post. done.
Qed.

Lemma quote_not_space q : is_quote q = true -> is_js_space q = false.
Proof.
  unfold is_quote, is_js_space. intros H.
  apply orb_true_iff in H as [H|H]; apply Nat.eqb_eq in H; rewrite H; done.
Qed.

(** A match of the brew regex is a non-empty, quote-free text that the
    response contains right after a case-insensitive [version], at least one
    white-space character and a quote, and right before a quote. *)
Theorem brewVersionMatch_sound :
  forall s v,
    brewVersionMatch s = Some v ->
    v <> EmptyString /\ str_forallb (fun c => negb (is_quote c)) v = true /\
    exists pre w sp q1 q2 post,
      s = String.append pre
            (String.append w (String.append sp (String q1 (String.append v (String q2 post))))) /\
      toLowerCase w = "version" /\ sp <> EmptyString /\ str_forallb is_js_space sp = true /\
      is_quote q1 = true /\ is_quote q2 = true.
Proof.
  induction s as [|c s IH]; intros v; cbn [brewVersionMatch].
  - destruct (brewMatchAt "") as [v'|] eqn:E; [|discriminate].
    intros [= <-]. apply brewMatchAt_sound in E as (Hv & Hq & w & sp & q1 & q2 & post & Hs & R).
    split; [done|split; [done|]]. exists EmptyString, w, sp, q1, q2, post. done.
  - destruct (brewMatchAt (String c s)) as [v'|] eqn:E.
    + intros [= <-]. apply brewMatchAt_sound in E as (Hv & Hq & w & sp & q1 & q2 & post & Hs & R).
      split; [done|split; [done|]]. exists EmptyString, w, sp, q1, q2, post. done.
    + intros H. apply IH in H as (Hv & Hq & pre & w & sp & q1 & q2 & post & -> & R).
      split; [done|split; [done|]]. exists (String c pre), w, sp, q1, q2, post. done.
Qed.

Lemma brewVersionMatch_sound_witness :
  brewVersionMatch "class AzureFunctionsCoreTools < Formula  Version '2.0.3'  url 'x'"
    = Some "2.0.3" /\
  "2.0.3" <> EmptyString.
Proof.
  assert (H : brewVersionMatch "class AzureFunctionsCoreTools < Formula  Version '2.0.3'  url 'x'"
    = Some "2.0.3") by (vm_compute; reflexivity).
  split; [exact H|].
  exact (proj1 (brewVersionMatch_sound _ _ H)).
Defined.

(** Conversely, a text that starts with such a match yields that match's
    version. *)
Theorem brewVersionMatch_complete :
  forall w sp q1 v q2 post,
    toLowerCase w = "version" -> sp <> EmptyString -> str_forallb is_js_space sp = true ->
    is_quote q1 = true -> v <> EmptyString ->
    str_forallb (fun c => negb (is_quote c)) v = true -> is_quote q2 = true ->
    brewVersionMatch
      (String.append w (String.append sp (String q1 (String.append v (String q2 post))))) =
    Some v.
Proof.
  intros w sp q1 v q2 post Hw Hsp Hs Hq1 Hv Hnq Hq2.
  assert (Hm : brewMatchAt
      (String.append w (String.append sp (String q1 (String.append v (String q2 post)))))
      = Some v).
  { unfold brewMatchAt. rewrite <- Hw, prefix_ci_complete.
    rewrite span_complete by (cbn; rewrite ?quote_not_space; done).
    apply String.eqb_neq in Hsp. rewrite Hsp, Hq1.
    rewrite span_complete by (cbn; rewrite ?Hq2; done).
    apply String.eqb_neq in Hv. rewrite Hv, Hq2. done. }
  revert Hm. generalize (String.append w (String.append sp (String q1 (String.append v (String q2 post))))).
  intros [|c s] Hm; cbn [brewVersionMatch]; rewrite Hm; done.
Qed.

Lemma brewVersionMatch_complete_witness :
  brewVersionMatch (String.append "VERSION" (String.append " " (String "'"%char
    (String.append "4.0.1" (String "'"%char " revision 2"))))) = Some "4.0.1".
Proof.
  apply brewVersionMatch_complete; [vm_compute; reflexivity|discriminate|vm_compute; reflexivity
    |vm_compute; reflexivity|discriminate|vm_compute; reflexivity|vm_compute; reflexivity].
Defined.

(* ================================================================== *)
(** * Installing the core tools *)

Lemma runtimeVersionLoop_spec env (P : InstallEvent -> Prop) fuel :
  P (IC_ShowWarning windowsVersionMessage [installV1; installV2; learnMoreTitle]) ->
  P (IC_Opn installLearnMoreLink) ->
  io_spec P (runtimeVersionLoop env fuel)
    (fun v => v = installV1 \/ v = installV2).
Proof.
  intros H1 H2. induction fuel as [|fuel IH]; cbn [runtimeVersionLoop]; [apply io_spec_throw|].
  eapply (io_spec_bind _ _ _ (fun x => In x [installV1; installV2; learnMoreTitle])).
  { unfold ic_showWarningMessage. repeat io_step; done. }
  intros v Hv.
  eapply (io_spec_bind _ _ _ (fun _ => True)).
  { unfold ic_opn. repeat io_step; done. }
  intros _ _. destruct (String.eqb v learnMoreTitle) eqn:E; [exact IH|].
  apply io_spec_ret. apply String.eqb_neq in E.
  destruct Hv as [<-|[<-|[<-|[]]]]; auto. done.
Qed.

(** [installFuncCoreTools] prompts and opens the learn-more link only on
    Windows, and only runs the package manager's install commands: for npm the
    plain (v1) install only on Windows, or the [@core] install; for brew the
    tap and the install. Off Windows it consumes no user answer. *)
Theorem installFuncCoreTools_effects :
  forall env pm rv (ui : list UiAnswer),
    let '(r, s) := installFuncCoreTools env pm rv (mkIO tt [] ui) in
    Forall (install_gate env pm) (io_log s) /\
    (ie_isWindows env = false -> io_ui s = ui).
Proof.
  intros env pm rv ui.
  assert (Hs : io_spec (install_gate env pm) (installFuncCoreTools env pm rv) (fun _ => True)).
  { unfold installFuncCoreTools, ic_executeCommand.
    eapply (io_spec_bind _ _ _ (fun v => ie_isWindows env = false -> v = installV2)).
    - repeat io_step; try done.
      all: apply negb_false_iff in Heqb.
      all: try (intros Hw; congruence).
      all: eapply io_spec_weaken; [apply runtimeVersionLoop_spec; done|].
      all: intros ? _ Hw; congruence.
    - intros v Hv. repeat io_step; try done.
      all: cbn; split; [done|]; auto.
      left. split; [|done]. destruct (ie_isWindows env); [done|].
      rewrite Hv in Heqb by done. discriminate. }
  destruct (Hs (mkIO tt [] ui)) as (new & Hl & Hf & _).
  destruct (installFuncCoreTools env pm rv (mkIO tt [] ui)) as [r s] eqn:E.
  cbn in Hl. rewrite Hl. split; [done|].
  intros Hw. unfold installFuncCoreTools in E. rewrite Hw in E. cbn in E.
  destruct pm; cbv [mbind IO_bind mret IO_ret ic_executeCommand emit io_lift io_throw] in E;
    repeat case_match; simplify_eq; done.
Qed.

(** With npm on Windows, a non-empty runtime version other than the two
    offered ones makes [installFuncCoreTools] throw a [RangeError] naming it,
    after showing the output channel and before running any command. *)
Theorem installFuncCoreTools_invalid_runtime :
  forall env v (s : io_state unit InstallEvent),
    ie_isWindows env = true -> v <> "" -> v <> installV1 -> v <> installV2 ->
    installFuncCoreTools env npm (Some v) s =
    (JErr (JsError "RangeError"
             (String.append "Invalid runtime "
                (String.append dquote (String.append v (String.append dquote "."))))),
     mkIO (io_heap s) (io_log s ++ [IC_ShowOutput]) (io_ui s)).
Proof.
  intros env v [h l u] Hw Hv H1 H2.
  unfold installFuncCoreTools. rewrite Hw.
  apply String.eqb_neq in Hv, H1, H2.
  cbv [mbind IO_bind mret IO_ret emit io_throw negb]. rewrite Hv. cbn.
  rewrite H1, H2. done.
Qed.

Lemma installFuncCoreTools_invalid_runtime_witness :
  installFuncCoreTools windowsInstallEnv npm (Some "v3") (mkIO tt [] []) =
  (JErr (JsError "RangeError"
           (String.append "Invalid runtime "
              (String.append dquote (String.append "v3" (String.append dquote "."))))),
   mkIO tt [IC_ShowOutput] []).
Proof.
  exact (installFuncCoreTools_invalid_runtime windowsInstallEnv "v3" (mkIO tt [] [])
    eq_refl ltac:(discriminate) ltac:(discriminate) ltac:(discriminate)).
Defined.

(** Off Windows, [installFuncCoreTools] ignores the requested runtime version:
    npm runs the [@core] (v2) install and returns its outcome; brew runs the
    tap and, only when it succeeded, the install. *)
Theorem installFuncCoreTools_not_windows :
  forall env pm rv (s : io_state unit InstallEvent),
    ie_isWindows env = false ->
    installFuncCoreTools env pm rv s =
    match pm with
    | npm =>
        let args := ["install"; "-g"; String.append funcPackageName "@core";
                     "--unsafe-perm"; "true"] in
        (ie_executeCommand env "npm" args,
         mkIO (io_heap s) (io_log s ++ [IC_ShowOutput; IC_ExecuteCommand "npm" args]) (io_ui s))
    | brew =>
        let tap := IC_ExecuteCommand "brew" ["tap"; "azure/functions"] in
        match ie_executeCommand env "brew" ["tap"; "azure/functions"] with
        | JErr e => (JErr e, mkIO (io_heap s) (io_log s ++ [IC_ShowOutput; tap]) (io_ui s))
        | JOk _ =>
            (ie_executeCommand env "brew" ["install"; funcPackageName],
             mkIO (io_heap s) (io_log s ++ [IC_ShowOutput; tap;
                      IC_ExecuteCommand "brew" ["install"; funcPackageName]]) (io_ui s))
        end
    end.
Proof.
  intros env pm rv [h l u] Hw.
  unfold installFuncCoreTools, ic_executeCommand. rewrite Hw.
  cbv [mbind IO_bind mret IO_ret emit io_lift negb]. cbn.
  destruct pm; cbn.
  - destruct (ie_executeCommand env "npm" _) as [[]|]; rewrite <- !app_assoc; done.
  - destruct (ie_executeCommand env "brew" ["tap"; "azure/functions"]) as [[]|]; cbn;
      [destruct (ie_executeCommand env "brew" ["install"; funcPackageName]) as [[]|]|];
      rewrite <- !app_assoc; done.
Qed.

Lemma installFuncCoreTools_not_windows_witness :
  installFuncCoreTools macInstallEnv brew (Some installV1) (mkIO tt [] []) =
  (JErr (JsError "Error" "Failed to tap azure/functions"),
   mkIO tt [IC_ShowOutput; IC_ExecuteCommand "brew" ["tap"; "azure/functions"]] []).
Proof.
  exact (installFuncCoreTools_not_windows macInstallEnv brew (Some installV1) (mkIO tt [] [])
    eq_refl).
Defined.

Lemma runtimeVersionLoop_learnMore_step env n h log ui :
  ie_opn env installLearnMoreLink = JOk tt ->
  runtimeVersionLoop env (S n) (mkIO h log (Pick 2 :: ui)) =
  runtimeVersionLoop env n
    (mkIO h (log ++ [IC_ShowWarning windowsVersionMessage [installV1; installV2; learnMoreTitle];
                     IC_Opn installLearnMoreLink]) ui).
Proof.
  intros Ho. cbn [runtimeVersionLoop].
  cbv [mbind IO_bind mret IO_ret ic_showWarningMessage ic_opn emit next_answer io_lift
       pick_answer].
  cbn. rewrite Ho. cbn. rewrite <- app_assoc. done.
Qed.

Lemma runtimeVersionLoop_learnMore_repeat env k n h log ui :
  k < n ->
  ie_opn env installLearnMoreLink = JOk tt ->
  runtimeVersionLoop env n (mkIO h log (repeat (Pick 2) k ++ ui)) =
  runtimeVersionLoop env (n - k)
    (mkIO h (log ++ concat (repeat
       [IC_ShowWarning windowsVersionMessage [installV1; installV2; learnMoreTitle];
        IC_Opn installLearnMoreLink] k)) ui).
Proof.
  intros Hk Ho. revert n log Hk. induction k as [|k IH]; intros n log Hk.
  - cbn. rewrite app_nil_r, Nat.sub_0_r. done.
  - destruct n as [|n]; [lia|].
    cbn [repeat app]. rewrite runtimeVersionLoop_learnMore_step by done.
    rewrite IH by lia. cbn [repeat concat]. rewrite app_assoc. done.
Qed.

(** The Windows version prompt repeats while the user picks [Learn more],
    opening the link each time; picking one of the two versions returns its
    title, and a dismissal throws [UserCancelledError]. *)
Theorem runtimeVersionLoop_trace :
  forall env k n j v rest h log,
    k < n ->
    nth_error [installV1; installV2; learnMoreTitle] j = Some v -> v <> learnMoreTitle ->
    ie_opn env installLearnMoreLink = JOk tt ->
    let warn := IC_ShowWarning windowsVersionMessage [installV1; installV2; learnMoreTitle] in
    let visits := concat (repeat [warn; IC_Opn installLearnMoreLink] k) in
    runtimeVersionLoop env n (mkIO h log (repeat (Pick 2) k ++ Pick j :: rest)) =
      (JOk v, mkIO h (log ++ visits ++ [warn]) rest) /\
    runtimeVersionLoop env n (mkIO h log (repeat (Pick 2) k ++ Dismiss :: rest)) =
      (JErr UserCancelledError, mkIO h (log ++ visits ++ [warn]) rest).
Proof.
  intros env k n j v rest h log Hk Hj Hv Ho warn visits.
  split; rewrite runtimeVersionLoop_learnMore_repeat by done;
    replace (n - k) with (S (n - S k)) by lia; cbn [runtimeVersionLoop];
    cbv [mbind IO_bind mret IO_ret ic_showWarningMessage emit next_answer io_lift
         pick_answer]; cbn.
  - rewrite Hj. apply String.eqb_neq in Hv. cbn.
    destruct (String.eqb v learnMoreTitle); [discriminate|]. cbn. rewrite <- app_assoc. done.
  - rewrite <- app_assoc. done.
Qed.

Lemma runtimeVersionLoop_trace_witness :
  runtimeVersionLoop windowsInstallEnv 3 (mkIO tt [] [Pick 2; Pick 1; Pick 0]) =
  (JOk installV2,
   mkIO tt [IC_ShowWarning windowsVersionMessage [installV1; installV2; learnMoreTitle];
            IC_Opn installLearnMoreLink;
            IC_ShowWarning windowsVersionMessage [installV1; installV2; learnMoreTitle]]
        [Pick 0]).
Proof.
  exact (proj1 (runtimeVersionLoop_trace windowsInstallEnv 1 3 1 installV2 [Pick 0] tt []
    ltac:(lia) eq_refl ltac:(discriminate) eq_refl)).
Defined.

(* ================================================================== *)
(** * Creating a function *)

Lemma fold_lower_app (kvs : list (string * option string)) kv (m : gmap string (option string)) :
  fold_left (fun m kv => <[toLowerCase (fst kv) := snd kv]> m) (kvs ++ [kv]) m =
  <[toLowerCase (fst kv) := snd kv]> (fold_left (fun m kv => <[toLowerCase (fst kv) := snd kv]> m) kvs m).
Proof. by rewrite fold_left_app. Qed.

(** ** The caller's settings *)

(** A key of the lower-cased [functionSettings] holds the value of the last
    caller key that lower-cases to it. *)
Theorem createFunction_functionSettings_lookup :
  forall kvs k v,
    createFunction_functionSettings (Some kvs) !! k = Some v <->
    exists pre k0 post, kvs = pre ++ (k0, v) :: post /\ toLowerCase k0 = k /\
      Forall (fun kv => toLowerCase (fst kv) <> k) post.
Proof.
  intros kvs k v. cbn. induction kvs as [|[k1 v1] kvs IH] using rev_ind.
  - cbn. rewrite lookup_empty. split; [discriminate|].
    intros (pre & k0 & post & Heq & _). by destruct pre.
  - rewrite fold_lower_app. cbn [fst snd].
    destruct (decide (toLowerCase k1 = k)) as [Hk|Hk].
    + subst k. rewrite lookup_insert_eq. split.
      * intros [= ->]. exists kvs, k1, []. done.
      * intros (pre & k0 & post & Heq & Hk0 & Hpost).
        destruct post as [|p post] using rev_ind.
        -- apply app_inj_tail in Heq as [_ [= _ ->]]. done.
        -- rewrite app_comm_cons, app_assoc in Heq. apply app_inj_tail in Heq as [_ <-].
           apply Forall_app in Hpost as [_ Hp]. inversion Hp; subst. done.
    + rewrite lookup_insert_ne by done. rewrite IH. split.
      * intros (pre & k0 & post & -> & Hk0 & Hpost).
        exists pre, k0, (post ++ [(k1, v1)]). split; [by rewrite <- app_assoc|].
        split; [done|]. apply Forall_app. split; [done|]. by constructor.
      * intros (pre & k0 & post & Heq & Hk0 & Hpost).
        destruct post as [|p post] using rev_ind.
        -- apply app_inj_tail in Heq as [_ [= -> _]]. done.
        -- rewrite app_comm_cons, app_assoc in Heq. apply app_inj_tail in Heq as [-> _].
           apply Forall_app in Hpost as [Hpost _]. exists pre, k0, post. done.
Qed.

(** ** The template given by id *)

(** The template [createFunction] finds by id is the first one with that id;
    it throws exactly when no template has the id. *)
Theorem findTemplateById_spec :
  forall templates language_ runtime templateId,
    (forall t, findTemplateById templates language_ runtime templateId = Ok t <->
       exists pre post, templates = pre ++ t :: post /\ id t = templateId /\
         Forall (fun t' => id t' <> templateId) pre) /\
    ((exists m, findTemplateById templates language_ runtime templateId = Err m) <->
       Forall (fun t => id t <> templateId) templates).
Proof.
  intros templates l r i. unfold findTemplateById.
  induction templates as [|t0 ts IH]; cbn.
  - split.
    + intros t. split; [discriminate|]. intros (pre & post & Heq & _). by destruct pre.
    + split; [intros _; done|]. intros _. eexists. reflexivity.
  - destruct IH as [IH1 IH2]. destruct (String.eqb (id t0) i) eqn:E.
    + apply String.eqb_eq in E. split.
      * intros t. split.
        -- intros [= <-]. exists [], ts. done.
        -- intros (pre & post & Heq & Hid & Hpre). destruct pre as [|p pre].
           ++ by injection Heq as <- _.
           ++ injection Heq as -> _. inversion Hpre. done.
      * split; [intros [m Hm]; discriminate|]. intros Hf. inversion Hf. done.
    + apply String.eqb_neq in E. split.
      * intros t. rewrite IH1. split.
        -- intros (pre & post & -> & Hid & Hpre). exists (t0 :: pre), post.
           split; [done|]. split; [done|]. by constructor.
        -- intros (pre & post & Heq & Hid & Hpre). destruct pre as [|p pre].
           ++ injection Heq as -> _. done.
           ++ injection Heq as -> ->. inversion Hpre; subst. exists pre, post. done.
      * rewrite IH2. split; [intros Hf; by constructor|]. intros Hf. by inversion Hf.
Qed.

(** ** The prompted settings *)

Lemma io_spec_res {H E A} P (r : res A) :
  io_spec P (io_res r : IO H E A) (fun a => r = Ok a).
Proof.
  destruct r; cbn; [apply io_spec_lift; by intros ? [= ->]|apply io_spec_throw].
Qed.

Lemma pick_answer_In {A} (items : list A) a x : pick_answer items a = JOk x -> In x items.
Proof.
  destruct a as [n| |]; cbn; try discriminate.
  destruct (nth_error items n) eqn:E; [|discriminate]. intros [= <-]. by eapply nth_error_In.
Qed.

Lemma promptForSetting_spec env (P : CreateFunctionEvent -> Prop) setting :
  P (promptEvent setting) ->
  io_spec P (promptForSetting env setting) (prompted_value_ok setting).
Proof.
  intros HP. unfold promptForSetting, promptEvent, prompted_value_ok in *.
  destruct (fs_resourceType setting) as [rt|].
  - unfold cf_prompt. repeat io_step; done.
  - destruct (fs_valueType setting);
      unfold promptForStringSetting, promptForBooleanSetting, promptForEnumSetting;
      repeat io_step; try done.
    intros x Hx%pick_answer_In. destruct Hx as [<-|[<-|[]]]; auto.
Qed.

Lemma ternary_empty v : (if String.eqb v "" then "" else v) = v.
Proof. destruct (String.eqb v "") eqn:E; [by apply String.eqb_eq in E|done]. Qed.

Lemma userSettingsLoop_spec_gen env fsets (P : CreateFunctionEvent -> Prop) settings us :
  (forall st, In st settings -> fs_get fsets (toLowerCase (fs_name st)) = None ->
     P (promptEvent st)) ->
  NoDup (map fs_name settings) ->
  io_spec P (userSettingsLoop env fsets settings us)
    (fun u => (forall st, In st settings -> user_setting_ok fsets st (u !! fs_name st)) /\
              (forall k, k ∉ map fs_name settings -> u !! k = us !! k)).
Proof.
  revert us. induction settings as [|st rest IH]; intros us HP Hnd; cbn [userSettingsLoop].
  - apply io_spec_ret. split; [intros ? []|done].
  - cbn in Hnd. apply NoDup_cons in Hnd as [Hni Hnd].
    eapply (io_spec_bind _ _ _ (fun v => user_setting_ok fsets st (Some v))).
    + unfold user_setting_ok. destruct (fs_get fsets (toLowerCase (fs_name st))) eqn:E.
      * by apply io_spec_ret.
      * eapply io_spec_weaken; [apply promptForSetting_spec, HP; [left|]; done|].
        intros v Hv. by exists v.
    + intros v Hv. rewrite ternary_empty.
      eapply io_spec_weaken; [apply IH; [intros st' Hst'; apply HP; by right|done]|].
      intros u [Hu1 Hu2]. split.
      * intros st' [<-|Hst']; [|by apply Hu1].
        rewrite Hu2 by done. by rewrite lookup_insert_eq.
      * intros k Hk. apply not_elem_of_cons in Hk as [Hk1 Hk2].
        rewrite Hu2 by done. by rewrite lookup_insert_ne.
Qed.

(** For settings with distinct names, the [userSettings] loop gives every
    setting a value: the caller's, matched on the lower-cased name, without a
    prompt; otherwise the prompted one, which is [true] or [false] for a
    boolean setting and one of the enum values for an enum setting. It
    prompts only for settings the caller did not give, and leaves other keys
    alone. *)
Theorem userSettingsLoop_values :
  forall env fsets settings us,
    NoDup (map fs_name settings) ->
    io_spec (fun ev => exists st, In st settings /\
                         fs_get fsets (toLowerCase (fs_name st)) = None /\ ev = promptEvent st)
      (userSettingsLoop env fsets settings us)
      (fun u => (forall st, In st settings -> user_setting_ok fsets st (u !! fs_name st)) /\
                (forall k, k ∉ map fs_name settings -> u !! k = us !! k)).
Proof.
  intros env fsets settings us Hnd. apply userSettingsLoop_spec_gen; [|done].
  intros st Hst Hn. by exists st.
Qed.

Lemma userSettingsLoop_values_witness :
  let fsets := createFunction_functionSettings (Some [("AUTHLEVEL", Some "anonymous")]) in
  io_spec (fun ev => exists st, In st httpTriggerSettings /\
                       fs_get fsets (toLowerCase (fs_name st)) = None /\ ev = promptEvent st)
    (userSettingsLoop sampleCreateFunctionEnv fsets httpTriggerSettings ∅)
    (fun u => (forall st, In st httpTriggerSettings -> user_setting_ok fsets st (u !! fs_name st)) /\
              (forall k, k ∉ map fs_name httpTriggerSettings ->
                 u !! k = (∅ : gmap string string) !! k)).
Proof.
  apply userSettingsLoop_values.
  apply (bool_decide_unpack _). vm_compute. exact I.
Defined.

(** ** Choosing a template *)

(** The template [promptForTemplate] returns is one of the templates
    [getTemplates] gives for the language, runtime and filter it returns with
    it; the only workspace settings it writes itself with
    [updateWorkspaceSetting] are the project runtime and language, both for
    [functionAppPath]; a change of filter is left to
    [selectTemplateFilter], called with [functionAppPath]. *)
Theorem promptForTemplate_from_templates :
  forall env templateData functionAppPath language_ runtime templateFilter,
    io_spec (fun ev =>
               (forall key v path, ev = CF_UpdateWorkspaceSetting key v path ->
                  (key = projectRuntimeSetting \/ key = projectLanguageSetting) /\
                  path = functionAppPath) /\
               (forall path, ev = CF_SelectTemplateFilter path -> path = functionAppPath))
      (promptForTemplate env templateData functionAppPath language_ runtime templateFilter)
      (fun '(t, language', runtime', templateFilter') =>
         exists templates,
           getTemplates templateData language' runtime' (Some templateFilter') = Ok templates /\
           In t templates).
Proof.
  intros env td p l r f. unfold promptForTemplate. apply io_spec_with_fuel. intros n.
  revert l r f. induction n as [|n IH]; intros l r f; cbn [promptForTemplateLoop];
    [apply io_spec_throw|].
  eapply io_spec_bind; [apply io_spec_res|intros ts Hts].
  cbv zeta. unfold cf_prompt, updateWorkspaceSetting.
  repeat (io_step || match goal with
                     | |- io_spec _ (promptForTemplateLoop _ _ _ _ _ _ _) _ => apply IH
                     end); try (split; intros * [=]; by auto).
  all: try done.
  exists ts. split; [done|].
  match goal with H : pick_answer _ _ = JOk _ |- _ => apply pick_answer_In in H end.
  match goal with H : In _ (_ ++ _) |- _ => apply in_app_iff in H as [Hin|Hin] end.
  - apply in_map_iff in Hin as (? & [= ->] & ?). done.
  - destruct Hin as [[=]|[[=]|[[=]|[]]]].
Qed.

(* ================================================================== *)
(** * Properties of [CSharpProjectCreator] *)

(** ** String tools *)

Lemma append_nil_l (b : string) : String.append EmptyString b = b.
Proof. reflexivity. Qed.

Lemma append_cons c (a b : string) : String.append (String c a) b = String c (String.append a b).
Proof. reflexivity. Qed.

Ltac str_simpl := rewrite ?append_nil_l, ?append_cons.
Ltac str_simpl_in H := rewrite ?append_nil_l, ?append_cons in H.

Lemma strip_prefix_Some p s r : strip_prefix p s = Some r <-> s = String.append p r.
Proof.
  revert s. induction p as [|c p IH]; intros [|d s]; cbn; str_simpl; try (split; intros; congruence).
  destruct (Ascii.eqb c d) eqn:E.
  - apply Ascii.eqb_eq in E as ->. rewrite IH. split; intros; congruence.
  - split; [discriminate|]. intros [= -> _]. by rewrite Ascii.eqb_refl in E.
Qed.

Lemma strip_prefix_None p s : strip_prefix p s = None -> forall r, s <> String.append p r.
Proof.
  intros H r ->. assert (strip_prefix p (String.append p r) = Some r) as H' by
    by apply strip_prefix_Some. congruence.
Qed.

Lemma prefix_iff p s : String.prefix p s = true <-> exists r, s = String.append p r.
Proof.
  revert s. induction p as [|c p IH]; intros [|d s]; cbn.
  - split; [by exists EmptyString|done].
  - split; [by exists (String d s)|done].
  - split; [discriminate|]. by intros [r Hr].
  - destruct (ascii_dec c d) as [->|Hne].
    + rewrite IH. split; intros [r Hr]; exists r; [by rewrite Hr|by injection Hr].
    + split; [discriminate|]. intros [r Hr]. injection Hr as Hr _. congruence.
Qed.

Lemma prefix_app p r : String.prefix p (String.append p r) = true.
Proof. apply prefix_iff. by exists r. Qed.

Lemma append_assoc (a b c : string) :
  String.append a (String.append b c) = String.append (String.append a b) c.
Proof. induction a as [|x a IH]; str_simpl; [done|by rewrite IH]. Qed.

Lemma append_nil_r (a : string) : String.append a EmptyString = a.
Proof. induction a as [|x a IH]; str_simpl; [done|by rewrite IH]. Qed.

Lemma str_forallb_app p a b :
  str_forallb p (String.append a b) = str_forallb p a && str_forallb p b.
Proof. induction a as [|c a IH]; str_simpl; cbn; [done|]. rewrite IH. by destruct (p c). Qed.

(** [includes s tag] holds exactly when [tag] starts at some position of [s]. *)
Lemma includes_iff s tag :
  includes s tag = true <-> exists x y, s = String.append x y /\ String.prefix tag y = true.
Proof.
  induction s as [|c s IH]; cbn.
  - rewrite orb_false_r. split.
    + intros H. by exists EmptyString, EmptyString.
    + intros (x & y & Hs & Hp). destruct x; str_simpl_in Hs; [|discriminate]. by subst.
  - rewrite orb_true_iff, IH. split.
    + intros [H|(x & y & -> & Hp)].
      * by exists EmptyString, (String c s).
      * by exists (String c x), y.
    + intros ([|d x] & y & Hs & Hp); str_simpl_in Hs.
      * left. by subst.
      * right. injection Hs as -> ->. by exists x, y.
Qed.

Lemma includes_app_r a b tag : includes b tag = true -> includes (String.append a b) tag = true.
Proof.
  rewrite !includes_iff. intros (x & y & -> & Hp). exists (String.append a x), y.
  by rewrite append_assoc.
Qed.

(** An occurrence of [String c0 t] cannot start inside a text free of [c0]. *)
Lemma includes_skip c0 t x y :
  str_forallb (fun d => negb (Ascii.eqb d c0)) x = true ->
  includes (String.append x y) (String c0 t) = includes y (String c0 t).
Proof.
  induction x as [|d x IH]; str_simpl; cbn; [done|]. intros H.
  apply andb_true_iff in H as [Hd Hx]. rewrite IH by done.
  destruct (ascii_dec c0 d) as [->|]; [|done]. by rewrite Ascii.eqb_refl in Hd.
Qed.

(** ** The target-framework expression *)

Lemma longest_before_none tag s : longest_before tag s = None <-> includes s tag = false.
Proof.
  induction s as [|c s IH]; cbn [longest_before includes orb].
  - destruct (String.prefix tag EmptyString); split; done.
  - destruct (longest_before tag s) as [p|] eqn:E.
    + split; [discriminate|]. intros H. apply orb_false_iff in H as [_ H].
      apply IH in H. discriminate.
    + destruct (String.prefix tag (String c s)) eqn:Ep; cbn [longest_before includes orb];
        [split; discriminate|]. rewrite <- IH. done.
Qed.

(** The greedy group stops at the last occurrence of the tag. *)
Lemma longest_before_sound tag s p :
  longest_before tag s = Some p ->
  exists r, s = String.append p r /\ String.prefix tag r = true /\
    (forall c r', r = String c r' -> includes r' tag = false).
Proof.
  revert p. induction s as [|c s IH]; intros p; cbn [longest_before includes orb].
  - destruct (String.prefix tag EmptyString) eqn:E; [|discriminate].
    intros [= <-]. exists EmptyString. done.
  - destruct (longest_before tag s) as [p'|] eqn:E.
    + intros [= <-]. destruct (IH p' eq_refl) as (r & -> & Hp & Hr). by exists r.
    + destruct (String.prefix tag (String c s)) eqn:Ep; [|discriminate].
      intros [= <-]. exists (String c s). repeat split; [done|].
      intros c' r' [= <- <-]. by apply longest_before_none.
Qed.

Lemma longest_before_complete tag p r :
  String.prefix tag r = true ->
  (forall c r', r = String c r' -> includes r' tag = false) ->
  longest_before tag (String.append p r) = Some p.
Proof.
  intros Hp Hr. induction p as [|c p IH]; str_simpl.
  - destruct r as [|c r']; cbn [longest_before]; [by rewrite Hp|].
    rewrite (proj2 (longest_before_none tag r') (Hr c r' eq_refl)). by rewrite Hp.
  - cbn [longest_before]. by rewrite IH.
Qed.

Lemma targetFrameworkOpen_shape :
  targetFrameworkOpen = String "<" "TargetFramework>".
Proof. reflexivity. Qed.

Lemma targetFrameworkClose_shape :
  targetFrameworkClose = String "<" "/TargetFramework>".
Proof. reflexivity. Qed.

Lemma close_all_dots : str_forallb regex_dot targetFrameworkClose = true.
Proof. reflexivity. Qed.

Lemma span_dots_tf tf post :
  str_forallb regex_dot tf = true ->
  exists postline rest, post = String.append postline rest /\
    fst (span regex_dot post) = postline /\
    span regex_dot (String.append tf (String.append targetFrameworkClose post)) =
      (String.append tf (String.append targetFrameworkClose postline), rest).
Proof.
  intros Htf. destruct (span regex_dot post) as [postline rest] eqn:Es.
  apply span_sound in Es as (-> & Hl & Hst). exists postline, rest.
  split; [done|]. split; [done|].
  rewrite (append_assoc targetFrameworkClose postline rest),
      (append_assoc tf (String.append targetFrameworkClose postline) rest).
  apply span_complete; [|done].
  rewrite !str_forallb_app, Htf, Hl. done.
Qed.

Lemma append_eq_cases (a b p r : string) :
  String.append a b = String.append p r ->
  (exists t, p = String.append a t /\ b = String.append t r) \/
  (exists t, a = String.append p t /\ r = String.append t b).
Proof.
  revert p. induction a as [|c a IH]; intros [|d p]; str_simpl; intros H.
  - left. by exists EmptyString.
  - left. by exists (String d p).
  - right. by exists (String c a).
  - injection H as -> H. destruct (IH p H) as [(t & -> & ->)|(t & -> & ->)].
    + left. by exists t.
    + right. by exists t.
Qed.

Lemma includes_refl_app tag x : includes (String.append tag x) tag = true.
Proof. apply includes_iff. exists EmptyString, (String.append tag x). split; [done|apply prefix_app]. Qed.

Lemma targetFrameworkOpen_inner :
  str_forallb (fun d => negb (Ascii.eqb d "<")) "TargetFramework>" = true.
Proof. reflexivity. Qed.

Lemma targetFrameworkClose_inner :
  str_forallb (fun d => negb (Ascii.eqb d "<")) "/TargetFramework>" = true.
Proof. reflexivity. Qed.

(** No occurrence of the opening tag can start inside a text that has
    none: the tag has no proper border. *)
Lemma open_not_inside c pre x :
  includes (String c pre) targetFrameworkOpen = false ->
  strip_prefix targetFrameworkOpen (String.append (String c pre) (String.append targetFrameworkOpen x)) = None.
Proof.
  intros Hinc. destruct (strip_prefix _ _) as [r|] eqn:E; [exfalso|done].
  apply strip_prefix_Some in E. apply append_eq_cases in E as [(t & Ho & Hb)|(t & Ha & _)].
  - destruct t as [|d t].
    + rewrite append_nil_r in Ho. rewrite <- Ho, <- (append_nil_r targetFrameworkOpen) in Hinc.
      by rewrite includes_refl_app in Hinc.
    + rewrite targetFrameworkOpen_shape, append_cons in Hb. injection Hb as <- _.
      rewrite targetFrameworkOpen_shape, append_cons in Ho. injection Ho as _ Ho.
      pose proof targetFrameworkOpen_inner as Hi. rewrite Ho, str_forallb_app in Hi.
      cbn in Hi. by rewrite andb_false_r in Hi.
  - rewrite Ha in Hinc. by rewrite includes_refl_app in Hinc.
Qed.

Lemma targetFrameworkMatch_eq s :
  targetFrameworkMatch s =
  match targetFrameworkMatchAt s with
  | Some v => Some v
  | None => match s with EmptyString => None | String _ s' => targetFrameworkMatch s' end
  end.
Proof. by destruct s. Qed.

Lemma includes_after_close postline :
  includes (String.append "/TargetFramework>" postline) targetFrameworkClose =
  includes postline targetFrameworkClose.
Proof. rewrite targetFrameworkClose_shape. apply includes_skip, targetFrameworkClose_inner. Qed.

Lemma targetFrameworkMatchAt_sound s tf :
  targetFrameworkMatchAt s = Some tf ->
  exists post,
    s = String.append targetFrameworkOpen (String.append tf (String.append targetFrameworkClose post)) /\
    str_forallb regex_dot tf = true /\
    includes (fst (span regex_dot post)) targetFrameworkClose = false.
Proof.
  unfold targetFrameworkMatchAt.
  destruct (strip_prefix targetFrameworkOpen s) as [rest|] eqn:Es; [|discriminate].
  apply strip_prefix_Some in Es as ->.
  destruct (span regex_dot rest) as [line rest2] eqn:Esp. cbn [fst]. intros Hl.
  apply longest_before_sound in Hl as (r & -> & Hp & Hr).
  apply prefix_iff in Hp as (postline & ->).
  apply span_sound in Esp as (-> & Hline & Hst).
  rewrite !str_forallb_app in Hline. apply andb_true_iff in Hline as [Htf Hline].
  apply andb_true_iff in Hline as [_ Hpl].
  exists (String.append postline rest2). split; [|split; [done|]].
  - by rewrite <- !append_assoc.
  - rewrite (span_complete _ _ _ Hpl Hst). cbn [fst]. rewrite <- includes_after_close.
    apply (Hr "<"%char). by rewrite targetFrameworkClose_shape.
Qed.

Lemma targetFrameworkMatchAt_complete tf post :
  str_forallb regex_dot tf = true ->
  includes (fst (span regex_dot post)) targetFrameworkClose = false ->
  targetFrameworkMatchAt
    (String.append targetFrameworkOpen (String.append tf (String.append targetFrameworkClose post))) =
  Some tf.
Proof.
  intros Htf Hinc. unfold targetFrameworkMatchAt.
  rewrite (proj2 (strip_prefix_Some _ _ _) eq_refl).
  destruct (span_dots_tf tf post Htf) as (postline & rest & _ & Hfst & Hsp).
  rewrite Hsp. cbn [fst]. rewrite Hfst in Hinc.
  apply longest_before_complete; [apply prefix_app|].
  intros c r' Hr. rewrite targetFrameworkClose_shape, append_cons in Hr.
  injection Hr as _ <-. by rewrite includes_after_close.
Qed.

Lemma targetFrameworkMatchAt_open_none post :
  targetFrameworkMatchAt (String.append targetFrameworkOpen post) = None ->
  includes (fst (span regex_dot post)) targetFrameworkClose = false.
Proof.
  unfold targetFrameworkMatchAt.
  rewrite (proj2 (strip_prefix_Some _ _ _) eq_refl). apply longest_before_none.
Qed.

(** A match of the target-framework expression of line 49 captures a
    text of one line between an opening tag and the last closing tag on
    that line; that opening tag is the first one of the file having a
    closing tag later on its line: every opening tag before it has none. *)
Theorem targetFrameworkMatch_sound s tf :
  targetFrameworkMatch s = Some tf ->
  exists pre post,
    s = (pre ++ targetFrameworkOpen ++ tf ++ targetFrameworkClose ++ post)%string /\
    str_forallb regex_dot tf = true /\
    includes (fst (span regex_dot post)) targetFrameworkClose = false /\
    (forall pre1 post1,
       s = (pre1 ++ targetFrameworkOpen ++ post1)%string ->
       String.length pre1 < String.length pre ->
       includes (fst (span regex_dot post1)) targetFrameworkClose = false).
Proof.
  induction s as [|c s IH]; rewrite targetFrameworkMatch_eq.
  - by unfold targetFrameworkMatchAt.
  - destruct (targetFrameworkMatchAt (String c s)) as [v|] eqn:Ea.
    + intros [= <-]. apply targetFrameworkMatchAt_sound in Ea as (post & Hs & Htf & Hinc).
      exists EmptyString, post. split; [done|]. split; [done|]. split; [done|].
      cbn. lia.
    + intros H. destruct (IH H) as (pre & post & Hs & Htf & Hinc & Hfirst).
      exists (String c pre), post. split; [str_simpl; by rewrite Hs|].
      split; [done|]. split; [done|].
      intros [|d pre1] post1 Hs1 Hlt.
      * rewrite append_nil_l in Hs1. rewrite Hs1 in Ea.
        by apply targetFrameworkMatchAt_open_none.
      * rewrite append_cons in Hs1. injection Hs1 as _ Hs1.
        apply (Hfirst pre1 post1 Hs1). cbn in Hlt. lia.
Qed.

(** Conversely, the expression captures [tf] when the text before has no
    opening tag and no closing tag follows later on the line. *)
Theorem targetFrameworkMatch_complete pre tf post :
  includes pre targetFrameworkOpen = false ->
  str_forallb regex_dot tf = true ->
  includes (fst (span regex_dot post)) targetFrameworkClose = false ->
  targetFrameworkMatch (pre ++ targetFrameworkOpen ++ tf ++ targetFrameworkClose ++ post)%string = Some tf.
Proof.
  intros Hpre Htf Hpost. induction pre as [|c pre IH].
  - rewrite targetFrameworkMatch_eq, append_nil_l.
    by rewrite targetFrameworkMatchAt_complete.
  - rewrite targetFrameworkMatch_eq. unfold targetFrameworkMatchAt at 1.
    rewrite open_not_inside by done. str_simpl. apply IH.
    cbn [includes] in Hpre. by apply orb_false_iff in Hpre as [_ Hpre].
Qed.

Lemma targetFrameworkMatch_complete_witness :
  let pre := ("<Project>" ++ String (ascii_of_nat 10) "<PropertyGroup>")%string in
  let tf := "netstandard2.0" in
  let post := "</PropertyGroup>" in
  includes pre targetFrameworkOpen = false /\ str_forallb regex_dot tf = true /\
  includes (fst (span regex_dot post)) targetFrameworkClose = false /\
  targetFrameworkMatch (pre ++ targetFrameworkOpen ++ tf ++ targetFrameworkClose ++ post)%string = Some tf.
Proof.
  cbv zeta. split; [vm_compute; reflexivity|]. split; [vm_compute; reflexivity|].
  split; [vm_compute; reflexivity|].
  apply targetFrameworkMatch_complete; vm_compute; reflexivity.
Defined.

Lemma targetFrameworkMatch_sound_witness :
  targetFrameworkMatch sampleCsproj = Some "net461" /\
  exists pre post,
    sampleCsproj = (pre ++ targetFrameworkOpen ++ "net461" ++ targetFrameworkClose ++ post)%string /\
    str_forallb regex_dot "net461" = true /\
    includes (fst (span regex_dot post)) targetFrameworkClose = false /\
    (forall pre1 post1,
       sampleCsproj = (pre1 ++ targetFrameworkOpen ++ post1)%string ->
       String.length pre1 < String.length pre ->
       includes (fst (span regex_dot post1)) targetFrameworkClose = false).
Proof.
  split; [vm_compute; reflexivity|].
  apply targetFrameworkMatch_sound. vm_compute. reflexivity.
Defined.

(** ** [String.prototype.replace] *)

Lemma strip_prefix_none_iff p s : strip_prefix p s = None <-> String.prefix p s = false.
Proof.
  destruct (strip_prefix p s) as [r|] eqn:E; destruct (String.prefix p s) eqn:Ep;
    split; try done.
  - apply strip_prefix_Some in E. rewrite E, prefix_app in Ep. discriminate.
  - apply prefix_iff in Ep as [r ->]. by rewrite (proj2 (strip_prefix_Some _ _ _) eq_refl) in E.
Qed.

Lemma first_occurrence_none pat s : includes s pat = false -> first_occurrence pat s = None.
Proof.
  induction s as [|c s IH]; cbn [includes first_occurrence]; intros H;
    apply orb_false_iff in H as [Hp H]; apply strip_prefix_none_iff in Hp; rewrite Hp; [done|].
  by rewrite IH.
Qed.

Lemma first_occurrence_eq pat s :
  first_occurrence pat s =
  match strip_prefix pat s with
  | Some after => Some (EmptyString, after)
  | None =>
      match s with
      | EmptyString => None
      | String c s' =>
          match first_occurrence pat s' with
          | Some (before, after) => Some (String c before, after)
          | None => None
          end
      end
  end.
Proof. by destruct s. Qed.

Lemma first_occurrence_app pat before after :
  occurs_within pat before (String.append pat after) = false ->
  first_occurrence pat (String.append before (String.append pat after)) = Some (before, after).
Proof.
  induction before as [|c before IH]; cbn [occurs_within]; intros H.
  - rewrite append_nil_l, first_occurrence_eq.
    by rewrite (proj2 (strip_prefix_Some _ _ _) eq_refl).
  - apply orb_false_iff in H as [Hp H]. apply strip_prefix_none_iff in Hp.
    rewrite first_occurrence_eq, Hp, append_cons. by rewrite IH.
Qed.

Lemma getSubstitution_plain matched before after r :
  str_forallb (fun c => negb (is_dollar c)) r = true ->
  getSubstitution matched before after r = r.
Proof.
  induction r as [|c r IH]; cbn; [done|]. intros H.
  apply andb_true_iff in H as [Hc H]. apply negb_true_iff in Hc. rewrite Hc. by rewrite IH.
Qed.

(** [s.replace(pat, replacement)], with a replacement free of [$], returns
    [s] when [pat] does not occur, and otherwise replaces the first
    occurrence only, by [replacement] taken literally. *)
Theorem js_replace_literal s pat replacement :
  str_forallb (fun c => negb (is_dollar c)) replacement = true ->
  (includes s pat = false -> js_replace s pat replacement = s) /\
  (forall before after,
     s = (before ++ pat ++ after)%string ->
     occurs_within pat before (pat ++ after)%string = false ->
     js_replace s pat replacement = (before ++ replacement ++ after)%string).
Proof.
  intros Hr. split.
  - intros H. unfold js_replace. by rewrite first_occurrence_none.
  - intros before after -> H. unfold js_replace. rewrite first_occurrence_app by done.
    by rewrite getSubstitution_plain.
Qed.

Lemma js_replace_literal_witness :
  str_forallb (fun c => negb (is_dollar c)) "1.0.8" = true /\
  js_replace "Version=1.0.6" "1.0.6" "1.0.8" = "Version=1.0.8".
Proof.
  split; [reflexivity|].
  apply (proj2 (js_replace_literal "Version=1.0.6" "1.0.6" "1.0.8" ltac:(reflexivity))
                "Version=" EmptyString); vm_compute; reflexivity.
Defined.

Lemma io_spec_get {H E} (P : E -> Prop) : io_spec P (io_get : IO H E H) (fun _ => True).
Proof. intros s. exists []. rewrite app_nil_r. done. Qed.

Lemma io_spec_put {H E} (P : E -> Prop) (h : H) : io_spec P (io_put h : IO H E unit) (fun _ => True).
Proof. intros s. exists []. rewrite app_nil_r. done. Qed.

Ltac cs_step := first [apply io_spec_get | apply io_spec_put | io_step].

(** ** [tryGetCsprojFile] *)

Lemma filter_nil_iff {A} (p : A -> bool) l :
  List.filter p l = [] <-> Forall (fun g => p g = false) l.
Proof.
  induction l as [|y l IH]; cbn; [split; by constructor|].
  rewrite Forall_cons. destruct (p y); [split; [discriminate|by intros []]|].
  rewrite IH. split; [done|by intros []].
Qed.

Lemma filter_singleton {A} (p : A -> bool) l x :
  List.filter p l = [x] <->
  exists pre post, l = pre ++ x :: post /\ p x = true /\ Forall (fun g => p g = false) (pre ++ post).
Proof.
  induction l as [|y l IH]; cbn.
  - split; [discriminate|]. intros (pre & post & Hl & _). by destruct pre.
  - destruct (p y) eqn:Ey.
    + split.
      * intros [= -> Hnil]. exists [], l. apply filter_nil_iff in Hnil. done.
      * intros ([|z pre] & post & Hl & Hx & Hf); cbn in Hl; injection Hl as -> ->.
        -- f_equal. by apply filter_nil_iff.
        -- exfalso. cbn in Hf. apply Forall_cons in Hf as [Hz _]. congruence.
    + rewrite IH. split.
      * intros (pre & post & -> & Hx & Hf). exists (y :: pre), post. cbn.
        split; [done|]. split; [done|]. by constructor.
      * intros ([|z pre] & post & Hl & Hx & Hf); cbn in Hl; injection Hl as -> Hl.
        -- congruence.
        -- exists pre, post. cbn in Hf. apply Forall_cons in Hf as [_ Hf]. done.
Qed.

Lemma tryGetCsprojFile_run env h log ui :
  tryGetCsprojFile env (mkIO h log ui) =
  match cs_readdir env with
  | JOk files => (JOk (selectCsproj files), mkIO h (log ++ [CS_ReadDir]) ui)
  | JErr e => (JErr e, mkIO h (log ++ [CS_ReadDir]) ui)
  end.
Proof. unfold tryGetCsprojFile. cbn. by destruct (cs_readdir env). Qed.

(** [tryGetCsprojFile] finds the only [.csproj] of the folder. *)
Theorem tryGetCsprojFile_spec env h log ui files f :
  cs_readdir env = JOk files ->
  fst (tryGetCsprojFile env (mkIO h log ui)) = JOk (Some f) <->
  exists pre post, files = pre ++ f :: post /\ endsWith f ".csproj" = true /\
    Forall (fun g => endsWith g ".csproj" = false) (pre ++ post).
Proof.
  intros Hrd. rewrite tryGetCsprojFile_run, Hrd. cbn [fst].
  transitivity (List.filter (fun g => endsWith g ".csproj") files = [f]);
    [|apply (filter_singleton (fun g => endsWith g ".csproj"))].
  unfold selectCsproj. split.
  - intros H. injection H as H. case_match; try discriminate; case_match; congruence.
  - by intros ->.
Qed.

Lemma tryGetCsprojFile_spec_witness :
  cs_readdir sampleCSharpEnv = JOk ["app.csproj"; "host.json"] /\
  exists pre post, ["app.csproj"; "host.json"] = pre ++ "app.csproj" :: post /\
    endsWith "app.csproj" ".csproj" = true /\
    Forall (fun g => endsWith g ".csproj" = false) (pre ++ post).
Proof.
  split; [reflexivity|].
  apply (proj1 (tryGetCsprojFile_spec sampleCSharpEnv emptyCSharpFields [] [] _ _ eq_refl)).
  vm_compute. reflexivity.
Defined.

(** ** [validateFuncSdkVersion] *)

Lemma validateFuncSdkVersion_ok env path contents s :
  exists s', validateFuncSdkVersion env path contents s = (JOk tt, s') /\
    io_heap s' = io_heap s /\ io_ui s' = io_ui s.
Proof.
  destruct s as [h log ui].
  unfold validateFuncSdkVersion, io_tryCatch, cs_telemetry, emit, io_lift, mbind, IO_bind,
    mret, IO_ret.
  destruct (cs_isWindows env); cbn; [by eexists|].
  repeat (case_match; simplify_eq/=); try match goal with a : unit |- _ => destruct a end;
    eexists; (split; [reflexivity|]); done.
Qed.

Lemma validateFuncSdkVersion_spec_gen env (P : CSharpEvent -> Prop) path contents :
  (forall raw, P (CS_Telemetry "cSharpFuncSdkVersion" raw)) ->
  (forall m, P (CS_Telemetry "cSharpFuncSdkError" m)) ->
  (forall line v raw,
     cs_isWindows env = false ->
     firstLineWith funcSdkPackage EmptyString contents = Some line ->
     versionMatch line = Some v -> cs_semver env v = JOk (raw, Lt) ->
     P (CS_WriteFile path (js_replace contents line (js_replace line raw minFuncSdkVersion)))) ->
  io_spec P (validateFuncSdkVersion env path contents) (fun _ => True).
Proof.
  intros Hv He Hw. unfold validateFuncSdkVersion, cs_telemetry.
  destruct (cs_isWindows env) eqn:Ew; cbn [negb]; [by apply io_spec_ret|].
  apply io_spec_tryCatch; [|intros; by apply io_spec_emit].
  repeat cs_step; subst; eauto.
Qed.

(** [validateFuncSdkVersion] never throws, does nothing on Windows, and
    writes only the project file, when SemVer finds the SDK below 1.0.8. *)
Theorem validateFuncSdkVersion_effects env path contents :
  (forall s, exists s', validateFuncSdkVersion env path contents s = (JOk tt, s') /\
     io_heap s' = io_heap s /\ io_ui s' = io_ui s) /\
  (cs_isWindows env = true -> forall s, validateFuncSdkVersion env path contents s = (JOk tt, s)) /\
  io_spec (validate_gate env path contents) (validateFuncSdkVersion env path contents) (fun _ => True).
Proof.
  split; [apply validateFuncSdkVersion_ok|]. split.
  - intros Hw s. unfold validateFuncSdkVersion. by rewrite Hw.
  - apply validateFuncSdkVersion_spec_gen; cbn; [by left|by right|].
    intros line v raw Hw Hl Hv Hs. split; [done|]. split; [done|]. by exists line, v, raw.
Qed.

(** ** [getRuntime] *)

Lemma bind_run {H E A B} (m : IO H E A) (f : A -> IO H E B) s :
  (m ≫= f) s = match m s with (JOk a, s') => f a s' | (JErr e, s') => (JErr e, s') end.
Proof. reflexivity. Qed.

Lemma emit_run {H E} (ev : E) (h : H) log ui :
  emit ev (mkIO h log ui) = (JOk tt, mkIO h (log ++ [ev]) ui).
Proof. reflexivity. Qed.

Lemma selectCsproj_endsWith files f : selectCsproj files = Some f -> endsWith f ".csproj" = true.
Proof.
  unfold selectCsproj. intros H.
  assert (In f (List.filter (fun g => endsWith g ".csproj") files)) as Hin.
  { repeat case_match; simplify_eq; by left. }
  by apply filter_In in Hin as [_ Hin].
Qed.

Lemma selectCsproj_nonempty files f : selectCsproj files = Some f -> String.eqb f "" = false.
Proof.
  intros H%selectCsproj_endsWith. destruct f; [discriminate|done].
Qed.

Lemma show64BitWarning_ok env :
  (forall url, cs_opn env url = JOk tt) ->
  (forall key v, cs_updateGlobalSetting env key v = JOk tt) ->
  forall s, exists s', show64BitWarning env s = (JOk tt, s') /\ io_heap s' = io_heap s.
Proof.
  intros Hopn Hupd [h log ui].
  unfold show64BitWarning, cs_showWarningMessage, io_tryCatch, emit, next_answer, io_lift,
    io_throw, mbind, IO_bind, mret, IO_ret.
  destruct (js_truthy _); cbn; [|by eexists].
  destruct ui as [|[[|[|[|n]]]| |] ui]; cbn; rewrite ?Hopn, ?Hupd; cbn;
    eexists; split; reflexivity.
Qed.

(** the failures of [getRuntime]: listing the folder fails, no single
    [.csproj], or no target framework in it; the fields stay unassigned. *)
Theorem getRuntime_errors env h log ui :
  (forall e, cs_readdir env = JErr e ->
     getRuntime env (mkIO h log ui) = (JErr e, mkIO h (log ++ [CS_ReadDir]) ui)) /\
  (forall files, cs_readdir env = JOk files -> selectCsproj files = None ->
     getRuntime env (mkIO h log ui) =
       (JErr (JsError "Error" (csprojNotFoundMessage (cs_projectName env))),
        mkIO h (log ++ [CS_ReadDir]) ui)) /\
  (forall files name contents,
     cs_readdir env = JOk files -> selectCsproj files = Some name ->
     cs_readFile env name = JOk contents -> targetFrameworkMatch contents = None ->
     exists s', getRuntime env (mkIO h log ui) =
       (JErr (JsError "Error" (unrecognizedTargetFrameworkMessage name)), s') /\ io_heap s' = h).
Proof.
  unfold getRuntime. split; [|split].
  - intros e Hrd. rewrite bind_run, tryGetCsprojFile_run, Hrd. done.
  - intros files Hrd Hsel. rewrite bind_run, tryGetCsprojFile_run, Hrd, Hsel. done.
  - intros files name contents Hrd Hsel Hrf Htf.
    rewrite bind_run, tryGetCsprojFile_run, Hrd, Hsel, (selectCsproj_nonempty _ _ Hsel).
    rewrite bind_run, emit_run, bind_run. cbn [io_lift]. rewrite Hrf, bind_run.
    destruct (validateFuncSdkVersion_ok env name contents
                (mkIO h ((log ++ [CS_ReadDir]) ++ [CS_ReadFile name]) ui)) as (s2 & Hv & Hh & _).
    rewrite Hv, Htf. cbn. by eexists.
Qed.

(** when the project file names a target framework and the 64-bit
    prompt's own calls succeed, [getRuntime] returns [beta] exactly for a
    [netstandard] framework, whatever the user answers, sets both subpaths from
    the framework, and the launch and task files follow from it. *)
Theorem getRuntime_result env h log ui files name contents tf :
  cs_readdir env = JOk files -> selectCsproj files = Some name ->
  cs_readFile env name = JOk contents -> targetFrameworkMatch contents = Some tf ->
  (forall url, cs_opn env url = JOk tt) ->
  (forall key v, cs_updateGlobalSetting env key v = JOk tt) ->
  let rt := if String.prefix "netstandard" tf then beta else one in
  exists s',
    getRuntime env (mkIO h log ui) = (JOk (Some rt), s') /\
    io_heap s' = mkCSharpFields (Some ("bin/Release/" ++ tf ++ "/publish")%string)
                                (Some ("bin/Debug/" ++ tf)%string) (Some rt) /\
    (exists cfg,
       js_get (getLaunchJson (io_heap s')) "configurations" = JOk (Some (JArr [cfg])) /\
       js_get cfg "type" = JOk (Some (JStr (if String.prefix "netstandard" tf then "coreclr" else "clr")))) /\
    (forall funcHostTaskId, exists tasks t opts,
       js_get (getTasksJson funcHostTaskId (io_heap s')) "tasks" = JOk (Some (JArr tasks)) /\
       last tasks = Some t /\ js_get t "options" = JOk (Some opts) /\
       js_get opts "cwd" = JOk (Some (JStr ("${workspaceFolder}/bin/Debug/" ++ tf)%string))).
Proof.
  intros Hrd Hsel Hrf Htf Hopn Hupd rt. unfold getRuntime.
  rewrite bind_run, tryGetCsprojFile_run, Hrd, Hsel, (selectCsproj_nonempty _ _ Hsel).
  rewrite bind_run, emit_run, bind_run. cbn [io_lift]. rewrite Hrf, bind_run.
  destruct (validateFuncSdkVersion_ok env name contents
              (mkIO h ((log ++ [CS_ReadDir]) ++ [CS_ReadFile name]) ui)) as ([h2 l2 u2] & Hv & Hh & _).
  cbn in Hh. subst h2. rewrite Hv, Htf, bind_run. unfold cs_telemetry. rewrite emit_run, bind_run.
  assert (exists s3, (if String.prefix "netstandard" tf then set_runtime beta
                      else set_runtime one;; show64BitWarning env)
                       (mkIO h (l2 ++ [CS_Telemetry "cSharpTargetFramework" tf]) u2) = (JOk tt, s3) /\
                     io_heap s3 = mkCSharpFields (deploySubpath h) (_debugSubpath h) (Some rt))
    as ([h3 l3 u3] & Hs3 & Hh3).
  { unfold rt. destruct (String.prefix "netstandard" tf).
    { unfold set_runtime. rewrite bind_run. cbn. by eexists. }
    rewrite bind_run. unfold set_runtime. rewrite bind_run. cbn.
    match goal with |- context [show64BitWarning env ?s] =>
      destruct (show64BitWarning_ok env Hopn Hupd s) as (s4 & -> & Hh4) end.
    eexists. split; [reflexivity|]. rewrite Hh4. reflexivity. }
  rewrite Hs3. cbn in Hh3. subst h3. unfold set_subpaths. rewrite !bind_run. cbn. eexists. split; [reflexivity|]. split; [done|].
  split.
  - eexists. split; [reflexivity|]. cbn. unfold rt. by destruct (String.prefix "netstandard" tf).
  - intros hostId. do 3 eexists. split; [reflexivity|]. split; [reflexivity|]. by split.
Qed.

Lemma getRuntime_result_witness :
  exists s', getRuntime sampleCSharpEnv (mkIO emptyCSharpFields [] [Dismiss]) = (JOk (Some one), s') /\
    io_heap s' = mkCSharpFields (Some "bin/Release/net461/publish") (Some "bin/Debug/net461") (Some one).
Proof.
  destruct (getRuntime_result sampleCSharpEnv emptyCSharpFields [] [Dismiss]
              ["app.csproj"; "host.json"] "app.csproj" sampleCsproj "net461"
              eq_refl ltac:(vm_compute; reflexivity) eq_refl ltac:(vm_compute; reflexivity)
              ltac:(intros; reflexivity) ltac:(intros; reflexivity)) as (s' & Hr & Hh & _).
  exists s'. split; [exact Hr | exact Hh].
Defined.

Lemma tryGetCsprojFile_io_spec env (P : CSharpEvent -> Prop) :
  P CS_ReadDir ->
  io_spec P (tryGetCsprojFile env)
    (fun o => exists files, cs_readdir env = JOk files /\ selectCsproj files = o).
Proof.
  intros Hp. unfold tryGetCsprojFile. repeat cs_step; [done|]. eauto.
Qed.

Lemma show64BitWarning_spec env (P : CSharpEvent -> Prop) :
  (js_truthy (cs_getFuncExtensionSetting env "show64BitWarning") = true ->
   P (CS_ShowWarning sixtyFourBitMessage false [DR_learnMore; DR_dontWarnAgain])) ->
  P (CS_Opn sixtyFourBitLink) ->
  P (CS_UpdateGlobalSetting "show64BitWarning" (JBool false)) ->
  io_spec P (show64BitWarning env) (fun _ => True).
Proof.
  intros Hw Ho Hu. unfold show64BitWarning, cs_showWarningMessage. cbv zeta.
  destruct (js_truthy _) eqn:Et; [|by apply io_spec_ret].
  repeat cs_step; auto.
Qed.

(** every outside effect of [getRuntime] is one the source performs on
    its path: reading the folder and the selected project file, the SDK
    check, telemetry, and the 64-bit prompt only for a framework other than
    [netstandard] with the setting on; it never prompts for a runtime, checks
    for files or runs the template command. *)
Theorem getRuntime_effects env :
  io_spec (getRuntime_gate env) (getRuntime env) (fun _ => True).
Proof.
  unfold getRuntime.
  eapply io_spec_bind; [by apply tryGetCsprojFile_io_spec|intros o (files & Hrd & Hsel)].
  destruct o as [name|]; [|apply io_spec_throw].
  destruct (String.eqb name ""); [apply io_spec_throw|].
  cs_step; [apply io_spec_emit; cbn; eauto|].
  cs_step. cs_step.
  { apply validateFuncSdkVersion_spec_gen; cbn; [by left|by right; left|].
    intros line v raw Hw _ _ _. split; [done|]. eauto. }
  destruct (targetFrameworkMatch _) as [tf|] eqn:Etf; [|apply io_spec_throw].
  unfold cs_telemetry. cs_step; [apply io_spec_emit; cbn; by right; right|].
  cs_step.
  { destruct (String.prefix "netstandard" tf) eqn:Ep; unfold set_runtime; repeat cs_step.
    apply show64BitWarning_spec; cbn; [|done|done].
    intros Ht. do 3 (split; [done|]). split; [done|]. eauto 10. }
  unfold set_subpaths. repeat cs_step; done.
Qed.

(** ** [confirmOverwriteExisting] *)

Lemma existingFilesLoop_run env (exists_ : string -> bool) h ui :
  (forall f, cs_pathExists env f = JOk (exists_ f)) ->
  forall files log,
    existingFilesLoop env files (mkIO h log ui) =
    (JOk (List.filter exists_ files), mkIO h (log ++ map CS_PathExists files) ui).
Proof.
  intros He files. induction files as [|f files IH]; intros log; cbn [existingFilesLoop].
  - by rewrite app_nil_r.
  - rewrite bind_run, emit_run, bind_run. cbn [io_lift]. rewrite He, bind_run, IH.
    cbn. rewrite <- app_assoc. by destruct (exists_ f).
Qed.

(** [confirmOverwriteExisting] checks the four files in order; with none
    present it returns [false] without a prompt; otherwise it shows one modal
    warning listing the present ones and returns [true] only when the first
    answer picks Yes, any other answer cancelling the command. *)
Theorem confirmOverwriteExisting_outcome env gi ls host csProjName
    (exists_ : string -> bool) h log ui :
  (forall f, cs_pathExists env f = JOk (exists_ f)) ->
  let files := [csProjName; gi; ls; host] in
  let existing := List.filter exists_ files in
  let log1 := log ++ map CS_PathExists files in
  confirmOverwriteExisting env gi ls host csProjName (mkIO h log ui) =
  match existing with
  | [] => (JOk false, mkIO h log1 ui)
  | _ =>
      let log2 := log1 ++ [CS_ShowWarning (overwriteMessage existing) true [DR_yes; DR_cancel]] in
      match ui with
      | Pick 0 :: rest => (JOk true, mkIO h log2 rest)
      | _ :: rest => (JErr UserCancelledError, mkIO h log2 rest)
      | [] => (JErr UserCancelledError, mkIO h log2 [])
      end
  end.
Proof.
  intros He files existing log1. unfold confirmOverwriteExisting.
  rewrite bind_run, (existingFilesLoop_run env exists_ h ui He). fold files existing log1.
  destruct existing as [|e0 rest0] eqn:Eex; [reflexivity|].
  cbn [List.length Nat.ltb Nat.leb]. unfold cs_showWarningMessage.
  rewrite bind_run, bind_run, emit_run, bind_run.
  destruct ui as [|[[|[|[|n]]]| |] ui]; reflexivity.
Qed.

Lemma confirmOverwriteExisting_outcome_witness :
  confirmOverwriteExisting sampleCSharpEnv ".gitignore" "local.settings.json" "host.json" "app.csproj"
    (mkIO emptyCSharpFields [] [Pick 0]) =
  (JOk true, mkIO emptyCSharpFields
     (map CS_PathExists ["app.csproj"; ".gitignore"; "local.settings.json"; "host.json"] ++
      [CS_ShowWarning (overwriteMessage ["host.json"]) true [DR_yes; DR_cancel]]) []).
Proof.
  pose proof (confirmOverwriteExisting_outcome sampleCSharpEnv ".gitignore" "local.settings.json"
                "host.json" "app.csproj" (fun f => String.eqb f "host.json") emptyCSharpFields [] [Pick 0]
                (fun f => eq_refl)) as Hc.
  cbv zeta in Hc. rewrite Hc. reflexivity.
Defined.

(** ** [addNonVSCodeFiles] *)

Lemma existingFilesLoop_io_spec env (P : CSharpEvent -> Prop) files :
  (forall f, In f files -> P (CS_PathExists f)) ->
  io_spec P (existingFilesLoop env files) (fun _ => True).
Proof.
  induction files as [|f files IH]; intros Hp; cbn [existingFilesLoop]; [by apply io_spec_ret|].
  cs_step; [apply io_spec_emit, Hp; by left|].
  cs_step. cs_step; [apply IH; intros g Hg; apply Hp; by right|]. by apply io_spec_ret.
Qed.

(** every outside effect of [addNonVSCodeFiles] is one of its steps:
    checks of the four project files, the modal overwrite warning, the
    runtime prompt only when [tryGetLocalRuntimeVersion()] (called with no
    folder argument) gives no runtime, and the template command with the
    identity of the chosen runtime, that runtime being the one
    [tryGetLocalRuntimeVersion()] gives whenever it gives one. *)
Theorem addNonVSCodeFiles_effects env gi ls host :
  io_spec (addNonVSCodeFiles_gate env gi ls host) (addNonVSCodeFiles env gi ls host) (fun _ => True).
Proof.
  unfold addNonVSCodeFiles. cbv zeta. cs_step.
  { unfold confirmOverwriteExisting. cs_step.
    - apply existingFilesLoop_io_spec. intros f Hf. exact Hf.
    - destruct (0 <? _)%nat; [|by apply io_spec_ret].
      unfold cs_showWarningMessage. repeat cs_step; done. }
  cs_step. match goal with
             Hl : cs_tryGetLocalRuntimeVersion env = JOk ?x |- _ =>
               rename x into localRuntime; rename Hl into Hlocal end.
  eapply (io_spec_bind _ _ _
            (fun rt => forall r, cs_tryGetLocalRuntimeVersion env = JOk (Some r) -> rt = r)).
  { destruct localRuntime as [r|].
    - apply io_spec_ret. rewrite Hlocal. by intros ? [= ->].
    - repeat cs_step; [exact Hlocal|]. intros r. rewrite Hlocal. discriminate. }
  intros rt Hrt. unfold set_runtime. repeat cs_step.
  - cbn. split; [|exact Hrt]. by destruct rt.
  - done.
Qed.
